(** * Quiz attempts, scoring and insights: a shallow embedding

    The development embeds the back end of the quiz application
    (quizapp-backend) and checks the properties its specification states:

    - controllers/quizAttemptController.js: [createQuizAttempt],
      [isValidUUID], [submitQuizAnswer], [getUserQuizAttempts],
      [getQuizAttemptById], [deleteQuizAttempt];
    - controllers/quizController.js (kept in the same file):
      [deleteQuiz], [getAllQuizzes];
    - controllers/questionController.js: [getQuizQuestions];
    - controllers/badgeController.js: [deleteBadge], [getBadges];
    - utils/mlInsightGenerator.js (kept in the same file as
      utils/migrateAndCleanupTopics.js): [generateUserInsights];
    - utils/migrateAndCleanupTopics.js: the choice of the quiz that is kept
      for a duplicated topic;
    - controllers/dashboardController.js: [getDashboardData];
    - quiz-growth-pulse/src/components/QuizInterface.tsx: [isAnswerCorrect]
      and the request [submitQuiz] prepares;
    - models/Quiz.js (with QuizAttempt and QuizAttemptAnswer),
      models/Question.js, models/MLInsight.js, models/UserBadge.js: the
      Mongoose schemas, as records, with their unique indexes and the
      required path the handlers can miss.

    JavaScript numbers are IEEE 754 binary64 values: they are embedded as
    Rocq's primitive floats, so [Math_round (2 / 3 * 100)] evaluates here to
    what Node evaluates it to.  The MongoDB collections are lists of documents
    in insertion order; a handler is a function from the database (and the
    values the handler draws from the outside: fresh UUIDs, the clock) to the
    new database and the HTTP response.

    What the embedding leaves out: failures of the database itself, and the
    casting Mongoose applies to values that are not of the type of their path
    (the numbers of a request are Numbers, its ids are strings or absent). *)

From Stdlib Require Import ZArith List String Ascii Bool Lia Permutation Sorted.
From Stdlib Require Import DecimalString.
From Stdlib Require Import Floats.PrimFloat Floats.FloatOps Floats.SpecFloat.
From Stdlib Require Import Floats.FloatAxioms.
Import ListNotations.

Set Warnings "-inexact-float,-register-all".

Open Scope string_scope.
Open Scope list_scope.
Open Scope nat_scope.

(* ================================================================== *)
(** * JavaScript numbers *)

Module JS.

(** The Number type. *)
Definition Number : Set := float.

(** An integer as a Number (exact below 2^53). *)
Definition Number_of_Z (z : Z) : Number :=
  match z with
  | Z0 => zero
  | Zpos p => SF2Prim (S754_finite false p 0)
  | Zneg p => SF2Prim (S754_finite true p 0)
  end.

Definition Number_of_nat (n : nat) : Number := Number_of_Z (Z.of_nat n).

(** [Math.round]: the integral Number closest to [x], ties towards
    +infinity; NaN, the infinities and the zeros are returned as they are,
    and a result of zero keeps the sign of [x]. *)
Definition Math_round (x : Number) : Number :=
  match Prim2SF x with
  | S754_finite s m e =>
      if (0 <=? e)%Z then x
      else
        let d := Z.pow 2 (- e) in
        let n := if s then Zneg m else Zpos m in
        let r := Z.div (2 * n + d) (2 * d) in
        if (r =? 0)%Z then (if s then neg_zero else zero)
        else Number_of_Z r
  | _ => x
  end.

(** [Math.min] and [Math.max] on two arguments: NaN if either is NaN, and
    -0 counts as smaller than +0. *)
Definition Math_min (a b : Number) : Number :=
  if is_nan a || is_nan b then nan
  else if ltb a b then a
  else if ltb b a then b
  else if get_sign a then a else b.

Definition Math_max (a b : Number) : Number :=
  if is_nan a || is_nan b then nan
  else if ltb a b then b
  else if ltb b a then a
  else if get_sign a then b else a.

(** [isNaN] on a Number. *)
Definition isNaN (x : Number) : bool := is_nan x.

(** Truthiness of a Number: 0, -0 and NaN are falsy. *)
Definition truthy (x : Number) : bool := negb (is_nan x || is_zero x).

(** [x || y] on Numbers. *)
Definition or_else (x y : Number) : Number := if truthy x then x else y.

End JS.

Import JS.

(* ================================================================== *)
(** * JSON values and [JSON.stringify] *)

(** A request body is parsed JSON.  Strings are byte strings (the UTF-8
    encoding); [JNum] carries the integer-valued numbers, which
    [JSON.stringify] prints in decimal (below 10^21). *)
Inductive json : Type :=
| JNull
| JBool (b : bool)
| JNum (z : Z)
| JStr (s : string)
| JArr (l : list json)
| JObj (l : list (string * json)).

Definition hex_digit (n : nat) : ascii :=
  match n with
  | 0 => "0" | 1 => "1" | 2 => "2" | 3 => "3" | 4 => "4" | 5 => "5"
  | 6 => "6" | 7 => "7" | 8 => "8" | 9 => "9" | 10 => "a" | 11 => "b"
  | 12 => "c" | 13 => "d" | 14 => "e" | _ => "f"
  end%char.

(** The double quote. *)
Definition dquote : ascii := ascii_of_nat 34.

(** The escape of one character inside a JSON string literal
    (QuoteJSONString): the quote, the backslash and the control characters
    are escaped, everything else is copied. *)
Definition escape_char (c : ascii) : string :=
  let n := nat_of_ascii c in
  if Nat.eqb n 34 then String "\" (String dquote EmptyString)
  else if Nat.eqb n 92 then "\\"
  else if Nat.eqb n 8 then "\b"
  else if Nat.eqb n 12 then "\f"
  else if Nat.eqb n 10 then "\n"
  else if Nat.eqb n 13 then "\r"
  else if Nat.eqb n 9 then "\t"
  else if Nat.ltb n 32 then
    String "\" (String "u" (String "0" (String "0"
      (String (hex_digit (n / 16)) (String (hex_digit (n mod 16)) EmptyString)))))
  else String c EmptyString.

Fixpoint escape (s : string) : string :=
  match s with
  | EmptyString => EmptyString
  | String c t => (escape_char c ++ escape t)%string
  end.

Definition quote (s : string) : string :=
  String dquote (escape s ++ String dquote EmptyString)%string.

Fixpoint join_commas (l : list string) : string :=
  match l with
  | [] => EmptyString
  | [x] => x
  | x :: t => (x ++ "," ++ join_commas t)%string
  end.

Definition string_of_Z (z : Z) : string :=
  NilZero.string_of_int (Z.to_int z).

Fixpoint stringify (v : json) : string :=
  match v with
  | JNull => "null"
  | JBool true => "true"
  | JBool false => "false"
  | JNum z => string_of_Z z
  | JStr s => quote s
  | JArr l => ("[" ++ join_commas (map stringify l) ++ "]")%string
  | JObj l =>
      ("{" ++ join_commas
                (map (fun kv => quote (fst kv) ++ ":" ++ stringify (snd kv)) l)
           ++ "}")%string
  end.

(** [JSON.stringify(x)] for a property [x] that may be absent:
    [JSON.stringify(undefined)] is [undefined]. *)
Definition JSON_stringify (x : option json) : option string :=
  option_map stringify x.

(** [a === b] on two values that are strings or [undefined]. *)
Definition strict_eq_str (a b : option string) : bool :=
  match a, b with
  | Some x, Some y => String.eqb x y
  | None, None => true
  | _, _ => false
  end.

(** The correctness test both handlers use:
    [JSON.stringify(selected_answer) === JSON.stringify(question.correct_answer)],
    where [correct_answer] is the schema's array of strings. *)
Definition answer_is_correct (selected_answer : option json)
    (correct_answer : list string) : bool :=
  strict_eq_str (JSON_stringify selected_answer)
                (JSON_stringify (Some (JArr (map JStr correct_answer)))).

(* ================================================================== *)
(** * [isValidUUID] *)

Definition is_digit (c : ascii) : bool :=
  let n := nat_of_ascii c in (48 <=? n) && (n <=? 57).

(** [[0-9a-f]] under the [i] flag. *)
Definition is_hex (c : ascii) : bool :=
  let n := nat_of_ascii c in
  is_digit c || ((97 <=? n) && (n <=? 102)) || ((65 <=? n) && (n <=? 70)).

(** [[1-5]]. *)
Definition is_version (c : ascii) : bool :=
  let n := nat_of_ascii c in (49 <=? n) && (n <=? 53).

(** [[89ab]] under the [i] flag. *)
Definition is_variant (c : ascii) : bool :=
  let n := nat_of_ascii c in
  (n =? 56) || (n =? 57) || (n =? 97) || (n =? 98) || (n =? 65) || (n =? 66).

(** [[0-9a-f]{n}]: the rest of the input after [n] hexadecimal digits. *)
Fixpoint hexes (n : nat) (s : string) : option string :=
  match n with
  | O => Some s
  | S k =>
      match s with
      | String c t => if is_hex c then hexes k t else None
      | EmptyString => None
      end
  end.

Definition expect (p : ascii -> bool) (s : option string) : option string :=
  match s with
  | Some (String c t) => if p c then Some t else None
  | _ => None
  end.

Definition is_dash (c : ascii) : bool := Nat.eqb (nat_of_ascii c) 45.

(** /^[0-9a-f]{8}-[0-9a-f]{4}-[1-5][0-9a-f]{3}-[89ab][0-9a-f]{3}-[0-9a-f]{12}$/i *)
Definition isValidUUID (uuid : string) : bool :=
  let bind (o : option string) (f : string -> option string) :=
    match o with Some s => f s | None => None end in
  let r := hexes 8 uuid in
  let r := expect is_dash r in
  let r := bind r (hexes 4) in
  let r := expect is_dash r in
  let r := expect is_version r in
  let r := bind r (hexes 3) in
  let r := expect is_dash r in
  let r := expect is_variant r in
  let r := bind r (hexes 3) in
  let r := expect is_dash r in
  let r := bind r (hexes 12) in
  match r with
  | Some EmptyString => true
  | _ => false
  end.

(** [s.trim() === ''], on the ASCII white space.  (A string of other white
    space is refused all the same, by [isValidUUID], with the same status and
    message.) *)
Definition is_space (c : ascii) : bool :=
  let n := nat_of_ascii c in
  (n =? 32) || ((9 <=? n) && (n <=? 13)).

Fixpoint is_blank (s : string) : bool :=
  match s with
  | EmptyString => true
  | String c t => is_space c && is_blank t
  end.

(* ================================================================== *)
(** * JavaScript objects used as maps *)

(** A plain object ([{}]) with string keys: its own enumerable properties in
    insertion order, which is the order [Object.keys] and [Object.entries]
    list them in (keys that are array indices apart: topics and ids are not).
    A key that is not an own property is still found when [Object.prototype]
    has it. *)
Module Obj.

Definition t (V : Type) : Type := list (string * V).

Definition prototype_names : list string :=
  [ "constructor"; "__defineGetter__"; "__defineSetter__"; "hasOwnProperty";
    "__lookupGetter__"; "__lookupSetter__"; "isPrototypeOf";
    "propertyIsEnumerable"; "toString"; "valueOf"; "__proto__";
    "toLocaleString" ].

Definition inherited (k : string) : bool :=
  existsb (String.eqb k) prototype_names.

Section Ops.
Context {V : Type}.

Fixpoint own (o : t V) (k : string) : option V :=
  match o with
  | [] => None
  | (k', v) :: r => if String.eqb k k' then Some v else own r k
  end.

(** [o[k] = v] for an ordinary key: an existing property keeps its place. *)
Fixpoint set (o : t V) (k : string) (v : V) : t V :=
  match o with
  | [] => [(k, v)]
  | (k', v') :: r =>
      if String.eqb k k' then (k', v) :: r else (k', v') :: set r k v
  end.

Definition keys (o : t V) : list string := map fst o.

End Ops.
End Obj.

(* ================================================================== *)
(** * The data model (models/*.js) *)

Definition Date : Set := Z.

Inductive Difficulty : Set := EASY | MEDIUM | HARD.
Inductive Status : Set := IN_PROGRESS | COMPLETED | ABANDONED.

Definition Status_eqb (a b : Status) : bool :=
  match a, b with
  | IN_PROGRESS, IN_PROGRESS | COMPLETED, COMPLETED | ABANDONED, ABANDONED => true
  | _, _ => false
  end.

Module Quiz.
Record t : Type := mk {
  id : string;
  title : string;
  topic : string;
  difficulty : Difficulty;
  created_at : Date
}.
End Quiz.

(** The question's [content], [question_type] and [options] are not read by
    any of the handlers. *)
Module Question.
Record t : Type := mk {
  id : string;
  quiz_id : string;
  correct_answer : list string;
  created_at : Date
}.
End Question.

Module QuizAttempt.
Record t : Type := mk {
  id : string;
  user_id : string;
  quiz_id : string;
  status : Status;
  score : option Number;
  total_questions : option Number;
  correct_answers : option Number;
  time_taken : option Number;
  created_at : Date;
  completed_at : option Date
}.
End QuizAttempt.

Module QuizAttemptAnswer.
Record t : Type := mk {
  id : string;
  attempt_id : string;
  question_id : string;
  question_order : Number;
  selected_answer : json;
  is_correct : bool;
  created_at : Date
}.
End QuizAttemptAnswer.

(** The schema of MLInsight has the first seven paths.  [topic_proficiency]
    and [weak_topics_data] are not in the schema: the generator sets them on
    the document it returns, the (strict) schema does not write them, and the
    dashboard reads them from the stored document when it has them. *)
Module MLInsight.
Record t : Type := mk {
  id : string;
  user_id : string;
  weak_topics : list string;
  strong_topics : list string;
  confidence_scores : Obj.t Number;
  topic_performance : Obj.t Number;
  last_updated : Date;
  topic_proficiency : option (Obj.t Number);
  weak_topics_data : option (Obj.t Number)
}.
End MLInsight.

Module UserBadge.
Record t : Type := mk {
  id : string;
  user_id : string;
  badge_id : string;
  achieved_at : Date
}.
End UserBadge.

Module Badge.
Record t : Type := mk {
  id : string;
  name : string;
  description : string
}.
End Badge.

(** The collections, each in insertion order. *)
Record DB : Type := mkDB {
  quizzes : list Quiz.t;
  questions : list Question.t;
  attempts : list QuizAttempt.t;
  answers : list QuizAttemptAnswer.t;
  insights : list MLInsight.t;
  user_badges : list UserBadge.t;
  badges : list Badge.t
}.

Definition with_attempts (db : DB) (l : list QuizAttempt.t) : DB :=
  mkDB (quizzes db) (questions db) l (answers db) (insights db)
       (user_badges db) (badges db).

Definition with_answers (db : DB) (l : list QuizAttemptAnswer.t) : DB :=
  mkDB (quizzes db) (questions db) (attempts db) l (insights db)
       (user_badges db) (badges db).

Definition with_insights (db : DB) (l : list MLInsight.t) : DB :=
  mkDB (quizzes db) (questions db) (attempts db) (answers db) l
       (user_badges db) (badges db).

(** What a handler draws from outside the database: the [n]-th value of
    [uuidv4()] in this call, and the clock. *)
Record Env : Type := mkEnv {
  uuidv4 : nat -> string;
  now : Date
}.

(** A thrown [Error]. *)
Record Error : Type := mkError {
  error_name : string;
  error_message : string
}.

Inductive Result (A : Type) : Type :=
| Ok (a : A)
| Throw (e : Error).
Arguments Ok {A} a.
Arguments Throw {A} e.

Definition bind {A B : Type} (r : Result A) (f : A -> Result B) : Result B :=
  match r with
  | Ok a => f a
  | Throw e => Throw e
  end.

Notation "'let*' x ':=' r 'in' k" := (bind r (fun x => k))
  (at level 10, x pattern, r at level 100, k at level 200).

(** ** Mongoose queries *)

Definition findOne {A : Type} (p : A -> bool) (c : list A) : option A :=
  find p c.

Definition countDocuments {A : Type} (p : A -> bool) (c : list A) : nat :=
  List.length (filter p c).

(** The unique indexes of QuizAttemptAnswer: [id], and the pair
    [(attempt_id, question_id)]. *)
Definition answer_duplicates (a b : QuizAttemptAnswer.t) : bool :=
  String.eqb (QuizAttemptAnswer.id a) (QuizAttemptAnswer.id b)
  || (String.eqb (QuizAttemptAnswer.attempt_id a) (QuizAttemptAnswer.attempt_id b)
      && String.eqb (QuizAttemptAnswer.question_id a) (QuizAttemptAnswer.question_id b)).

Definition duplicate_key : Error :=
  mkError "MongoServerError" "E11000 duplicate key error".

Definition validation_failed (path : string) : Error :=
  mkError "ValidationError"
          ("Path `" ++ path ++ "` is required.")%string.

(** [selected_answer] is a required Mixed path: [undefined] and [null] fail
    the validation. *)
Definition required_mixed (v : option json) : Result json :=
  match v with
  | None | Some JNull => Throw (validation_failed "selected_answer")
  | Some j => Ok j
  end.

(** Insertion of one answer document under the unique indexes. *)
Definition insert_answer (a : QuizAttemptAnswer.t) (db : DB) : Result DB :=
  if existsb (answer_duplicates a) (answers db) then Throw duplicate_key
  else Ok (with_answers db (answers db ++ [a])).

(** Insertion of one attempt document under the unique index on [id]. *)
Definition insert_attempt (a : QuizAttempt.t) (db : DB) : Result DB :=
  if existsb (fun b => String.eqb (QuizAttempt.id a) (QuizAttempt.id b)) (attempts db)
  then Throw duplicate_key
  else Ok (with_attempts db (attempts db ++ [a])).

(** [QuizAttempt.updateOne({ id }, update)]: the first attempt with this id. *)
Fixpoint updateOne (id : string) (f : QuizAttempt.t -> QuizAttempt.t)
    (c : list QuizAttempt.t) : list QuizAttempt.t :=
  match c with
  | [] => []
  | a :: r =>
      if String.eqb (QuizAttempt.id a) id then f a :: r
      else a :: updateOne id f r
  end.

(** [session.withTransaction(body)]: the writes of [body] are committed when
    it returns and discarded when it throws. *)
Definition withTransaction {A : Type} (db : DB) (body : DB -> Result (DB * A))
    : DB * Result A :=
  match body db with
  | Ok (db', a) => (db', Ok a)
  | Throw e => (db, Throw e)
  end.

(* ================================================================== *)
(** * controllers/quizAttemptController.js *)

(** ** [submitQuizAnswer] *)

(** [req.params.attemptId], the body and [req.user.id].  A [question_id] that
    is absent or not a string is [None]. *)
Module SubmitReq.
Record t : Type := mk {
  attemptId : string;
  question_id : option string;
  selected_answer : option json;
  question_order : option Number;
  user_id : string
}.
End SubmitReq.

Inductive SubmitResponse : Type :=
| SubmitCreated (is_correct : bool) (answer : QuizAttemptAnswer.t)
| SubmitError (status : nat) (message : string).

(** The outcome of a handler: the database, the response, and the user for
    whom [generateUserInsights] was started in the background (if any). *)
Record Outcome (R : Type) : Type := mkOutcome {
  out_db : DB;
  out_response : R;
  out_insights_for : option string
}.
Arguments mkOutcome {R} _ _ _.
Arguments out_db {R} _.
Arguments out_response {R} _.
Arguments out_insights_for {R} _.

(** [!question_id || typeof question_id !== 'string'] *)
Definition valid_question_id (q : option string) : option string :=
  match q with
  | Some EmptyString => None
  | Some s => Some s
  | None => None
  end.

Definition attempt_has_id (id : string) (a : QuizAttempt.t) : bool :=
  String.eqb (QuizAttempt.id a) id.

Definition question_has_id (id : string) (q : Question.t) : bool :=
  String.eqb (Question.id q) id.

Definition question_of_quiz (quiz_id : string) (q : Question.t) : bool :=
  String.eqb (Question.quiz_id q) quiz_id.

Definition answer_of_attempt (attemptId : string) (a : QuizAttemptAnswer.t) : bool :=
  String.eqb (QuizAttemptAnswer.attempt_id a) attemptId.

Definition answer_for (attemptId question_id : string) (a : QuizAttemptAnswer.t) : bool :=
  String.eqb (QuizAttemptAnswer.attempt_id a) attemptId
  && String.eqb (QuizAttemptAnswer.question_id a) question_id.

Definition correct_answer_of_attempt (attemptId : string) (a : QuizAttemptAnswer.t) : bool :=
  String.eqb (QuizAttemptAnswer.attempt_id a) attemptId
  && QuizAttemptAnswer.is_correct a.

(** The document [QuizAttemptAnswer.create] is given. *)
Definition new_answer (env : Env) (req : SubmitReq.t) (question_id : string)
    (selected : json) (is_correct : bool) : QuizAttemptAnswer.t :=
  QuizAttemptAnswer.mk (uuidv4 env 0) (SubmitReq.attemptId req) question_id
    (match SubmitReq.question_order req with
     | Some n => or_else n zero
     | None => zero
     end)
    selected is_correct (now env).

(** The update of the completing [updateOne]. *)
Definition complete (env : Env) (correctAnswers questionsCount : nat)
    (a : QuizAttempt.t) : QuizAttempt.t :=
  QuizAttempt.mk (QuizAttempt.id a) (QuizAttempt.user_id a) (QuizAttempt.quiz_id a)
    COMPLETED
    (Some (Number_of_nat correctAnswers / Number_of_nat questionsCount * 100)%float)
    (Some (Number_of_nat questionsCount))
    (Some (Number_of_nat correctAnswers))
    (QuizAttempt.time_taken a)
    (QuizAttempt.created_at a)
    (Some (now env)).

Definition submit_error (db : DB) (status : nat) (message : string)
    : Outcome SubmitResponse :=
  mkOutcome db (SubmitError status message) None.

(** [error.message || "Error submitting answer"] *)
Definition message_or (e : Error) (default : string) : string :=
  match error_message e with
  | EmptyString => default
  | m => m
  end.

Definition submitQuizAnswer (env : Env) (req : SubmitReq.t) (db : DB)
    : Outcome SubmitResponse :=
  let attemptId := SubmitReq.attemptId req in
  if negb (isValidUUID attemptId) then
    submit_error db 400 "Invalid attempt ID format"
  else
  match valid_question_id (SubmitReq.question_id req) with
  | None => submit_error db 400 "Invalid question ID format"
  | Some question_id =>
  match findOne (attempt_has_id attemptId) (attempts db) with
  | None => submit_error db 404 "Quiz attempt not found"
  | Some attempt =>
  if negb (String.eqb (QuizAttempt.user_id attempt) (SubmitReq.user_id req)) then
    submit_error db 403 "Unauthorized"
  else if negb (Status_eqb (QuizAttempt.status attempt) IN_PROGRESS) then
    submit_error db 400 "This quiz attempt is already completed or abandoned"
  else
  match findOne (question_has_id question_id) (questions db) with
  | None => submit_error db 404 "Question not found"
  | Some question =>
  if negb (String.eqb (Question.quiz_id question) (QuizAttempt.quiz_id attempt)) then
    submit_error db 400 "This question does not belong to the attempted quiz"
  else
  match findOne (answer_for attemptId question_id) (answers db) with
  | Some _ => submit_error db 400 "Answer for this question already submitted"
  | None =>
  let is_correct :=
    answer_is_correct (SubmitReq.selected_answer req) (Question.correct_answer question) in
  match
    (let* selected := required_mixed (SubmitReq.selected_answer req) in
     let newAnswer := new_answer env req question_id selected is_correct in
     let* db1 := insert_answer newAnswer db in
     Ok (newAnswer, db1))
  with
  | Throw e => submit_error db 500 (message_or e "Error submitting answer")
  | Ok (newAnswer, db1) =>
  let answersCount := countDocuments (answer_of_attempt attemptId) (answers db1) in
  let questionsCount :=
    countDocuments (question_of_quiz (QuizAttempt.quiz_id attempt)) (questions db1) in
  if Nat.eqb answersCount questionsCount then
    let correctAnswers :=
      countDocuments (correct_answer_of_attempt attemptId) (answers db1) in
    let db2 :=
      with_attempts db1
        (updateOne attemptId (complete env correctAnswers questionsCount) (attempts db1)) in
    mkOutcome db2 (SubmitCreated is_correct newAnswer) (Some (SubmitReq.user_id req))
  else
    mkOutcome db1 (SubmitCreated is_correct newAnswer) None
  end end end end end.

(** ** [createQuizAttempt] *)

Module AnswerInput.
Record t : Type := mk {
  question_id : option string;
  selected_answer : option json
}.
End AnswerInput.

(** The body and [req.user.id].  A [quiz_id] that is absent or not a string
    is [None]; a number that is absent or [null] is [None]; [answers] is
    [None] when the body has no array there. *)
Module CreateReq.
Record t : Type := mk {
  quiz_id : option string;
  score : option Number;
  total_questions : option Number;
  correct_answers : option Number;
  time_taken : option Number;
  answers : option (list AnswerInput.t);
  user_id : string
}.
End CreateReq.

Inductive CreateResponse : Type :=
| CreateCreated (attempt : QuizAttempt.t)
| CreateError (status : nat) (message : string).

(** An answer as the callback of [answers.map] returns it: [selected_answer]
    is copied from the request as it is. *)
Record PreparedAnswer : Type := mkPrepared {
  prep_id : string;
  prep_attempt_id : string;
  prep_question_id : string;
  prep_selected_answer : option json;
  prep_is_correct : bool
}.

Definition show_question_id (q : option string) : string :=
  match q with
  | Some s => s
  | None => "undefined"
  end.

(** The callback of [answers.map], for the answer at index [i]. *)
Definition prepare_answer (env : Env) (db : DB) (quiz_id : string)
    (newAttempt : QuizAttempt.t) (i : nat) (answer : AnswerInput.t)
    : Result PreparedAnswer :=
  match valid_question_id (AnswerInput.question_id answer) with
  | None =>
      Throw (mkError "Error"
               ("Invalid question ID format: "
                ++ show_question_id (AnswerInput.question_id answer))%string)
  | Some question_id =>
  match findOne (question_has_id question_id) (questions db) with
  | None =>
      Throw (mkError "Error" ("Question not found for id: " ++ question_id)%string)
  | Some question =>
  if negb (String.eqb (Question.quiz_id question) quiz_id) then
    Throw (mkError "Error"
             ("Question " ++ question_id
              ++ " does not belong to the specified quiz")%string)
  else
    Ok (mkPrepared (uuidv4 env (S i)) (QuizAttempt.id newAttempt) question_id
          (AnswerInput.selected_answer answer)
          (answer_is_correct (AnswerInput.selected_answer answer)
                             (Question.correct_answer question)))
  end end.

(** [Promise.all(answers.map(callback))]: the prepared answers in the order
    of the request, or an error when an answer fails.  (When several answers
    fail, which rejection comes first is not fixed by the code: the error of
    the first failing answer of the request is taken.) *)
Fixpoint prepare_all (env : Env) (db : DB) (quiz_id : string)
    (newAttempt : QuizAttempt.t) (i : nat) (l : list AnswerInput.t)
    : Result (list PreparedAnswer) :=
  match l with
  | [] => Ok []
  | answer :: r =>
      let* a := prepare_answer env db quiz_id newAttempt i answer in
      let* rest := prepare_all env db quiz_id newAttempt (S i) r in
      Ok (a :: rest)
  end.

(** [QuizAttemptAnswer.insertMany(attemptAnswers, { session })]: every
    document is validated and given the schema's defaults, then they are
    inserted in order. *)
Definition to_document (env : Env) (a : PreparedAnswer) : Result QuizAttemptAnswer.t :=
  let* selected := required_mixed (prep_selected_answer a) in
  Ok (QuizAttemptAnswer.mk (prep_id a) (prep_attempt_id a) (prep_question_id a)
        zero selected (prep_is_correct a) (now env)).

Fixpoint validate_all (env : Env) (l : list PreparedAnswer)
    : Result (list QuizAttemptAnswer.t) :=
  match l with
  | [] => Ok []
  | a :: r =>
      let* d := to_document env a in
      let* rest := validate_all env r in
      Ok (d :: rest)
  end.

Fixpoint insert_all (l : list QuizAttemptAnswer.t) (db : DB) : Result DB :=
  match l with
  | [] => Ok db
  | d :: r => let* db1 := insert_answer d db in insert_all r db1
  end.

Definition insertMany (env : Env) (l : list PreparedAnswer) (db : DB) : Result DB :=
  let* docs := validate_all env l in
  insert_all docs db.

(** The document [QuizAttempt.create] is given. *)
Definition new_attempt (env : Env) (req : CreateReq.t) (quiz_id : string)
    : QuizAttempt.t :=
  QuizAttempt.mk (uuidv4 env 0) (CreateReq.user_id req) quiz_id COMPLETED
    (CreateReq.score req) (CreateReq.total_questions req)
    (CreateReq.correct_answers req) (CreateReq.time_taken req)
    (now env) (Some (now env)).

(** The body of the transaction. *)
Definition create_transaction (env : Env) (req : CreateReq.t) (quiz_id : string)
    (db : DB) : Result (DB * QuizAttempt.t) :=
  let newAttempt := new_attempt env req quiz_id in
  let* db1 := insert_attempt newAttempt db in
  match CreateReq.answers req with
  | None =>
      Throw (mkError "TypeError"
               "Cannot read properties of undefined (reading 'map')")
  | Some answers =>
      let* attemptAnswers := prepare_all env db1 quiz_id newAttempt 0 answers in
      let* db2 := insertMany env attemptAnswers db1 in
      Ok (db2, newAttempt)
  end.

Definition create_error (db : DB) (status : nat) (message : string)
    : Outcome CreateResponse :=
  mkOutcome db (CreateError status message) None.

Definition createQuizAttempt (env : Env) (req : CreateReq.t) (db : DB)
    : Outcome CreateResponse :=
  match CreateReq.quiz_id req with
  | None => create_error db 400 "Invalid quiz ID format"
  | Some quiz_id =>
  if is_blank quiz_id then create_error db 400 "Invalid quiz ID format"
  else if negb (isValidUUID quiz_id) then create_error db 400 "Invalid quiz ID format"
  else
  match findOne (fun q => String.eqb (Quiz.id q) quiz_id) (quizzes db) with
  | None => create_error db 404 "Quiz not found"
  | Some quiz =>
  match withTransaction db (create_transaction env req quiz_id) with
  | (db', Ok newAttempt) =>
      mkOutcome db' (CreateCreated newAttempt) (Some (CreateReq.user_id req))
  | (db', Throw e) =>
      create_error db' 500 (message_or e "Error creating quiz attempt")
  end end end.

(* ================================================================== *)
(** * Sorting *)

(** A stable insertion sort: [before a b] says that [a] may stand before
    [b].  [Array.prototype.sort] is stable, and so is the order taken for a
    MongoDB [sort] (ties in the order of the collection). *)
Section Sort.
Context {A : Type} (before : A -> A -> bool).

Fixpoint insert_sorted (x : A) (l : list A) : list A :=
  match l with
  | [] => [x]
  | y :: r => if before x y then x :: y :: r else y :: insert_sorted x r
  end.

Fixpoint stable_sort (l : list A) : list A :=
  match l with
  | [] => []
  | x :: r => insert_sorted x (stable_sort r)
  end.

End Sort.

(** [l.sort(compare)] for a comparison function that returns a difference of
    integers: [a] stays before [b] unless [compare(a, b) > 0]. *)
Definition Array_sort {A : Type} (compare : A -> A -> Z) (l : list A) : list A :=
  stable_sort (fun a b => (compare a b <=? 0)%Z) l.

(** [l.slice(0, -n)] for [n > 0]. *)
Definition slice_to_minus {A : Type} (n : nat) (l : list A) : list A :=
  firstn (List.length l - n) l.

(** The order of MongoDB on dates that may be [null]: [null] sorts lowest. *)
Definition date_leb (a b : option Date) : bool :=
  match a, b with
  | None, _ => true
  | Some _, None => false
  | Some x, Some y => (x <=? y)%Z
  end.

(** [QuizAttempt.find({ user_id, status: "COMPLETED" })
       .sort({ completed_at: -1 }).limit(n)] *)
Definition completed_by (userId : string) (a : QuizAttempt.t) : bool :=
  String.eqb (QuizAttempt.user_id a) userId
  && Status_eqb (QuizAttempt.status a) COMPLETED.

Definition recent_completed (n : nat) (userId : string) (db : DB)
    : list QuizAttempt.t :=
  firstn n
    (stable_sort
       (fun a b => date_leb (QuizAttempt.completed_at b) (QuizAttempt.completed_at a))
       (filter (completed_by userId) (attempts db))).

(* ================================================================== *)
(** * utils/mlInsightGenerator.js: [generateUserInsights] *)

(** The counters [correct] and [total] are incremented by one from zero:
    they are natural numbers.  The weighted sums are Numbers. *)
Record TopicStats : Type := mkStats {
  correct : nat;
  total : nat;
  weightedCorrect : Number;
  weightedTotal : Number
}.

Record AttemptDetail : Type := mkDetail {
  is_correct : bool;
  timestamp : Date;
  difficulty : Difficulty;
  weight : Number
}.

Definition difficultyWeight (d : Difficulty) : Number :=
  match d with
  | MEDIUM => 1.5%float
  | HARD => 2.0%float
  | EASY => 1.0%float
  end.

(** The three objects the loop over the answers fills. *)
Record Tally : Type := mkTally {
  topicStats : Obj.t TopicStats;
  topicAttempts : Obj.t (list AttemptDetail);
  recentAttemptsByTopic : Obj.t (list AttemptDetail)
}.

Definition empty_tally : Tally := mkTally [] [] [].

(** [if (!o[k]) o[k] = v] for a key that [Object.prototype] does not have. *)
Definition init_key {V : Type} (o : Obj.t V) (k : string) (v : V) : Obj.t V :=
  match Obj.own o k with
  | Some _ => o
  | None => Obj.set o k v
  end.

(** [o[k]] updated in place, for an own property [k]. *)
Definition update_key {V : Type} (o : Obj.t V) (k : string) (f : V -> V) : Obj.t V :=
  match Obj.own o k with
  | Some v => Obj.set o k (f v)
  | None => o
  end.

Definition not_a_function (what : string) : Error :=
  mkError "TypeError" (what ++ " is not a function")%string.

Definition undefined_property (what : string) : Error :=
  mkError "TypeError"
          ("Cannot read properties of undefined (reading '" ++ what ++ "')")%string.

(** The time of the attempt an answer belongs to:
    [attempt ? attempt.completed_at || attempt.created_at : new Date()]. *)
Definition answer_timestamp (env : Env) (attempts : list QuizAttempt.t)
    (answer : QuizAttemptAnswer.t) : Date :=
  match find (attempt_has_id (QuizAttemptAnswer.attempt_id answer)) attempts with
  | Some attempt =>
      match QuizAttempt.completed_at attempt with
      | Some d => d
      | None => QuizAttempt.created_at attempt
      end
  | None => now env
  end.

(** The topic and the quiz an answer is graded under, if any: the question
    and its quiz are looked up in the two maps, and an empty topic is
    skipped.  (A key found on [Object.prototype] only yields a value without
    a [quiz_id] or a [topic], and the answer is skipped as well.) *)
Definition topic_of_answer (questionMap : Obj.t Question.t) (quizMap : Obj.t Quiz.t)
    (answer : QuizAttemptAnswer.t) : option (string * Quiz.t) :=
  match Obj.own questionMap (QuizAttemptAnswer.question_id answer) with
  | None => None
  | Some question =>
      match Obj.own quizMap (Question.quiz_id question) with
      | None => None
      | Some quiz =>
          match Quiz.topic quiz with
          | EmptyString => None
          | topic => Some (topic, quiz)
          end
      end
  end.

Definition detail_of (env : Env) (attempts : list QuizAttempt.t) (quiz : Quiz.t)
    (answer : QuizAttemptAnswer.t) : AttemptDetail :=
  mkDetail (QuizAttemptAnswer.is_correct answer)
           (answer_timestamp env attempts answer)
           (Quiz.difficulty quiz)
           (difficultyWeight (Quiz.difficulty quiz)).

Definition count_answer (d : AttemptDetail) (st : TopicStats) : TopicStats :=
  let total' := total st + 1 in
  let weightedTotal' := (weightedTotal st + weight d)%float in
  if is_correct d then
    mkStats (correct st + 1) total' (weightedCorrect st + weight d)%float weightedTotal'
  else
    mkStats (correct st) total' (weightedCorrect st) weightedTotal'.

(** The body of [answers.forEach].  For a topic that is the name of a
    property of [Object.prototype], [topicStats[topic]] is that inherited
    value: nothing is initialised, and [topicAttempts[topic].push] throws. *)
Definition process_answer (env : Env) (attempts : list QuizAttempt.t)
    (questionMap : Obj.t Question.t) (quizMap : Obj.t Quiz.t)
    (t : Tally) (answer : QuizAttemptAnswer.t) : Result Tally :=
  match topic_of_answer questionMap quizMap answer with
  | None => Ok t
  | Some (topic, quiz) =>
      if Obj.inherited topic then
        Throw (not_a_function "topicAttempts[topic].push")
      else
        let stats := init_key (topicStats t) topic (mkStats 0 0 zero zero) in
        let att := init_key (topicAttempts t) topic [] in
        let rec := init_key (recentAttemptsByTopic t) topic [] in
        let attemptDetail := detail_of env attempts quiz answer in
        Ok (mkTally
              (update_key stats topic (count_answer attemptDetail))
              (update_key att topic (fun l => l ++ [attemptDetail]))
              (update_key rec topic (fun l => l ++ [attemptDetail])))
  end.

Fixpoint foldM {A S : Type} (f : S -> A -> Result S) (l : list A) (s : S)
    : Result S :=
  match l with
  | [] => Ok s
  | x :: r => let* s' := f s x in foldM f r s'
  end.

(** [l.reduce((sum, a) => sum + a.weight, 0)] *)
Definition sum_weights (l : list AttemptDetail) : Number :=
  fold_left (fun sum a => (sum + weight a)%float) l zero.

(** The weighted score of a list of answers, as the generator computes it
    for the recent and for the older ones. *)
Definition weighted_score (l : list AttemptDetail) : Number :=
  Math_round (sum_weights (filter is_correct l) / sum_weights l * 100)%float.

Definition newest_first (a b : AttemptDetail) : Z := (timestamp b - timestamp a)%Z.
Definition oldest_first (a b : AttemptDetail) : Z := (timestamp a - timestamp b)%Z.

(** The second loop's result. *)
Record Scores : Type := mkScores {
  topicProficiency : Obj.t Number;
  weakTopics : list string;
  strongTopics : list string;
  confidenceScores : Obj.t Number
}.

Definition confidence_of (score : Number) (recentAttempts topicAttempts : list AttemptDetail)
    : Number :=
  if 3 <=? List.length recentAttempts then
    let recentScore := weighted_score recentAttempts in
    let olderAttempts :=
      slice_to_minus (List.length recentAttempts)
                     (Array_sort oldest_first topicAttempts) in
    let trendFactor :=
      if 3 <=? List.length olderAttempts
      then (recentScore - weighted_score olderAttempts)%float
      else zero in
    Math_max zero
      (Math_min 100%float
         (Math_round (score * 0.6 + recentScore * 0.3 + trendFactor * 0.1)%float))
  else score.

(** The body of [Object.entries(topicStats).forEach]. *)
Definition score_topic (recent all : Obj.t (list AttemptDetail))
    (sc : Scores) (entry : string * TopicStats) : Result Scores :=
  let (topic, stats) := entry in
  if total stats <? 3 then Ok sc
  else
    let score := Math_round (weightedCorrect stats / weightedTotal stats * 100)%float in
    match Obj.own recent topic with
    | None => Throw (undefined_property "length")
    | Some recentAttempts =>
    match (if 3 <=? List.length recentAttempts then Obj.own all topic else Some []) with
    | None => Throw (undefined_property "sort")
    | Some topicAttempts =>
        let confidenceScore := confidence_of score recentAttempts topicAttempts in
        Ok (mkScores
              (Obj.set (topicProficiency sc) topic score)
              (if ltb score 60%float then weakTopics sc ++ [topic] else weakTopics sc)
              (if ltb score 60%float then strongTopics sc
               else if leb 80%float score then strongTopics sc ++ [topic]
               else strongTopics sc)
              (Obj.set (confidenceScores sc) topic confidenceScore))
    end end.

(** [weakTopics.forEach]: the proficiency of each weak topic. *)
Definition weak_topics_data_of (topicProficiency : Obj.t Number) (weakTopics : list string)
    : Obj.t Number :=
  fold_left
    (fun o topic =>
       match Obj.own topicProficiency topic with
       | Some v => Obj.set o topic v
       | None => o
       end)
    weakTopics [].

(** The answers of the analysed attempts, with their questions and quizzes. *)
Definition analysed_answers (attempts : list QuizAttempt.t) (db : DB)
    : list QuizAttemptAnswer.t :=
  filter
    (fun a => existsb (String.eqb (QuizAttemptAnswer.attempt_id a))
                      (map QuizAttempt.id attempts))
    (answers db).

Definition quiz_map (attempts : list QuizAttempt.t) (db : DB) : Obj.t Quiz.t :=
  let quizIds := nodup string_dec (map QuizAttempt.quiz_id attempts) in
  fold_left (fun m quiz => Obj.set m (Quiz.id quiz) quiz)
    (filter (fun q => existsb (String.eqb (Quiz.id q)) quizIds) (quizzes db)) [].

Definition question_map (answers : list QuizAttemptAnswer.t) (db : DB)
    : Obj.t Question.t :=
  let questionIds := nodup string_dec (map QuizAttemptAnswer.question_id answers) in
  fold_left (fun m question => Obj.set m (Question.id question) question)
    (filter (fun q => existsb (String.eqb (Question.id q)) questionIds) (questions db)) [].

(** The first loop, over the answers of the attempts. *)
Definition tally_answers (env : Env) (attempts : list QuizAttempt.t) (db : DB)
    : Result Tally :=
  let answers := analysed_answers attempts db in
  foldM (process_answer env attempts (question_map answers db) (quiz_map attempts db))
        answers empty_tally.

(** The objects after the first loop and the truncation of the recent
    lists, then the second loop. *)
Definition keep_recent (t : Tally) : Obj.t (list AttemptDetail) :=
  map (fun kv => (fst kv, firstn 10 (Array_sort newest_first (snd kv))))
      (recentAttemptsByTopic t).

Definition score_topics (t : Tally) : Result Scores :=
  foldM (score_topic (keep_recent t) (topicAttempts t))
        (topicStats t) (mkScores [] [] [] []).

(** The document to save and the document returned: the one found for the
    user with the schema's paths overwritten, or a new one.  The two paths
    outside the schema are set on the returned document only. *)
Definition insight_of_user (userId : string) (i : MLInsight.t) : bool :=
  String.eqb (MLInsight.user_id i) userId.

Definition updated_insight (env : Env) (userId : string) (old : option MLInsight.t)
    (sc : Scores) : MLInsight.t :=
  MLInsight.mk
    (match old with Some i => MLInsight.id i | None => uuidv4 env 0 end)
    userId
    (weakTopics sc) (strongTopics sc) (confidenceScores sc) (topicProficiency sc)
    (now env)
    (match old with Some i => MLInsight.topic_proficiency i | None => None end)
    (match old with Some i => MLInsight.weak_topics_data i | None => None end).

Definition returned_insight (saved : MLInsight.t) (sc : Scores) : MLInsight.t :=
  MLInsight.mk (MLInsight.id saved) (MLInsight.user_id saved)
    (MLInsight.weak_topics saved) (MLInsight.strong_topics saved)
    (MLInsight.confidence_scores saved) (MLInsight.topic_performance saved)
    (MLInsight.last_updated saved)
    (Some (topicProficiency sc))
    (Some (weak_topics_data_of (topicProficiency sc) (weakTopics sc))).

(** [mlInsight.save()]: the document found is replaced where it stands; a
    new one is inserted under the unique index on [id]. *)
Fixpoint replace_first {A : Type} (p : A -> bool) (x : A) (l : list A) : list A :=
  match l with
  | [] => []
  | y :: r => if p y then x :: r else y :: replace_first p x r
  end.

Definition save_insight (userId : string) (old : option MLInsight.t)
    (doc : MLInsight.t) (db : DB) : Result DB :=
  match old with
  | Some _ =>
      Ok (with_insights db (replace_first (insight_of_user userId) doc (insights db)))
  | None =>
      if existsb (fun i => String.eqb (MLInsight.id i) (MLInsight.id doc)) (insights db)
      then Throw duplicate_key
      else Ok (with_insights db (insights db ++ [doc]))
  end.

(** [generateUserInsights(userId)]: the database after the run and the value
    the promise resolves to ([null] when the user has no completed attempt),
    or the error it rejects with. *)
Definition generateUserInsights (env : Env) (userId : string) (db : DB)
    : Result (DB * option MLInsight.t) :=
  let attempts := recent_completed 20 userId db in
  match attempts with
  | [] => Ok (db, None)
  | _ =>
      let* t := tally_answers env attempts db in
      let* sc := score_topics t in
      let old := findOne (insight_of_user userId) (insights db) in
      let saved := updated_insight env userId old sc in
      let* db' := save_insight userId old saved db in
      Ok (db', Some (returned_insight saved sc))
  end.

(* ================================================================== *)
(** * controllers/dashboardController.js: [getDashboardData] *)

(** A value read from an object by key: a Number, or something that is not
    a number (what [Object.prototype] holds under the names it has). *)
Inductive jsval : Type :=
| VNum (x : Number)
| VOther.

(** [o[k]], [undefined] being [None]. *)
Definition get_property (o : Obj.t jsval) (k : string) : option jsval :=
  match Obj.own o k with
  | Some v => Some v
  | None => if Obj.inherited k then Some VOther else None
  end.

(** [o[k] = v]: an assignment to [__proto__] creates no own property. *)
Definition set_property (o : Obj.t jsval) (k : string) (v : jsval) : Obj.t jsval :=
  if String.eqb k "__proto__" then o else Obj.set o k v.

Definition numbers (o : Obj.t Number) : Obj.t jsval :=
  map (fun kv => (fst kv, VNum (snd kv))) o.

Module PerformanceEntry.
Record t : Type := mk {
  id : string;
  quiz_id : string;
  score : option Number;
  correct_answers : option Number;
  total_questions : option Number;
  date : Date
}.
End PerformanceEntry.

Module BadgeAchievement.
Record t : Type := mk {
  id : string;
  badge_id : string;
  name : string;
  description : string;
  achieved_at : Date
}.
End BadgeAchievement.

Module DashboardData.
Record t : Type := mk {
  weak_topics_array : list string;
  strong_topics : list string;
  confidence_scores : Obj.t Number;
  topic_proficiency : Obj.t jsval;
  weak_topics : Obj.t jsval;
  performance_history : list PerformanceEntry.t;
  badges : list BadgeAchievement.t;
  insight_last_updated : option Date
}.
End DashboardData.

Inductive DashboardResponse : Type :=
| DashboardOk (data : DashboardData.t)
| DashboardError (status : nat) (message : string).

(** [MLInsight.findOne({ user_id }).sort({ last_updated: -1 })] *)
Definition latest_insight (userId : string) (db : DB) : option MLInsight.t :=
  hd_error
    (stable_sort
       (fun a b => (MLInsight.last_updated b <=? MLInsight.last_updated a)%Z)
       (filter (insight_of_user userId) (insights db))).

Definition format_attempt (attempt : QuizAttempt.t) : PerformanceEntry.t :=
  PerformanceEntry.mk
    (QuizAttempt.id attempt) (QuizAttempt.quiz_id attempt)
    (QuizAttempt.score attempt) (QuizAttempt.correct_answers attempt)
    (QuizAttempt.total_questions attempt)
    (match QuizAttempt.completed_at attempt with
     | Some d => d
     | None => QuizAttempt.created_at attempt
     end).

(** [s || default] on strings. *)
Definition string_or (s default : string) : string :=
  match s with
  | EmptyString => default
  | _ => s
  end.

Definition badge_achievements (userId : string) (db : DB) : list BadgeAchievement.t :=
  let userBadges :=
    stable_sort
      (fun a b => (UserBadge.achieved_at b <=? UserBadge.achieved_at a)%Z)
      (filter (fun ub => String.eqb (UserBadge.user_id ub) userId) (user_badges db)) in
  let badgeIds := map UserBadge.badge_id userBadges in
  let found :=
    filter (fun b => existsb (String.eqb (Badge.id b)) badgeIds) (badges db) in
  map (fun userBadge =>
         let badgeDetails :=
           find (fun badge => String.eqb (Badge.id badge) (UserBadge.badge_id userBadge))
                found in
         BadgeAchievement.mk
           (UserBadge.id userBadge) (UserBadge.badge_id userBadge)
           (match badgeDetails with
            | Some b => string_or (Badge.name b) "Unknown Badge"
            | None => "Unknown Badge"
            end)
           (match badgeDetails with
            | Some b => Badge.description b
            | None => EmptyString
            end)
           (UserBadge.achieved_at userBadge))
      userBadges.

(** The new format when the document has it and it is not empty, else the
    schema's [topic_performance]. *)
Definition dashboard_proficiency (mlInsight : option MLInsight.t) : Obj.t jsval :=
  match mlInsight with
  | None => []
  | Some i =>
      match MLInsight.topic_proficiency i with
      | Some (e :: r) => numbers (e :: r)
      | _ => numbers (MLInsight.topic_performance i)
      end
  end.

Definition dashboard_weak_topics (mlInsight : option MLInsight.t)
    (topicProficiency : Obj.t jsval) : Obj.t jsval :=
  match mlInsight with
  | None => []
  | Some i =>
      match MLInsight.weak_topics_data i with
      | Some (e :: r) => numbers (e :: r)
      | _ =>
          fold_left
            (fun o topic =>
               match get_property topicProficiency topic with
               | Some v => set_property o topic v
               | None => o
               end)
            (MLInsight.weak_topics i) []
      end
  end.

(** [typeof score !== 'number' || isNaN(score) || score < 0 || score > 100] *)
Definition invalid_score (v : jsval) : bool :=
  match v with
  | VNum x => isNaN x || ltb x zero || ltb 100%float x
  | VOther => true
  end.

Definition validate_scores (o : Obj.t jsval) : Obj.t jsval :=
  map (fun kv => (fst kv, if invalid_score (snd kv) then VNum zero else snd kv)) o.

Definition getDashboardData (userId requestingUserId : string) (db : DB)
    : DashboardResponse :=
  if negb (String.eqb userId requestingUserId) then
    DashboardError 403 "Unauthorized. You can only access your own dashboard."
  else
    let mlInsight := latest_insight userId db in
    let quizAttempts := recent_completed 10 userId db in
    let performanceHistory := map format_attempt quizAttempts in
    let badgeAchievements := badge_achievements userId db in
    let topicProficiency := dashboard_proficiency mlInsight in
    let weakTopicsData := dashboard_weak_topics mlInsight topicProficiency in
    DashboardOk
      (DashboardData.mk
         (match mlInsight with Some i => MLInsight.weak_topics i | None => [] end)
         (match mlInsight with Some i => MLInsight.strong_topics i | None => [] end)
         (match mlInsight with Some i => MLInsight.confidence_scores i | None => [] end)
         (validate_scores topicProficiency)
         (validate_scores weakTopicsData)
         performanceHistory
         badgeAchievements
         (match mlInsight with Some i => Some (MLInsight.last_updated i) | None => None end)).

(* ================================================================== *)
(** * [submitQuizAnswer], one awaited operation at a time *)

(** The handler is an [async] function: between two of its [await]s other
    requests run.  A request under way is at one of these points, each
    standing before the database operation it awaits next and holding the
    local variables that are live there. *)
Module Async.

Inductive Point : Type :=
| FindAttempt (question_id : string)
| FindQuestion (question_id : string) (attempt : QuizAttempt.t)
| FindExisting (question_id : string) (attempt : QuizAttempt.t) (question : Question.t)
| Create (question_id : string) (attempt : QuizAttempt.t) (question : Question.t)
| CountAnswers (attempt : QuizAttempt.t) (is_correct : bool) (newAnswer : QuizAttemptAnswer.t)
| CountQuestions (attempt : QuizAttempt.t) (is_correct : bool)
    (newAnswer : QuizAttemptAnswer.t) (answersCount : nat)
| CountCorrect (attempt : QuizAttempt.t) (is_correct : bool)
    (newAnswer : QuizAttemptAnswer.t) (questionsCount : nat)
| Update (attempt : QuizAttempt.t) (is_correct : bool)
    (newAnswer : QuizAttemptAnswer.t) (questionsCount correctAnswers : nat)
| Responded (response : SubmitResponse) (insights_for : option string).

(** The synchronous start of the handler, up to its first [await]. *)
Definition start (req : SubmitReq.t) : Point :=
  if negb (isValidUUID (SubmitReq.attemptId req)) then
    Responded (SubmitError 400 "Invalid attempt ID format") None
  else
    match valid_question_id (SubmitReq.question_id req) with
    | None => Responded (SubmitError 400 "Invalid question ID format") None
    | Some question_id => FindAttempt question_id
    end.

(** One awaited operation on the database and the synchronous code after it,
    up to the next [await] or the response.  The third component tells
    whether the operation was the completing [updateOne]. *)
Definition step (env : Env) (req : SubmitReq.t) (p : Point) (db : DB)
    : DB * Point * bool :=
  let attemptId := SubmitReq.attemptId req in
  match p with
  | FindAttempt question_id =>
      match findOne (attempt_has_id attemptId) (attempts db) with
      | None => (db, Responded (SubmitError 404 "Quiz attempt not found") None, false)
      | Some attempt =>
          if negb (String.eqb (QuizAttempt.user_id attempt) (SubmitReq.user_id req)) then
            (db, Responded (SubmitError 403 "Unauthorized") None, false)
          else if negb (Status_eqb (QuizAttempt.status attempt) IN_PROGRESS) then
            (db, Responded
                   (SubmitError 400 "This quiz attempt is already completed or abandoned")
                   None, false)
          else (db, FindQuestion question_id attempt, false)
      end
  | FindQuestion question_id attempt =>
      match findOne (question_has_id question_id) (questions db) with
      | None => (db, Responded (SubmitError 404 "Question not found") None, false)
      | Some question =>
          if negb (String.eqb (Question.quiz_id question) (QuizAttempt.quiz_id attempt)) then
            (db, Responded
                   (SubmitError 400 "This question does not belong to the attempted quiz")
                   None, false)
          else (db, FindExisting question_id attempt question, false)
      end
  | FindExisting question_id attempt question =>
      match findOne (answer_for attemptId question_id) (answers db) with
      | Some _ =>
          (db, Responded (SubmitError 400 "Answer for this question already submitted") None,
           false)
      | None => (db, Create question_id attempt question, false)
      end
  | Create question_id attempt question =>
      let is_correct :=
        answer_is_correct (SubmitReq.selected_answer req)
                          (Question.correct_answer question) in
      match
        (let* selected := required_mixed (SubmitReq.selected_answer req) in
         let newAnswer := new_answer env req question_id selected is_correct in
         let* db1 := insert_answer newAnswer db in
         Ok (newAnswer, db1))
      with
      | Throw e =>
          (db, Responded (SubmitError 500 (message_or e "Error submitting answer")) None,
           false)
      | Ok (newAnswer, db1) => (db1, CountAnswers attempt is_correct newAnswer, false)
      end
  | CountAnswers attempt is_correct newAnswer =>
      (db,
       CountQuestions attempt is_correct newAnswer
         (countDocuments (answer_of_attempt attemptId) (answers db)),
       false)
  | CountQuestions attempt is_correct newAnswer answersCount =>
      let questionsCount :=
        countDocuments (question_of_quiz (QuizAttempt.quiz_id attempt)) (questions db) in
      if Nat.eqb answersCount questionsCount then
        (db, CountCorrect attempt is_correct newAnswer questionsCount, false)
      else (db, Responded (SubmitCreated is_correct newAnswer) None, false)
  | CountCorrect attempt is_correct newAnswer questionsCount =>
      (db,
       Update attempt is_correct newAnswer questionsCount
         (countDocuments (correct_answer_of_attempt attemptId) (answers db)),
       false)
  | Update attempt is_correct newAnswer questionsCount correctAnswers =>
      (with_attempts db
         (updateOne attemptId (complete env correctAnswers questionsCount) (attempts db)),
       Responded (SubmitCreated is_correct newAnswer) (Some (SubmitReq.user_id req)),
       true)
  | Responded r i => (db, Responded r i, false)
  end.

(** A request alone: its steps one after the other. *)
Fixpoint run_alone (fuel : nat) (env : Env) (req : SubmitReq.t) (p : Point) (db : DB)
    : DB * Point :=
  match fuel with
  | O => (db, p)
  | S k =>
      let '(db', p', _) := step env req p db in
      run_alone k env req p' db'
  end.

(** Requests in flight, and a schedule: at each turn the request of that
    index takes its next step. *)
Record Request : Type := mkRequest {
  req_env : Env;
  req_body : SubmitReq.t;
  req_point : Point
}.

Definition arrive (env : Env) (req : SubmitReq.t) : Request :=
  mkRequest env req (start req).

Fixpoint step_nth (i : nat) (rs : list Request) (db : DB)
    : DB * list Request * bool :=
  match rs, i with
  | [], _ => (db, [], false)
  | r :: rest, O =>
      let '(db', p', c) := step (req_env r) (req_body r) (req_point r) db in
      (db', mkRequest (req_env r) (req_body r) p' :: rest, c)
  | r :: rest, S j =>
      let '(db', rest', c) := step_nth j rest db in
      (db', r :: rest', c)
  end.

(** The run of a schedule: the database, the requests, and the number of
    completing updates performed. *)
Fixpoint run (schedule : list nat) (rs : list Request) (db : DB)
    : DB * list Request * nat :=
  match schedule with
  | [] => (db, rs, 0)
  | i :: later =>
      let '(db1, rs1, c) := step_nth i rs db in
      let '(db2, rs2, n) := run later rs1 db1 in
      (db2, rs2, (if c then 1 else 0) + n)
  end.

End Async.

(** Requests served one after the other. *)
Fixpoint serve (reqs : list (Env * SubmitReq.t)) (db : DB)
    : DB * list (Outcome SubmitResponse) :=
  match reqs with
  | [] => (db, [])
  | (env, req) :: later =>
      let o := submitQuizAnswer env req db in
      let (db', os) := serve later (out_db o) in
      (db', o :: os)
  end.

(** The handler performed the completing update exactly when it started the
    insights for the user. *)
Definition completed_attempt (o : Outcome SubmitResponse) : bool :=
  match out_insights_for o with
  | Some _ => true
  | None => false
  end.

(* ================================================================== *)
(** * Reading a JSON string literal back *)

(** The value of a hexadecimal digit as [hex_digit] writes it. *)
Definition hex_value (c : ascii) : option nat :=
  let n := nat_of_ascii c in
  if (48 <=? n) && (n <=? 57) then Some (n - 48)
  else if (97 <=? n) && (n <=? 102) then Some (n - 87)
  else None.

(** The first character of the body of a string literal, unescaped, and the
    rest of the input; [None] at the closing quote. *)
Definition unescape1 (s : string) : option (ascii * string) :=
  match s with
  | EmptyString => None
  | String c r =>
      if Nat.eqb (nat_of_ascii c) 34 then None
      else if Nat.eqb (nat_of_ascii c) 92 then
        match r with
        | String e r' =>
            let n := nat_of_ascii e in
            if Nat.eqb n 34 then Some (ascii_of_nat 34, r')
            else if Nat.eqb n 92 then Some (ascii_of_nat 92, r')
            else if Nat.eqb n 98 then Some (ascii_of_nat 8, r')
            else if Nat.eqb n 102 then Some (ascii_of_nat 12, r')
            else if Nat.eqb n 110 then Some (ascii_of_nat 10, r')
            else if Nat.eqb n 114 then Some (ascii_of_nat 13, r')
            else if Nat.eqb n 116 then Some (ascii_of_nat 9, r')
            else if Nat.eqb n 117 then
              match r' with
              | String _ (String _ (String h (String l r''))) =>
                  match hex_value h, hex_value l with
                  | Some x, Some y => Some (ascii_of_nat (16 * x + y), r'')
                  | _, _ => None
                  end
              | _ => None
              end
            else None
        | EmptyString => None
        end
      else Some (c, r)
  end.

(** Does the string start with a character that [p] accepts? *)
Definition starts_with (p : ascii -> bool) (s : string) : bool :=
  match s with
  | String c _ => p c
  | EmptyString => false
  end.

Definition is_char (n : nat) (c : ascii) : bool := Nat.eqb (nat_of_ascii c) n.

(** What a serialised value starts with tells its kind. *)
Definition first_chars (v : json) (c : ascii) : bool :=
  match v with
  | JNull => is_char 110 c
  | JBool _ => is_char 116 c || is_char 102 c
  | JNum _ => is_digit c || is_char 45 c
  | JStr _ => is_char 34 c
  | JArr _ => is_char 91 c
  | JObj _ => is_char 123 c
  end.

(** [join_commas l ++ "]"], the end of an array. *)
Fixpoint join_close (l : list string) : string :=
  match l with
  | [] => "]"
  | x :: t =>
      match t with
      | [] => (x ++ "]")%string
      | _ => (x ++ String "," (join_close t))%string
      end
  end.

(* ================================================================== *)
(** * What a successful [submitQuizAnswer] did *)

(** The database after the answer [ans] was inserted and the counts were
    compared: the attempt is completed when the answers of the attempt are
    as many as the questions of its quiz. *)
Definition answers_after (attemptId : string) (ans : QuizAttemptAnswer.t) (db : DB) : nat :=
  countDocuments (answer_of_attempt attemptId) (answers db ++ [ans]).

Definition questions_of (attempt : QuizAttempt.t) (db : DB) : nat :=
  countDocuments (question_of_quiz (QuizAttempt.quiz_id attempt)) (questions db).

Definition correct_after (attemptId : string) (ans : QuizAttemptAnswer.t) (db : DB) : nat :=
  countDocuments (correct_answer_of_attempt attemptId) (answers db ++ [ans]).

Definition recorded (env : Env) (req : SubmitReq.t) (db : DB)
    (attempt : QuizAttempt.t) (ans : QuizAttemptAnswer.t) : Outcome SubmitResponse :=
  let attemptId := SubmitReq.attemptId req in
  let db1 := with_answers db (answers db ++ [ans]) in
  if Nat.eqb (answers_after attemptId ans db) (questions_of attempt db) then
    mkOutcome
      (with_attempts db1
         (updateOne attemptId
            (complete env (correct_after attemptId ans db) (questions_of attempt db))
            (attempts db)))
      (SubmitCreated (QuizAttemptAnswer.is_correct ans) ans)
      (Some (SubmitReq.user_id req))
  else
    mkOutcome db1 (SubmitCreated (QuizAttemptAnswer.is_correct ans) ans) None.

(* ================================================================== *)
(** * What a successful [createQuizAttempt] stored *)

(** The stored answer [doc] is the graded copy of the request's [input]:
    its question belongs to the quiz, and its flag is the outcome of the
    correctness test on the answer as it was sent. *)
Definition graded_copy (db : DB) (quiz_id attempt_id : string)
    (input : AnswerInput.t) (doc : QuizAttemptAnswer.t) : Prop :=
  exists question,
    valid_question_id (AnswerInput.question_id input)
      = Some (QuizAttemptAnswer.question_id doc)
    /\ findOne (question_has_id (QuizAttemptAnswer.question_id doc)) (questions db)
       = Some question
    /\ Question.quiz_id question = quiz_id
    /\ QuizAttemptAnswer.attempt_id doc = attempt_id
    /\ AnswerInput.selected_answer input = Some (QuizAttemptAnswer.selected_answer doc)
    /\ QuizAttemptAnswer.is_correct doc
       = answer_is_correct (AnswerInput.selected_answer input)
                           (Question.correct_answer question).

(** An answer of a bulk request that cannot be stored: its question does
    not exist, or belongs to another quiz than the one submitted. *)
Definition bad_reference (db : DB) (quiz_id : string) (input : AnswerInput.t) : Prop :=
  exists question_id,
    AnswerInput.question_id input = Some question_id
    /\ (findOne (question_has_id question_id) (questions db) = None
        \/ exists question,
             findOne (question_has_id question_id) (questions db) = Some question
             /\ Question.quiz_id question <> quiz_id).

(* ================================================================== *)
(** * Properties of the stored data *)

(** At most one answer per attempt and question. *)
Definition answer_key (a : QuizAttemptAnswer.t) : string * string :=
  (QuizAttemptAnswer.attempt_id a, QuizAttemptAnswer.question_id a).

Definition one_answer_per_question (db : DB) : Prop :=
  NoDup (map answer_key (answers db)).

(** The score of a completed attempt as the specification wants it:
    [round(correct_answers / total_questions * 100)]. *)
Definition score_is_rounded (a : QuizAttempt.t) : Prop :=
  match QuizAttempt.score a, QuizAttempt.correct_answers a, QuizAttempt.total_questions a with
  | Some s, Some c, Some t => s = Math_round (c / t * 100)%float
  | _, _, _ => False
  end.

(** The score of a completed attempt as [submitQuizAnswer] stores it. *)
Definition score_is_percentage (a : QuizAttempt.t) : Prop :=
  match QuizAttempt.score a, QuizAttempt.correct_answers a, QuizAttempt.total_questions a with
  | Some s, Some c, Some t => s = (c / t * 100)%float
  | _, _, _ => False
  end.

(** The two messages of a conflict (both sent with status 400). *)
Definition conflict (r : SubmitResponse) : Prop :=
  r = SubmitError 400 "Answer for this question already submitted"
  \/ r = SubmitError 400 "This quiz attempt is already completed or abandoned".

(* ================================================================== *)
(** * A small database to run the handlers on *)

Module Sample.

Definition algebra_id : string := "11111111-1111-4111-8111-111111111111".
Definition biology_id : string := "22222222-2222-4222-8222-222222222222".
Definition attempt_id : string := "33333333-3333-4333-8333-333333333333".
Definition alice : string := "user-alice".

Definition algebra : Quiz.t := Quiz.mk algebra_id "Algebra 1" "Algebra" EASY 1000%Z.
Definition biology : Quiz.t := Quiz.mk biology_id "Cells" "Biology" HARD 1001%Z.

Definition q1 : Question.t := Question.mk "q-1" algebra_id ["A"] 1100%Z.
Definition q2 : Question.t := Question.mk "q-2" algebra_id ["B"] 1101%Z.
Definition q3 : Question.t := Question.mk "q-3" algebra_id ["C"] 1102%Z.
Definition b1 : Question.t := Question.mk "b-1" biology_id ["X"; "Y"] 1103%Z.

Definition in_progress : QuizAttempt.t :=
  QuizAttempt.mk attempt_id alice algebra_id IN_PROGRESS None None None None 2000%Z None.

Definition catalog : DB :=
  mkDB [algebra; biology] [q1; q2; q3; b1] [] [] [] [] [].

(** Alice has started the algebra quiz. *)
Definition started : DB := with_attempts catalog [in_progress].

Definition uuid (n : nat) : string :=
  match n with
  | 0 => "aaaaaaaa-aaaa-4aaa-8aaa-000000000000"
  | 1 => "aaaaaaaa-aaaa-4aaa-8aaa-000000000001"
  | 2 => "aaaaaaaa-aaaa-4aaa-8aaa-000000000002"
  | 3 => "aaaaaaaa-aaaa-4aaa-8aaa-000000000003"
  | _ => "aaaaaaaa-aaaa-4aaa-8aaa-00000000000f"
  end.

Definition uuid' (prefix : string) (n : nat) : string :=
  (prefix ++ uuid n)%string.

Definition env1 : Env := mkEnv (uuid' "1-") 3001%Z.
Definition env2 : Env := mkEnv (uuid' "2-") 3002%Z.
Definition env3 : Env := mkEnv (uuid' "3-") 3003%Z.
Definition env4 : Env := mkEnv (uuid' "4-") 3004%Z.

Definition answer_to (question_id letter : string) : SubmitReq.t :=
  SubmitReq.mk attempt_id (Some question_id) (Some (JArr [JStr letter])) None alice.

(** The scenario of the specification: A (right), X (wrong), C (right). *)
Definition after_one : DB := out_db (submitQuizAnswer env1 (answer_to "q-1" "A") started).
Definition after_two : DB := out_db (submitQuizAnswer env2 (answer_to "q-2" "X") after_one).
Definition after_three : DB := out_db (submitQuizAnswer env3 (answer_to "q-3" "C") after_two).

(** A bulk request whose score (250) is neither a percentage nor what its
    answers are worth, and one with an answer to a question of another
    quiz. *)
Definition bulk (score : Number) (last : string) : CreateReq.t :=
  CreateReq.mk (Some algebra_id) (Some score) (Some 3%float) (Some 0%float)
    (Some 42%float)
    (Some [ AnswerInput.mk (Some "q-1") (Some (JArr [JStr "A"]));
            AnswerInput.mk (Some "q-2") (Some (JStr "B"));
            AnswerInput.mk (Some last) (Some (JArr [JStr "C"])) ])
    alice.

End Sample.

(* ================================================================== *)
(** * Counting the completing updates *)

(** How many of the requests served, in order, completed the attempt [id]. *)
Fixpoint completions (id : string) (reqs : list (Env * SubmitReq.t))
    (os : list (Outcome SubmitResponse)) : nat :=
  match reqs, os with
  | (_, req) :: reqs', o :: os' =>
      (if String.eqb (SubmitReq.attemptId req) id && completed_attempt o then 1 else 0)
      + completions id reqs' os'
  | _, _ => 0
  end.

(** Is the attempt [id] there and in progress? *)
Definition in_progress (id : string) (db : DB) : bool :=
  match findOne (attempt_has_id id) (attempts db) with
  | Some a => Status_eqb (QuizAttempt.status a) IN_PROGRESS
  | None => false
  end.

(** The last two answers of the sample attempt, arriving together: each
    request inserts its answer before either one counts the answers. *)
Definition last_two : list Async.Request :=
  [ Async.arrive Sample.env2 (Sample.answer_to "q-2" "X");
    Async.arrive Sample.env3 (Sample.answer_to "q-3" "C") ].

Definition both_insert_then_count : list nat :=
  [0; 0; 0; 0; 1; 1; 1; 1; 0; 0; 0; 0; 1; 1; 1; 1].

Definition one_after_the_other : list nat :=
  [0; 0; 0; 0; 0; 0; 0; 0; 1; 1; 1; 1; 1; 1; 1; 1].

(* ================================================================== *)
(** * The graded answers of a user *)

(** The answers the generator grades, in the order it visits them, each
    with its topic: the answers of the analysed attempts whose question and
    quiz are found and whose quiz has a topic. *)
Definition graded_answer (env : Env) (attempts : list QuizAttempt.t)
    (questionMap : Obj.t Question.t) (quizMap : Obj.t Quiz.t)
    (answer : QuizAttemptAnswer.t) : list (string * AttemptDetail) :=
  match topic_of_answer questionMap quizMap answer with
  | Some (topic, quiz) => [(topic, detail_of env attempts quiz answer)]
  | None => []
  end.

Definition graded (env : Env) (attempts : list QuizAttempt.t)
    (questionMap : Obj.t Question.t) (quizMap : Obj.t Quiz.t)
    (answers : list QuizAttemptAnswer.t) : list (string * AttemptDetail) :=
  flat_map (graded_answer env attempts questionMap quizMap) answers.

(** The graded answers among the 20 most recent completed attempts. *)
Definition graded_answers (env : Env) (userId : string) (db : DB)
    : list (string * AttemptDetail) :=
  let attempts := recent_completed 20 userId db in
  let answers := analysed_answers attempts db in
  graded env attempts (question_map answers db) (quiz_map attempts db) answers.

(** The graded answers of one topic. *)
Definition details_of (topic : string) (g : list (string * AttemptDetail))
    : list AttemptDetail :=
  map snd (filter (fun e => String.eqb (fst e) topic) g).

(** The statistics of a list of graded answers. *)
Definition stats_of (l : list AttemptDetail) : TopicStats :=
  mkStats (List.length (filter is_correct l)) (List.length l)
          (sum_weights (filter is_correct l)) (sum_weights l).

Definition nonempty {A : Type} (l : list A) : option (list A) :=
  match l with
  | [] => None
  | _ => Some l
  end.

(** The three objects hold, per topic, what the graded answers [g] give. *)
Definition tally_of (g : list (string * AttemptDetail)) (t : Tally) : Prop :=
  forall topic,
    Obj.own (topicStats t) topic = option_map stats_of (nonempty (details_of topic g))
    /\ Obj.own (topicAttempts t) topic = nonempty (details_of topic g)
    /\ Obj.own (recentAttemptsByTopic t) topic = nonempty (details_of topic g).

(** The proficiency of a topic from its graded answers. *)
Definition proficiency_of (l : list AttemptDetail) : Number :=
  Math_round (sum_weights (filter is_correct l) / sum_weights l * 100)%float.

(** The recent answers of a topic: the first ten, newest first. *)
Definition recent_of (l : list AttemptDetail) : list AttemptDetail :=
  firstn 10 (Array_sort newest_first l).

(** The older answers of a topic: what is left of the answers, oldest
    first, when as many as there are recent ones are cut from the end. *)
Definition older_of (l : list AttemptDetail) : list AttemptDetail :=
  slice_to_minus (List.length (recent_of l)) (Array_sort oldest_first l).

Definition trend_of (l : list AttemptDetail) : Number :=
  if 3 <=? List.length (older_of l)
  then (weighted_score (recent_of l) - weighted_score (older_of l))%float
  else zero.

(** [clamp(x, 0, 100)] as the generator writes it. *)
Definition clamp_0_100 (x : Number) : Number :=
  Math_max zero (Math_min 100%float x).

(** The confidence of a topic from its graded answers. *)
Definition confidence_from (l : list AttemptDetail) : Number :=
  clamp_0_100
    (Math_round (proficiency_of l * 0.6
                 + weighted_score (recent_of l) * 0.3
                 + trend_of l * 0.1)%float).

(** A topic shows in the scores: in the proficiency, in the confidence
    scores, among the weak or among the strong topics. *)
Definition emitted (sc : Scores) (topic : string) : Prop :=
  Obj.own (topicProficiency sc) topic <> None
  \/ Obj.own (confidenceScores sc) topic <> None
  \/ In topic (weakTopics sc)
  \/ In topic (strongTopics sc).

(** An entry of [topicStats] agrees with the graded answers [g], and the
    two objects of lists have the topic. *)
Definition entry_of (g : list (string * AttemptDetail))
    (recent all : Obj.t (list AttemptDetail)) (entry : string * TopicStats) : Prop :=
  details_of (fst entry) g <> []
  /\ snd entry = stats_of (details_of (fst entry) g)
  /\ Obj.own recent (fst entry) = Some (recent_of (details_of (fst entry) g))
  /\ Obj.own all (fst entry) = Some (details_of (fst entry) g).

(** The scores after one qualifying topic. *)
Definition add_topic (sc : Scores) (topic : string) (l : list AttemptDetail) : Scores :=
  mkScores
    (Obj.set (topicProficiency sc) topic (proficiency_of l))
    (if ltb (proficiency_of l) 60%float then weakTopics sc ++ [topic] else weakTopics sc)
    (if ltb (proficiency_of l) 60%float then strongTopics sc
     else if leb 80%float (proficiency_of l) then strongTopics sc ++ [topic]
     else strongTopics sc)
    (Obj.set (confidenceScores sc) topic (confidence_from l)).

(** A topic shows in a snapshot: in one of the four fields of the schema,
    or in one of the two fields set on the returned document. *)
Definition shows_in_schema (doc : MLInsight.t) (topic : string) : Prop :=
  In topic (Obj.keys (MLInsight.topic_performance doc))
  \/ In topic (Obj.keys (MLInsight.confidence_scores doc))
  \/ In topic (MLInsight.weak_topics doc)
  \/ In topic (MLInsight.strong_topics doc).

Definition shows_in_extras (doc : MLInsight.t) (topic : string) : Prop :=
  (exists o, MLInsight.topic_proficiency doc = Some o /\ In topic (Obj.keys o))
  \/ (exists o, MLInsight.weak_topics_data doc = Some o /\ In topic (Obj.keys o)).

(** [a] is at least as recent as [b]. *)
Definition not_older (a b : AttemptDetail) : Prop := (timestamp b <= timestamp a)%Z.

(* ================================================================== *)
(** * The insight run and the dashboard on the sample *)

Module SampleInsights.

(** Alice's insights after her three answers. *)
Definition run : Result (DB * option MLInsight.t) :=
  generateUserInsights Sample.env4 Sample.alice Sample.after_three.

Definition saved_db : DB :=
  match run with
  | Ok (db', _) => db'
  | Throw _ => Sample.after_three
  end.

Definition snapshot : MLInsight.t :=
  match run with
  | Ok (_, Some doc) => doc
  | _ => MLInsight.mk "" "" [] [] [] [] 0%Z None None
  end.

End SampleInsights.

(** The object the dashboard takes the proficiency from. *)
Definition proficiency_source (i : MLInsight.t) : Obj.t Number :=
  match MLInsight.topic_proficiency i with
  | Some (e :: r) => e :: r
  | _ => MLInsight.topic_performance i
  end.

(** [a] was completed no earlier than [b]. *)
Definition completed_not_before (a b : QuizAttempt.t) : Prop :=
  date_leb (QuizAttempt.completed_at b) (QuizAttempt.completed_at a) = true.

(* ================================================================== *)
(** * Requests in flight: what they hold and what they will do *)

(** The attempt a request read at its first step, if it is past it. *)
Definition snapshot_of (p : Async.Point) : option QuizAttempt.t :=
  match p with
  | Async.FindQuestion _ a | Async.FindExisting _ a _ | Async.Create _ a _
  | Async.CountAnswers a _ _ | Async.CountQuestions a _ _ _
  | Async.CountCorrect a _ _ _ | Async.Update a _ _ _ _ => Some a
  | Async.FindAttempt _ | Async.Responded _ _ => None
  end.

(** A request that has inserted its answer and is on its way to the
    completing update of an attempt with [n] questions: before its count of
    the answers, or after having counted [n] of them. *)
Definition will_complete (n : nat) (p : Async.Point) : bool :=
  match p with
  | Async.CountAnswers _ _ _ => true
  | Async.CountQuestions _ _ _ answersCount => Nat.eqb answersCount n
  | Async.CountCorrect _ _ _ _ => true
  | Async.Update _ _ _ _ _ => true
  | _ => false
  end.

Definition has_responded (r : Async.Request) : bool :=
  match Async.req_point r with
  | Async.Responded _ _ => true
  | _ => false
  end.

Definition answers_of (id : string) (db : DB) : nat :=
  countDocuments (answer_of_attempt id) (answers db).

(** What holds of the database and the requests in flight throughout a
    run, for the attempt [id] of the quiz [quiz_id], whose status was
    [status0] at the start: the questions are the same, the attempt is there
    with its quiz, its status is the first one or COMPLETED, the requests for
    it hold an attempt of this quiz, and whenever the attempt has all its
    answers and is still in progress some request is on its way to the
    completing update. *)
Definition no_loss (id quiz_id : string) (status0 : Status) (qs : list Question.t)
    (db : DB) (rs : list Async.Request) : Prop :=
  questions db = qs
  /\ (exists a,
        findOne (attempt_has_id id) (attempts db) = Some a
        /\ QuizAttempt.quiz_id a = quiz_id
        /\ (QuizAttempt.status a = status0 \/ QuizAttempt.status a = COMPLETED))
  /\ (forall r a,
        In r rs -> SubmitReq.attemptId (Async.req_body r) = id ->
        snapshot_of (Async.req_point r) = Some a ->
        QuizAttempt.quiz_id a = quiz_id)
  /\ (answers_of id db = countDocuments (question_of_quiz quiz_id) qs ->
      in_progress id db = true ->
      exists r,
        In r rs
        /\ SubmitReq.attemptId (Async.req_body r) = id
        /\ will_complete (countDocuments (question_of_quiz quiz_id) qs)
                         (Async.req_point r) = true).

(* ================================================================== *)
(** * The confidence as the specification words it *)

(** The answers of a topic that remain when the ten most recent are taken
    away. *)
Definition remaining_of (l : list AttemptDetail) : list AttemptDetail :=
  skipn 10 (Array_sort newest_first l).

(** The trend over the recent and the remaining answers. *)
Definition trend_by_spec (l : list AttemptDetail) : Number :=
  if 3 <=? List.length (remaining_of l)
  then (weighted_score (recent_of l) - weighted_score (remaining_of l))%float
  else zero.

Definition confidence_by_spec (l : list AttemptDetail) : Number :=
  clamp_0_100
    (Math_round (proficiency_of l * 0.6
                 + weighted_score (recent_of l) * 0.3
                 + trend_by_spec l * 0.1)%float).

(** A quiz of thirteen questions on one topic, and one attempt at it:
    the first three answers right, the other ten wrong. *)
Module Sample13.

Definition quiz_id : string := "44444444-4444-4444-8444-444444444444".
Definition bob : string := "user-bob".

Definition number (n : nat) : string := NilZero.string_of_uint (Nat.to_uint n).

Definition question_id (n : nat) : string := ("k-" ++ number n)%string.

Definition question (n : nat) : Question.t :=
  Question.mk (question_id n) quiz_id ["A"] 1200%Z.

Definition catalog : DB :=
  mkDB [Quiz.mk quiz_id "Thirteen" "Geometry" EASY 1000%Z]
       (map question (seq 1 13)) [] [] [] [] [].

Definition answer (n : nat) : AnswerInput.t :=
  AnswerInput.mk (Some (question_id n))
                 (Some (JArr [JStr (if n <=? 3 then "A" else "B")])).

Definition request : CreateReq.t :=
  CreateReq.mk (Some quiz_id) (Some 23%float) (Some 13%float) (Some 3%float)
               (Some 300%float) (Some (map answer (seq 1 13))) bob.

Definition env (prefix : string) (t : Date) : Env :=
  mkEnv (fun n => (prefix ++ number n)%string) t.

(** The database after the bulk submission, and Bob's insights. *)
Definition submitted : DB :=
  out_db (createQuizAttempt (env "a-" 5000%Z) request catalog).

Definition run : Result (DB * option MLInsight.t) :=
  generateUserInsights (env "i-" 6000%Z) bob submitted.

Definition saved_db : DB :=
  match run with
  | Ok (db', _) => db'
  | Throw _ => submitted
  end.

Definition snapshot : MLInsight.t :=
  match run with
  | Ok (_, Some doc) => doc
  | _ => MLInsight.mk "" "" [] [] [] [] 0%Z None None
  end.

Definition answers : list AttemptDetail :=
  details_of "Geometry" (graded_answers (env "i-" 6000%Z) bob submitted).

End Sample13.

(* ================================================================== *)
(** * controllers/quizAttemptController.js: reading and deleting attempts *)

(** A response that carries a status and a message only. *)
Record Message : Type := mkMessage {
  msg_status : nat;
  msg_text : string
}.

(** [Model.deleteOne(filter)]: the first document that matches is removed. *)
Fixpoint deleteOne {A : Type} (p : A -> bool) (c : list A) : list A :=
  match c with
  | [] => []
  | a :: r => if p a then r else a :: deleteOne p r
  end.

(** [Model.deleteMany(filter)]: every document that matches is removed. *)
Definition deleteMany {A : Type} (p : A -> bool) (c : list A) : list A :=
  filter (fun a => negb (p a)) c.

(** ** [getUserQuizAttempts] *)

Definition attempt_of_user (user_id : string) (a : QuizAttempt.t) : bool :=
  String.eqb (QuizAttempt.user_id a) user_id.

(** [QuizAttempt.find({ user_id })], sent with status 200. *)
Definition getUserQuizAttempts (user_id : string) (db : DB) : list QuizAttempt.t :=
  filter (attempt_of_user user_id) (attempts db).

(** ** [getQuizAttemptById] *)

(** An answer of the response: the stored answer and, under [question], what
    [questionMap[answer.question_id]] gives ([None] when the map has no such
    property). *)
Record AnswerWithQuestion : Type := mkAnswerWithQuestion {
  awq_answer : QuizAttemptAnswer.t;
  awq_question : option Question.t
}.

Inductive AttemptResponse : Type :=
| AttemptOk (attempt : QuizAttempt.t) (answers : list AnswerWithQuestion)
| AttemptError (status : nat) (message : string).

(** [Question.find({ id: { $in: questionIds } })] *)
Definition questions_in (questionIds : list string) (db : DB) : list Question.t :=
  filter (fun q => existsb (String.eqb (Question.id q)) questionIds) (questions db).

(** [questions.forEach(q => questionMap[q.id] = q)] *)
Definition questionMap_of (questions : list Question.t) : Obj.t Question.t :=
  fold_left (fun m q => Obj.set m (Question.id q) q) questions [].

(** [req.params.id] and [req.user.id].  (The ids of the questions are
    UUIDs: an id that names a property of [Object.prototype] is outside
    this model of [questionMap].) *)
Definition getQuizAttemptById (id user_id : string) (db : DB) : AttemptResponse :=
  match findOne (attempt_has_id id) (attempts db) with
  | None => AttemptError 404 "Quiz attempt not found"
  | Some attempt =>
      if negb (String.eqb (QuizAttempt.user_id attempt) user_id) then
        AttemptError 403 "Unauthorized"
      else
        let answers := filter (answer_of_attempt id) (answers db) in
        let questionIds := map QuizAttemptAnswer.question_id answers in
        let questions := questions_in questionIds db in
        let questionMap := questionMap_of questions in
        let answersWithQuestions :=
          map (fun answer =>
                 mkAnswerWithQuestion answer
                   (Obj.own questionMap (QuizAttemptAnswer.question_id answer)))
              answers in
        AttemptOk attempt answersWithQuestions
  end.

(** ** [deleteQuizAttempt] *)

Definition deleteQuizAttempt (id user_id : string) (db : DB) : DB * Message :=
  match findOne (attempt_has_id id) (attempts db) with
  | None => (db, mkMessage 404 "Quiz attempt not found")
  | Some attempt =>
      if negb (String.eqb (QuizAttempt.user_id attempt) user_id) then
        (db, mkMessage 403 "Unauthorized")
      else
        let db1 := with_attempts db (deleteOne (attempt_has_id id) (attempts db)) in
        let db2 := with_answers db1 (deleteMany (answer_of_attempt id) (answers db1)) in
        (db2, mkMessage 200 "Quiz attempt deleted successfully")
  end.

(* ================================================================== *)
(** * controllers/quizController.js: [deleteQuiz], [getAllQuizzes] *)

Definition with_quizzes (db : DB) (l : list Quiz.t) : DB :=
  mkDB l (questions db) (attempts db) (answers db) (insights db)
       (user_badges db) (badges db).

Definition quiz_has_id (id : string) (q : Quiz.t) : bool :=
  String.eqb (Quiz.id q) id.

Inductive DeleteQuizResponse : Type :=
| QuizDeleted (message : string) (deletedQuiz : Quiz.t)
| QuizError (status : nat) (message : string).

(** [Quiz.findOneAndDelete({ id })]: the first quiz with this id is removed
    and returned.  The questions and the attempts of the quiz are not
    touched. *)
Definition deleteQuiz (id : string) (db : DB) : DB * DeleteQuizResponse :=
  match id with
  | EmptyString => (db, QuizError 400 "Quiz ID is required")
  | _ =>
      match findOne (quiz_has_id id) (quizzes db) with
      | None => (db, QuizError 404 "Quiz not found")
      | Some deletedQuiz =>
          (with_quizzes db (deleteOne (quiz_has_id id) (quizzes db)),
           QuizDeleted "Quiz deleted successfully" deletedQuiz)
      end
  end.

(** [Quiz.find()] *)
Definition getAllQuizzes (db : DB) : list Quiz.t := quizzes db.

(* ================================================================== *)
(** * controllers/badgeController.js: [deleteBadge], [getBadges] *)

Definition with_badges (db : DB) (l : list Badge.t) : DB :=
  mkDB (quizzes db) (questions db) (attempts db) (answers db) (insights db)
       (user_badges db) l.

Definition badge_has_id (id : string) (b : Badge.t) : bool :=
  String.eqb (Badge.id b) id.

(** The achievements ([UserBadge]) that name the badge are left as they
    are. *)
Definition deleteBadge (id : string) (db : DB) : DB * Message :=
  match findOne (badge_has_id id) (badges db) with
  | None => (db, mkMessage 404 "Badge not found")
  | Some badge =>
      (with_badges db (deleteOne (badge_has_id id) (badges db)),
       mkMessage 200 "Badge deleted successfully")
  end.

(** [Badge.find({})] *)
Definition getBadges (db : DB) : list Badge.t := badges db.

(* ================================================================== *)
(** * References between the collections *)

(** Every stored answer belongs to a stored attempt, and answers a stored
    question of the quiz of that attempt. *)
Definition answer_refers (db : DB) (ans : QuizAttemptAnswer.t) : Prop :=
  exists attempt question,
    findOne (attempt_has_id (QuizAttemptAnswer.attempt_id ans)) (attempts db) = Some attempt
    /\ findOne (question_has_id (QuizAttemptAnswer.question_id ans)) (questions db)
       = Some question
    /\ Question.quiz_id question = QuizAttempt.quiz_id attempt.

Definition answers_refer (db : DB) : Prop := Forall (answer_refers db) (answers db).

(** The state the handlers of the attempts keep: one answer per attempt and
    question, each on a question of the attempt's quiz. *)
Definition consistent (db : DB) : Prop :=
  one_answer_per_question db /\ answers_refer db.

(* ================================================================== *)
(** * controllers/questionController.js: [getQuizQuestions] *)

(** [s.trim()], on the ASCII white space. *)
Fixpoint trimStart (s : string) : string :=
  match s with
  | String c t => if is_space c then trimStart t else s
  | EmptyString => EmptyString
  end.

Fixpoint trimEnd (s : string) : string :=
  match s with
  | EmptyString => EmptyString
  | String c t =>
      match trimEnd t with
      | EmptyString => if is_space c then EmptyString else String c EmptyString
      | t' => String c t'
      end
  end.

Definition trim (s : string) : string := trimEnd (trimStart s).

(** [req.params.id] and [req.query.quiz_id], each a string or absent. *)
Module QuestionsReq.
Record t : Type := mk {
  params_id : option string;
  query_quiz_id : option string
}.
End QuestionsReq.

(** [a || b] *)
Definition or_string (a b : option string) : option string :=
  match a with
  | Some (String _ _) => a
  | _ => b
  end.

(** The body of the 200 response; of the messages of the errors, the
    [message]. *)
Inductive QuestionsResponse : Type :=
| QuestionsOk (questions : list Question.t) (time_limit total_questions : nat)
| QuestionsError (status : nat) (message : string).

(** The formatted questions are copies of the documents, path by path.
    (The diagnostic query before the search reads the [content] of a
    question of the quiz, a string the schema requires.) *)
Definition getQuizQuestions (req : QuestionsReq.t) (db : DB) : QuestionsResponse :=
  match or_string (QuestionsReq.params_id req) (QuestionsReq.query_quiz_id req) with
  | None | Some EmptyString => QuestionsError 400 "Quiz ID is required"
  | Some quiz_id =>
      if String.eqb (trim quiz_id) EmptyString then
        QuestionsError 400 "Quiz ID is required"
      else
        let sanitizedQuizId := trim quiz_id in
        let questions := filter (question_of_quiz sanitizedQuizId) (questions db) in
        match questions with
        | [] => QuestionsError 404 "No questions found for this quiz"
        | _ =>
            let formattedQuestions := questions in
            QuestionsOk formattedQuestions 300 (List.length formattedQuestions)
        end
  end.

(* ================================================================== *)
(** * utils/migrateAndCleanupTopics.js: the quiz kept for a topic *)

(** A quiz of a group, with the number of its questions. *)
Record QuizInfo : Type := mkQuizInfo {
  info_id : string;
  info_title : string;
  info_topic : string;
  info_difficulty : Difficulty;
  info_created_at : Date;
  question_count : nat
}.

Definition quiz_info (db : DB) (quiz : Quiz.t) : QuizInfo :=
  mkQuizInfo (Quiz.id quiz) (Quiz.title quiz) (Quiz.topic quiz) (Quiz.difficulty quiz)
    (Quiz.created_at quiz)
    (countDocuments (question_of_quiz (Quiz.id quiz)) (questions db)).

(** The comparison function of the sort: more questions first, then the
    oldest. *)
Definition more_questions_then_oldest (a b : QuizInfo) : Z :=
  if negb (Nat.eqb (question_count a) (question_count b)) then
    (Z.of_nat (question_count b) - Z.of_nat (question_count a))%Z
  else
    (info_created_at a - info_created_at b)%Z.

Definition sortedQuizzes (quizzes : list QuizInfo) : list QuizInfo :=
  Array_sort more_questions_then_oldest quizzes.

(** [sortedQuizzes[0]] and [sortedQuizzes.slice(1)] *)
Definition quizToKeep (quizzes : list QuizInfo) : option QuizInfo :=
  hd_error (sortedQuizzes quizzes).

Definition quizzesToDelete (quizzes : list QuizInfo) : list QuizInfo :=
  tl (sortedQuizzes quizzes).

(* ================================================================== *)
(** * The characters of a string *)

Fixpoint all_chars (p : ascii -> bool) (s : string) : bool :=
  match s with
  | EmptyString => true
  | String c t => p c && all_chars p t
  end.

(** A hexadecimal digit or a dash. *)
Definition uuid_char (c : ascii) : bool := is_hex c || is_dash c.

(* ================================================================== *)
(** * The achievements of a user and the badges they name *)

(** The achievements of a user, latest first, as the dashboard reads
    them. *)
Definition achievements_of (userId : string) (db : DB) : list UserBadge.t :=
  stable_sort
    (fun a b => (UserBadge.achieved_at b <=? UserBadge.achieved_at a)%Z)
    (filter (fun ub => String.eqb (UserBadge.user_id ub) userId) (user_badges db)).

(** An achievement shown with the badge found for it among [badges]. *)
Definition shown_with (badges : list Badge.t) (userBadge : UserBadge.t)
    : BadgeAchievement.t :=
  let badgeDetails := find (badge_has_id (UserBadge.badge_id userBadge)) badges in
  BadgeAchievement.mk
    (UserBadge.id userBadge) (UserBadge.badge_id userBadge)
    (match badgeDetails with
     | Some b => string_or (Badge.name b) "Unknown Badge"
     | None => "Unknown Badge"
     end)
    (match badgeDetails with
     | Some b => Badge.description b
     | None => EmptyString
     end)
    (UserBadge.achieved_at userBadge).

(** An achievement shown without its badge. *)
Definition unknown_badge (x : BadgeAchievement.t) : BadgeAchievement.t :=
  BadgeAchievement.mk (BadgeAchievement.id x) (BadgeAchievement.badge_id x)
    "Unknown Badge" EmptyString (BadgeAchievement.achieved_at x).

(** A user with one achievement. *)
Module SampleBadges.

Definition pro : Badge.t := Badge.mk "badge-pro" "Pro" "Scored 90 or more".

Definition db : DB :=
  mkDB [] [] [] [] [] [UserBadge.mk "ub-1" Sample.alice "badge-pro" 5000%Z] [pro].

End SampleBadges.

(* ================================================================== *)
(** * The snapshot of a user, run after run *)

(** The snapshot [i] with the date [d]. *)
Definition dated (d : Date) (i : MLInsight.t) : MLInsight.t :=
  MLInsight.mk (MLInsight.id i) (MLInsight.user_id i)
    (MLInsight.weak_topics i) (MLInsight.strong_topics i)
    (MLInsight.confidence_scores i) (MLInsight.topic_performance i)
    d
    (MLInsight.topic_proficiency i) (MLInsight.weak_topics_data i).

(** The insights of the other users. *)
Definition insights_of_others (userId : string) (db : DB) : list MLInsight.t :=
  filter (fun i => negb (insight_of_user userId i)) (insights db).

(** A completed attempt on a quiz whose topic is "constructor". *)
Module SampleConstructor.

Definition quiz : Quiz.t := Quiz.mk Sample.algebra_id "Classes" "constructor" EASY 1000%Z.

Definition question : Question.t := Question.mk "q-1" Sample.algebra_id ["A"] 1100%Z.

Definition attempt : QuizAttempt.t :=
  QuizAttempt.mk Sample.attempt_id Sample.alice Sample.algebra_id COMPLETED
    (Some 100%float) (Some 1%float) (Some 1%float) None 2000%Z (Some 2100%Z).

Definition answer : QuizAttemptAnswer.t :=
  QuizAttemptAnswer.mk "a-1" Sample.attempt_id "q-1" zero (JArr [JStr "A"]) true 2050%Z.

Definition db : DB := mkDB [quiz] [question] [attempt] [answer] [] [] [].

End SampleConstructor.

(* ================================================================== *)
(** * The client: components/QuizInterface.tsx *)

Module Client.

(** A question as the client holds it ([content] and [options] are shown
    to the user and are not read below). *)
Record QuizQuestion : Type := mkQuestion {
  id : string;
  quiz_id : string;
  question_type : string;
  correct_answer : list string
}.

(** [new Set(l).size] *)
Definition set_size (l : list string) : nat := List.length (nodup string_dec l).

(** [l.includes(x)], and [new Set(l).has(x)]. *)
Definition includes (l : list string) (x : string) : bool := existsb (String.eqb x) l.

Definition isAnswerCorrect (question : QuizQuestion) (selectedAnswers : list string)
    : bool :=
  if String.eqb (question_type question) "MCQ" then
    match selectedAnswers with
    | first :: _ => includes (correct_answer question) first
    | [] => false
    end
  else if String.eqb (question_type question) "MULTI_SELECT" then
    Nat.eqb (set_size selectedAnswers) (set_size (correct_answer question))
    && forallb (includes (correct_answer question)) selectedAnswers
  else false.

(** An answer of the request. *)
Record FinalAnswer : Type := mkFinalAnswer {
  question_id : string;
  selected_answer : list string;
  is_correct : bool
}.

(** [userAnswers[index] || []] *)
Definition answers_at (userAnswers : list (option (list string))) (index : nat)
    : list string :=
  match nth_error userAnswers index with
  | Some (Some a) => a
  | _ => []
  end.

(** [quizData.map((question, index) => ...)], from the index [index]. *)
Fixpoint finalAnswers_from (index : nat) (quizData : list QuizQuestion)
    (userAnswers : list (option (list string))) : list FinalAnswer :=
  match quizData with
  | [] => []
  | question :: rest =>
      mkFinalAnswer (id question) (answers_at userAnswers index)
        (isAnswerCorrect question (answers_at userAnswers index))
      :: finalAnswers_from (S index) rest userAnswers
  end.

Record AttemptData : Type := mkAttemptData {
  data_quiz_id : string;
  data_score : Number;
  data_total_questions : nat;
  data_correct_answers : nat;
  data_time_taken : Number;
  data_answers : list FinalAnswer
}.

(** The request [submitQuiz] prepares when the quiz is completed, for the
    time taken [timeTaken]; nothing is sent when the quiz has no id. *)
Definition attemptData (selectedQuiz_id : string) (quizData : list QuizQuestion)
    (userAnswers : list (option (list string))) (timeTaken : Number)
    : option AttemptData :=
  match selectedQuiz_id with
  | EmptyString => None
  | _ =>
      let finalAnswers := finalAnswers_from 0 quizData userAnswers in
      let correctAnswers := List.length (filter is_correct finalAnswers) in
      let scorePercentage :=
        Math_round (Number_of_nat correctAnswers / Number_of_nat (List.length quizData)
                    * 100)%float in
      Some (mkAttemptData selectedQuiz_id scorePercentage (List.length quizData)
              correctAnswers timeTaken finalAnswers)
  end.

(** A Number in the JSON body of a request: NaN and the infinities are
    written [null], and -0 is written [0]. *)
Definition sent_number (x : Number) : option Number :=
  if is_nan x || is_infinity x then None
  else if is_zero x then Some zero
  else Some x.

(** The request as [createQuizAttempt] receives it from the user
    [user_id].  (The [is_correct] of an answer is sent with it; the handler
    does not read it.) *)
Definition request_of (user_id : string) (d : AttemptData) : CreateReq.t :=
  CreateReq.mk (Some (data_quiz_id d)) (sent_number (data_score d))
    (Some (Number_of_nat (data_total_questions d)))
    (Some (Number_of_nat (data_correct_answers d)))
    (sent_number (data_time_taken d))
    (Some (map (fun a => AnswerInput.mk (Some (question_id a))
                           (Some (JArr (map JStr (selected_answer a)))))
               (data_answers d)))
    user_id.

End Client.

(** Alice answers the algebra quiz in the client: A, X, C. *)
Module SampleClient.

Definition quizData : list Client.QuizQuestion :=
  [ Client.mkQuestion "q-1" Sample.algebra_id "MCQ" ["A"];
    Client.mkQuestion "q-2" Sample.algebra_id "MCQ" ["B"];
    Client.mkQuestion "q-3" Sample.algebra_id "MCQ" ["C"] ].

Definition userAnswers : list (option (list string)) :=
  [Some ["A"]; Some ["X"]; Some ["C"]].

Definition data : Client.AttemptData :=
  match Client.attemptData Sample.algebra_id quizData userAnswers 42%float with
  | Some d => d
  | None => Client.mkAttemptData EmptyString zero 0 0 zero []
  end.

End SampleClient.

(* ================================================================== *)
(** * The answers the requests in flight have stored *)

(** The answer a request has inserted, once it is past the insertion. *)
Definition inserted (p : Async.Point) : list QuizAttemptAnswer.t :=
  match p with
  | Async.CountAnswers _ _ newAnswer
  | Async.CountQuestions _ _ newAnswer _
  | Async.CountCorrect _ _ newAnswer _
  | Async.Update _ _ newAnswer _ _
  | Async.Responded (SubmitCreated _ newAnswer) _ => [newAnswer]
  | _ => []
  end.

Definition inserted_by (rs : list Async.Request) : list QuizAttemptAnswer.t :=
  flat_map (fun r => inserted (Async.req_point r)) rs.

(** The answers with which the requests that have responded were answered
    201. *)
Definition created_answers (rs : list Async.Request) : list QuizAttemptAnswer.t :=
  flat_map
    (fun r =>
       match Async.req_point r with
       | Async.Responded (SubmitCreated _ newAnswer) _ => [newAnswer]
       | _ => []
       end)
    rs.

(** What holds of the stored answers throughout a run that started from
    [db0]: they are the answers of [db0] and those the requests have
    inserted, and no two of them are for the same attempt and question. *)
Definition answers_accounted (db0 db : DB) (rs : list Async.Request) : Prop :=
  one_answer_per_question db
  /\ Permutation (answers db) (answers db0 ++ inserted_by rs).

(* ================================================================== *)
(** * The specification's reading of the insight run and of the dashboard *)

(** [a] stands before [b] when the latest completion comes first: [a] was
    completed no earlier than [b], an attempt without a date of completion
    counting as the earliest. *)
Definition latest_first (a b : QuizAttempt.t) : Prop :=
  match QuizAttempt.completed_at a, QuizAttempt.completed_at b with
  | Some x, Some y => (y <= x)%Z
  | Some _, None => True
  | None, Some _ => False
  | None, None => True
  end.

(** [l] holds the [n] most recent completed attempts of the user: the
    first [n] of the attempts of the user that are completed, each as often
    as the collection has it, latest completion first. *)
Definition most_recent_completed (n : nat) (userId : string) (db : DB)
    (l : list QuizAttempt.t) : Prop :=
  exists sorted,
    Permutation sorted (filter (completed_by userId) (attempts db))
    /\ (forall a, In a sorted <->
                  In a (attempts db)
                  /\ QuizAttempt.user_id a = userId
                  /\ QuizAttempt.status a = COMPLETED)
    /\ Sorted.StronglySorted latest_first sorted
    /\ l = firstn n sorted.

(** Step 2 of the InsightEngine, answer -> question -> quiz, as two
    queries by id on a collection of questions and a collection of
    quizzes. *)
Definition quiz_by_spec (questions : list Question.t) (quizzes : list Quiz.t)
    (answer : QuizAttemptAnswer.t) : option Quiz.t :=
  match find (fun question =>
                String.eqb (Question.id question) (QuizAttemptAnswer.question_id answer))
             questions with
  | Some question =>
      find (fun quiz => String.eqb (Quiz.id quiz) (Question.quiz_id question)) quizzes
  | None => None
  end.

(** The answer was given in one of [attempts]. *)
Definition of_attempts (attempts : list QuizAttempt.t) (answer : QuizAttemptAnswer.t)
    : bool :=
  existsb (fun attempt =>
             String.eqb (QuizAttempt.id attempt) (QuizAttemptAnswer.attempt_id answer))
          attempts.

(** One of [attempts] was taken on the quiz. *)
Definition taken_in (attempts : list QuizAttempt.t) (quiz : Quiz.t) : bool :=
  existsb (fun attempt => String.eqb (QuizAttempt.quiz_id attempt) (Quiz.id quiz))
          attempts.

(** The answers of [attempts] that are on [topic], each with its quiz, in
    the order of the collection of the answers. *)
Definition answers_by_spec (topic : string) (attempts : list QuizAttempt.t)
    (questions : list Question.t) (quizzes : list Quiz.t)
    (answers : list QuizAttemptAnswer.t) : list (QuizAttemptAnswer.t * Quiz.t) :=
  flat_map
    (fun answer =>
       if of_attempts attempts answer then
         match quiz_by_spec questions quizzes answer with
         | Some quiz => if String.eqb (Quiz.topic quiz) topic then [(answer, quiz)] else []
         | None => []
         end
       else [])
    answers.

(** What makes an answer with its quiz one of the answers counted for a
    topic: the answer is stored for one of [attempts], the quiz is the
    stored quiz of the stored question it answers and a quiz one of
    [attempts] was taken on, and the topic of the quiz is [topic]. *)
Definition counted_for (topic : string) (db : DB) (attempts : list QuizAttempt.t)
    (e : QuizAttemptAnswer.t * Quiz.t) : Prop :=
  In (fst e) (answers db)
  /\ (exists attempt,
        In attempt attempts
        /\ QuizAttempt.id attempt = QuizAttemptAnswer.attempt_id (fst e))
  /\ (exists question,
        In question (questions db)
        /\ Question.id question = QuizAttemptAnswer.question_id (fst e)
        /\ Quiz.id (snd e) = Question.quiz_id question)
  /\ In (snd e) (quizzes db)
  /\ (exists attempt,
        In attempt attempts /\ QuizAttempt.quiz_id attempt = Quiz.id (snd e))
  /\ Quiz.topic (snd e) = topic.

(** Every question answered in one of [attempts] belongs to the quiz of
    that attempt: what both handlers check before they store an answer. *)
Definition answers_on_their_quiz (db : DB) (attempts : list QuizAttempt.t) : Prop :=
  forall answer attempt question,
    In answer (answers db) ->
    In attempt attempts ->
    QuizAttempt.id attempt = QuizAttemptAnswer.attempt_id answer ->
    In question (questions db) ->
    Question.id question = QuizAttemptAnswer.question_id answer ->
    Question.quiz_id question = QuizAttempt.quiz_id attempt.

(** A history entry shows an attempt: its id, its quiz, its score, its two
    counts, and as date the date of completion, or of creation when the
    attempt has none. *)
Definition entry_shows (attempt : QuizAttempt.t) (entry : PerformanceEntry.t) : Prop :=
  PerformanceEntry.id entry = QuizAttempt.id attempt
  /\ PerformanceEntry.quiz_id entry = QuizAttempt.quiz_id attempt
  /\ PerformanceEntry.score entry = QuizAttempt.score attempt
  /\ PerformanceEntry.correct_answers entry = QuizAttempt.correct_answers attempt
  /\ PerformanceEntry.total_questions entry = QuizAttempt.total_questions attempt
  /\ PerformanceEntry.date entry
     = match QuizAttempt.completed_at attempt with
       | Some d => d
       | None => QuizAttempt.created_at attempt
       end.

(** A score as the dashboard sends it: 0 in the place of a number that is
    NaN, below 0 or above 100. *)
Definition score_or_zero (x : Number) : Number :=
  if is_nan x || ltb x zero || ltb 100%float x then zero else x.

(** Three attempts of Carol on the topic Algebra, at an easy, a medium and a
    hard quiz: two of three, one of one and none of two answers right. *)
Module SampleMixed.

Definition medium_id : string := "55555555-5555-4555-8555-555555555555".
Definition hard_id : string := "66666666-6666-4666-8666-666666666666".
Definition carol : string := "user-carol".

Definition equations : Quiz.t := Quiz.mk medium_id "Equations" "Algebra" MEDIUM 1002%Z.
Definition groups : Quiz.t := Quiz.mk hard_id "Groups" "Algebra" HARD 1003%Z.

Definition m1 : Question.t := Question.mk "m-1" medium_id ["A"] 1104%Z.
Definition h1 : Question.t := Question.mk "h-1" hard_id ["A"] 1105%Z.
Definition h2 : Question.t := Question.mk "h-2" hard_id ["B"] 1106%Z.

Definition catalog : DB :=
  mkDB [Sample.algebra; Sample.biology; equations; groups]
       [Sample.q1; Sample.q2; Sample.q3; Sample.b1; m1; h1; h2] [] [] [] [] [].

Definition choice (question_id letter : string) : AnswerInput.t :=
  AnswerInput.mk (Some question_id) (Some (JArr [JStr letter])).

Definition easy_request : CreateReq.t :=
  CreateReq.mk (Some Sample.algebra_id) (Some 67%float) (Some 3%float) (Some 2%float)
    (Some 30%float) (Some [choice "q-1" "A"; choice "q-2" "X"; choice "q-3" "C"]) carol.

Definition medium_request : CreateReq.t :=
  CreateReq.mk (Some medium_id) (Some 100%float) (Some 1%float) (Some 1%float)
    (Some 10%float) (Some [choice "m-1" "A"]) carol.

Definition hard_request : CreateReq.t :=
  CreateReq.mk (Some hard_id) (Some 0%float) (Some 2%float) (Some 0%float)
    (Some 20%float) (Some [choice "h-1" "X"; choice "h-2" "X"]) carol.

Definition after_easy : DB :=
  out_db (createQuizAttempt (Sample13.env "e-" 5001%Z) easy_request catalog).
Definition after_medium : DB :=
  out_db (createQuizAttempt (Sample13.env "m-" 5002%Z) medium_request after_easy).
Definition after_hard : DB :=
  out_db (createQuizAttempt (Sample13.env "h-" 5003%Z) hard_request after_medium).

Definition clock : Env := Sample13.env "i-" 6000%Z.

Definition run : Result (DB * option MLInsight.t) :=
  generateUserInsights clock carol after_hard.

Definition saved_db : DB :=
  match run with
  | Ok (db', _) => db'
  | Throw _ => after_hard
  end.

Definition snapshot : MLInsight.t :=
  match run with
  | Ok (_, Some doc) => doc
  | _ => MLInsight.mk "" "" [] [] [] [] 0%Z None None
  end.

End SampleMixed.

(* ================================================================== *)
(** * First checks of the embedding on concrete values *)

Example stringify_ex1 :
  stringify (JArr [JStr "A"; JStr (String dquote "hi\"); JNum (-12)])
  = ("[" ++ String dquote ("A" ++ String dquote ("," ++ String dquote
       ("\" ++ String dquote ("hi\\" ++ String dquote ",-12]")))))%string.
Proof. reflexivity. Qed.

Example isValidUUID_ex1 :
  isValidUUID "123e4567-e89b-42d3-A456-426614174000" = true
  /\ isValidUUID "123e4567-e89b-62d3-a456-426614174000" = false
  /\ isValidUUID "123e4567-e89b-42d3-a456-42661417400" = false.
Proof. repeat split; reflexivity. Qed.

Example Math_round_ex1 :
  Math_round (2 / 3 * 100)%float = 67%float
  /\ Math_round 2.5%float = 3%float
  /\ Math_round (-2.5)%float = (-2)%float
  /\ Math_round (23 / 40 * 100)%float = 57%float.
Proof. repeat split; vm_compute; reflexivity. Qed.

(* ================================================================== *)
(** * [JSON.stringify] tells arrays of strings apart *)

Lemma string_app_assoc (a b c : string) :
  ((a ++ b) ++ c = a ++ (b ++ c))%string.
Proof. induction a as [|x a IH]; simpl; [reflexivity | now rewrite IH]. Qed.

Lemma unescape1_escape_char (c : ascii) (r : string) :
  unescape1 (escape_char c ++ r)%string = Some (c, r).
Proof.
  destruct c as [[] [] [] [] [] [] [] []]; reflexivity.
Qed.

Lemma unescape1_closing (r : string) :
  unescape1 (String dquote r) = None.
Proof. reflexivity. Qed.

Lemma escape_inj (s s' r r' : string) :
  (escape s ++ String dquote r = escape s' ++ String dquote r')%string ->
  s = s' /\ r = r'.
Proof.
  revert s'.
  induction s as [|c s IH]; intros [|c' s'] H; simpl in H.
  - injection H as ->. now split.
  - apply (f_equal unescape1) in H.
    rewrite unescape1_closing, string_app_assoc, unescape1_escape_char in H.
    discriminate.
  - apply (f_equal unescape1) in H.
    rewrite unescape1_closing, string_app_assoc, unescape1_escape_char in H.
    discriminate.
  - apply (f_equal unescape1) in H.
    rewrite !string_app_assoc, !unescape1_escape_char in H.
    injection H as -> H.
    destruct (IH _ H) as [-> ->]. now split.
Qed.

Lemma quote_inj (s s' r r' : string) :
  (quote s ++ r = quote s' ++ r')%string -> s = s' /\ r = r'.
Proof.
  unfold quote. simpl. rewrite !string_app_assoc. simpl.
  intros H. injection H as H. now apply escape_inj.
Qed.

Lemma string_of_Z_starts (z : Z) :
  starts_with (fun c => is_digit c || is_char 45 c) (string_of_Z z) = true.
Proof.
  unfold string_of_Z, NilZero.string_of_int, NilZero.string_of_uint.
  destruct (Z.to_int z) as [u|u]; [destruct u | ]; reflexivity.
Qed.

Lemma stringify_starts (v : json) :
  starts_with (first_chars v) (stringify v) = true.
Proof.
  destruct v as [| [] | z | s | l | l]; try reflexivity.
  apply string_of_Z_starts.
Qed.

Lemma starts_with_app (p : ascii -> bool) (s r : string) :
  starts_with p s = true -> starts_with p (s ++ r)%string = true.
Proof. destruct s; simpl; [discriminate | auto]. Qed.

Lemma starts_with_both (p q : ascii -> bool) (s : string) :
  starts_with p s = true -> starts_with q s = true ->
  exists c, p c = true /\ q c = true.
Proof. destruct s as [|c s]; simpl; [discriminate | eauto]. Qed.

Lemma join_close_spec (l : list string) :
  (join_commas l ++ "]")%string = join_close l.
Proof.
  induction l as [|x [|y t] IH]; try reflexivity.
  change (join_commas (x :: y :: t)) with (x ++ "," ++ join_commas (y :: t))%string.
  rewrite !string_app_assoc. simpl in *. now rewrite IH.
Qed.

Lemma join_close_cons (x : string) (t : list string) :
  exists tail,
    join_close (x :: t) = (x ++ tail)%string
    /\ (t = [] /\ tail = "]"
        \/ t <> [] /\ tail = String "," (join_close t)).
Proof.
  destruct t as [|y t]; simpl; eexists; split; try reflexivity.
  - now left.
  - right. split; [discriminate | reflexivity].
Qed.

Lemma first_chars_quote (v : json) (c : ascii) :
  first_chars v c = true -> is_char 34 c = true -> exists s, v = JStr s.
Proof.
  destruct v; simpl; eauto;
    destruct c as [[] [] [] [] [] [] [] []]; simpl; discriminate.
Qed.

Lemma first_chars_not_closing (v : json) (c : ascii) :
  first_chars v c = true -> is_char 93 c = true -> False.
Proof.
  destruct v; simpl;
    destruct c as [[] [] [] [] [] [] [] []]; simpl; discriminate.
Qed.

Lemma first_chars_bracket (v : json) (c : ascii) :
  first_chars v c = true -> is_char 91 c = true -> exists l, v = JArr l.
Proof.
  destruct v; simpl; eauto;
    destruct c as [[] [] [] [] [] [] [] []]; simpl; discriminate.
Qed.

(** An array that serialises like an array of strings is that array. *)
Lemma join_close_strings (l : list json) (c : list string) :
  join_close (map stringify l) = join_close (map quote c) ->
  l = map JStr c.
Proof.
  revert c.
  induction l as [|v l IH]; intros [|s c] H.
  - reflexivity.
  - exfalso. destruct (join_close_cons (quote s) (map quote c)) as (tail & E & _).
    change (map quote (s :: c)) with (quote s :: map quote c) in H.
    rewrite E in H. discriminate H.
  - exfalso. change (map stringify (v :: l)) with (stringify v :: map stringify l) in H.
    destruct (join_close_cons (stringify v) (map stringify l)) as (tail & E & _).
    rewrite E in H.
    pose proof (starts_with_app _ _ tail (stringify_starts v)) as S.
    rewrite H in S.
    destruct (starts_with_both _ (is_char 93) _ S eq_refl) as (ch & A & B).
    exact (first_chars_not_closing _ _ A B).
  - change (map stringify (v :: l)) with (stringify v :: map stringify l) in H.
    change (map quote (s :: c)) with (quote s :: map quote c) in H.
    destruct (join_close_cons (stringify v) (map stringify l)) as (t1 & E1 & T1).
    destruct (join_close_cons (quote s) (map quote c)) as (t2 & E2 & T2).
    rewrite E1, E2 in H.
    pose proof (starts_with_app _ _ t1 (stringify_starts v)) as S.
    rewrite H in S.
    destruct (starts_with_both _ (is_char 34) _ S eq_refl) as (ch & A & B).
    destruct (first_chars_quote _ _ A B) as (s' & ->).
    simpl stringify in H.
    apply quote_inj in H. destruct H as [-> H].
    destruct T1 as [[L1 ->] | [L1 ->]], T2 as [[L2 ->] | [L2 ->]].
    + destruct l; [|discriminate]. destruct c; [|discriminate]. reflexivity.
    + discriminate.
    + discriminate.
    + injection H as H. simpl. f_equal. now apply IH.
Qed.

Lemma map_stringify_strings (c : list string) :
  map stringify (map JStr c) = map quote c.
Proof. rewrite map_map. reflexivity. Qed.

(** The test is true for exactly one value of [selected_answer]: the array
    of the correct answers, in their order. *)
Lemma answer_is_correct_iff (selected_answer : option json) (correct_answer : list string) :
  answer_is_correct selected_answer correct_answer = true
  <-> selected_answer = Some (JArr (map JStr correct_answer)).
Proof.
  unfold answer_is_correct. split.
  - destruct selected_answer as [v|]; simpl; [|discriminate].
    intros H. apply String.eqb_eq in H.
    pose proof (stringify_starts v) as S. rewrite H in S.
    destruct (starts_with_both _ (is_char 91) _ S eq_refl) as (ch & A & B).
    destruct (first_chars_bracket _ _ A B) as (l & ->).
    simpl in H. injection H as H.
    rewrite !join_close_spec, map_stringify_strings in H.
    apply join_close_strings in H. now subst.
  - intros ->. simpl. apply String.eqb_refl.
Qed.

(* ================================================================== *)
(** * [submitQuizAnswer]: the two ways it ends *)

Lemma negb_eqb_false (a b : string) : negb (String.eqb a b) = false -> a = b.
Proof. intros H. apply negb_false_iff in H. now apply String.eqb_eq. Qed.

Lemma Status_eqb_eq (a b : Status) : Status_eqb a b = true <-> a = b.
Proof. destruct a, b; simpl; split; congruence. Qed.

Lemma required_mixed_ok (v : option json) (j : json) :
  required_mixed v = Ok j -> v = Some j /\ j <> JNull.
Proof.
  destruct v as [[]|]; simpl; intros H; try discriminate;
    injection H as <-; split; congruence.
Qed.

(** The handler answers 201 only when every check passed; the database is
    then the old one with the new answer and, at the last question, with the
    attempt completed. *)
Lemma submit_created (env : Env) (req : SubmitReq.t) (db : DB)
    (ic : bool) (ans : QuizAttemptAnswer.t) :
  out_response (submitQuizAnswer env req db) = SubmitCreated ic ans ->
  exists question_id attempt question selected,
    isValidUUID (SubmitReq.attemptId req) = true
    /\ valid_question_id (SubmitReq.question_id req) = Some question_id
    /\ findOne (attempt_has_id (SubmitReq.attemptId req)) (attempts db) = Some attempt
    /\ QuizAttempt.user_id attempt = SubmitReq.user_id req
    /\ QuizAttempt.status attempt = IN_PROGRESS
    /\ findOne (question_has_id question_id) (questions db) = Some question
    /\ Question.quiz_id question = QuizAttempt.quiz_id attempt
    /\ findOne (answer_for (SubmitReq.attemptId req) question_id) (answers db) = None
    /\ SubmitReq.selected_answer req = Some selected
    /\ selected <> JNull
    /\ ic = answer_is_correct (Some selected) (Question.correct_answer question)
    /\ ans = new_answer env req question_id selected ic
    /\ existsb (answer_duplicates ans) (answers db) = false
    /\ submitQuizAnswer env req db = recorded env req db attempt ans.
Proof.
  unfold submitQuizAnswer.
  destruct (isValidUUID (SubmitReq.attemptId req)) eqn:U; simpl; [|discriminate].
  destruct (valid_question_id (SubmitReq.question_id req)) as [qid|] eqn:Q; [|discriminate].
  destruct (findOne (attempt_has_id _) (attempts db)) as [attempt|] eqn:A; [|discriminate].
  destruct (negb (String.eqb (QuizAttempt.user_id attempt) _)) eqn:O; [discriminate|].
  destruct (negb (Status_eqb (QuizAttempt.status attempt) IN_PROGRESS)) eqn:S; [discriminate|].
  destruct (findOne (question_has_id qid) (questions db)) as [question|] eqn:F; [|discriminate].
  destruct (negb (String.eqb (Question.quiz_id question) _)) eqn:B; [discriminate|].
  destruct (findOne (answer_for _ qid) (answers db)) as [x|] eqn:X; [discriminate|].
  destruct (required_mixed (SubmitReq.selected_answer req)) as [selected|e] eqn:R;
    simpl; [|discriminate].
  unfold insert_answer.
  destruct (existsb _ (answers db)) eqn:D; simpl; [discriminate|].
  apply required_mixed_ok in R. destruct R as [R N].
  apply negb_eqb_false in O. apply negb_eqb_false in B.
  apply negb_false_iff, Status_eqb_eq in S.
  intros H.
  assert (ic = answer_is_correct (SubmitReq.selected_answer req)
                                 (Question.correct_answer question)
          /\ ans = new_answer env req qid selected ic) as [-> ->].
  { destruct (Nat.eqb _ _); simpl in H; injection H as <- <-; now split. }
  exists qid, attempt, question, selected.
  rewrite R in *.
  repeat (split; [assumption || reflexivity|]).
  unfold recorded, answers_after, questions_of, correct_after. simpl.
  reflexivity.
Qed.

(** Any other response leaves the database as it was and starts nothing. *)
Lemma submit_error_unchanged (env : Env) (req : SubmitReq.t) (db : DB)
    (status : nat) (message : string) :
  out_response (submitQuizAnswer env req db) = SubmitError status message ->
  out_db (submitQuizAnswer env req db) = db
  /\ out_insights_for (submitQuizAnswer env req db) = None.
Proof.
  unfold submitQuizAnswer, submit_error.
  repeat match goal with
         | |- context [match ?x with _ => _ end] => destruct x eqn:?; simpl
         | |- context [if ?x then _ else _] => destruct x eqn:?; simpl
         end; intros H; try discriminate; split; reflexivity.
Qed.

(* ================================================================== *)
(** * [createQuizAttempt]: the two ways it ends *)

Lemma prepare_all_ok (env : Env) (db : DB) (quiz_id : string) (att : QuizAttempt.t)
    (l : list AnswerInput.t) :
  forall (i : nat) (preps : list PreparedAnswer),
  prepare_all env db quiz_id att i l = Ok preps ->
  Forall2
    (fun input p =>
       exists question,
         valid_question_id (AnswerInput.question_id input) = Some (prep_question_id p)
         /\ findOne (question_has_id (prep_question_id p)) (questions db) = Some question
         /\ Question.quiz_id question = quiz_id
         /\ prep_attempt_id p = QuizAttempt.id att
         /\ prep_selected_answer p = AnswerInput.selected_answer input
         /\ prep_is_correct p
            = answer_is_correct (AnswerInput.selected_answer input)
                                (Question.correct_answer question))
    l preps.
Proof.
  induction l as [|a l IH]; intros i preps H; simpl in H.
  - injection H as <-. constructor.
  - unfold bind in H.
    destruct (prepare_answer env db quiz_id att i a) as [p|e] eqn:P; [|discriminate].
    destruct (prepare_all env db quiz_id att (S i) l) as [rest|e] eqn:R; [|discriminate].
    injection H as <-. constructor; [|now apply (IH (S i))].
    unfold prepare_answer in P.
    destruct (valid_question_id (AnswerInput.question_id a)) as [qid|] eqn:V; [|discriminate].
    destruct (findOne (question_has_id qid) (questions db)) as [question|] eqn:F;
      [|discriminate].
    destruct (negb (String.eqb (Question.quiz_id question) quiz_id)) eqn:B; [discriminate|].
    injection P as <-. simpl. exists question.
    apply negb_eqb_false in B. now repeat split.
Qed.

Lemma prepare_all_bad (env : Env) (db : DB) (quiz_id : string) (att : QuizAttempt.t)
    (l : list AnswerInput.t) (a : AnswerInput.t) :
  In a l -> bad_reference db quiz_id a ->
  forall i, exists e, prepare_all env db quiz_id att i l = Throw e.
Proof.
  intros I (qid & Q & B).
  induction l as [|x l IH]; [contradiction|]. intros i. simpl.
  destruct I as [-> | I].
  - assert (exists e, prepare_answer env db quiz_id att i a = Throw e) as (e & ->).
    { unfold prepare_answer. rewrite Q. destruct qid as [|c qid]; simpl; [eauto|].
      destruct B as [-> | (question & -> & N)]; [eauto|].
      apply String.eqb_neq in N. rewrite N. simpl. eauto. }
    simpl. eauto.
  - destruct (prepare_answer env db quiz_id att i x); simpl; [|eauto].
    destruct (IH I (S i)) as (e & ->). simpl. eauto.
Qed.

Lemma validate_all_ok (env : Env) (preps : list PreparedAnswer) :
  forall docs, validate_all env preps = Ok docs ->
  Forall2
    (fun p d =>
       QuizAttemptAnswer.question_id d = prep_question_id p
       /\ QuizAttemptAnswer.attempt_id d = prep_attempt_id p
       /\ prep_selected_answer p = Some (QuizAttemptAnswer.selected_answer d)
       /\ QuizAttemptAnswer.is_correct d = prep_is_correct p)
    preps docs.
Proof.
  induction preps as [|p preps IH]; intros docs H; simpl in H.
  - injection H as <-. constructor.
  - unfold bind in H. unfold to_document, bind in H.
    destruct (required_mixed (prep_selected_answer p)) as [sel|e] eqn:R; [|discriminate].
    destruct (validate_all env preps) as [rest|e]; [|discriminate].
    injection H as <-. constructor; [|now apply IH].
    apply required_mixed_ok in R. simpl. now repeat split.
Qed.

Lemma insert_all_ok (docs : list QuizAttemptAnswer.t) :
  forall db db', insert_all docs db = Ok db' ->
  db' = with_answers db (answers db ++ docs).
Proof.
  induction docs as [|d docs IH]; intros db db' H; simpl in H.
  - injection H as <-. rewrite app_nil_r. now destruct db.
  - unfold bind, insert_answer in H.
    destruct (existsb (answer_duplicates d) (answers db)); [discriminate|].
    apply IH in H. rewrite H. simpl. rewrite <- app_assoc. reflexivity.
Qed.

Lemma Forall2_compose {A B C : Type} (P : A -> B -> Prop) (Q : B -> C -> Prop)
    (R : A -> C -> Prop) (la : list A) (lb : list B) (lc : list C) :
  (forall a b c, P a b -> Q b c -> R a c) ->
  Forall2 P la lb -> Forall2 Q lb lc -> Forall2 R la lc.
Proof.
  intros PQ H. revert lc.
  induction H as [|a b la lb Pab _ IH]; intros lc HQ; inversion HQ; subst;
    constructor; eauto.
Qed.

(** The handler answers 201 only when the whole transaction went through:
    the attempt is the one built from the request, and the answers stored
    are the graded copies of the answers sent, in their order. *)
Lemma create_created (env : Env) (req : CreateReq.t) (db : DB) (att : QuizAttempt.t) :
  out_response (createQuizAttempt env req db) = CreateCreated att ->
  exists quiz_id inputs docs,
    CreateReq.quiz_id req = Some quiz_id
    /\ CreateReq.answers req = Some inputs
    /\ att = new_attempt env req quiz_id
    /\ out_db (createQuizAttempt env req db)
       = with_answers (with_attempts db (attempts db ++ [att])) (answers db ++ docs)
    /\ Forall2 (graded_copy db quiz_id (QuizAttempt.id att)) inputs docs.
Proof.
  unfold createQuizAttempt.
  destruct (CreateReq.quiz_id req) as [quiz_id|] eqn:Q; [|discriminate].
  destruct (is_blank quiz_id); [discriminate|].
  destruct (negb (isValidUUID quiz_id)); [discriminate|].
  destruct (findOne _ (quizzes db)) as [quiz|]; [|discriminate].
  unfold withTransaction, create_transaction, insert_attempt, insertMany.
  destruct (existsb _ (attempts db)); simpl; [discriminate|].
  destruct (CreateReq.answers req) as [inputs|] eqn:A; simpl; [|discriminate].
  set (att0 := new_attempt env req quiz_id).
  set (db1 := with_attempts db (attempts db ++ [att0])).
  destruct (prepare_all env db1 quiz_id att0 0 inputs) as [preps|e] eqn:P;
    simpl; [|discriminate].
  destruct (validate_all env preps) as [docs|e] eqn:V; simpl; [|discriminate].
  destruct (insert_all docs db1) as [db2|e] eqn:I; simpl; [|discriminate].
  intros H. injection H as <-.
  exists quiz_id, inputs, docs. repeat split.
  - now apply insert_all_ok in I.
  - apply prepare_all_ok in P. apply validate_all_ok in V.
    refine (Forall2_compose _ _ _ _ _ _ _ P V).
    intros a p d (question & H1 & H2 & H3 & H4 & H5 & H6) (G1 & G2 & G3 & G4).
    exists question. rewrite G1, G2, G4. rewrite <- G3, H5.
    now repeat split.
Qed.

(** Any other response leaves the database as it was: the checks before the
    transaction write nothing, and a transaction that throws is discarded. *)
Lemma create_error_unchanged (env : Env) (req : CreateReq.t) (db : DB)
    (status : nat) (message : string) :
  out_response (createQuizAttempt env req db) = CreateError status message ->
  out_db (createQuizAttempt env req db) = db
  /\ out_insights_for (createQuizAttempt env req db) = None.
Proof.
  unfold createQuizAttempt, create_error, withTransaction.
  destruct (CreateReq.quiz_id req) as [quiz_id|]; [|now split].
  destruct (is_blank quiz_id); [now split|].
  destruct (negb (isValidUUID quiz_id)); [now split|].
  destruct (findOne _ (quizzes db)) as [quiz|]; [|now split].
  destruct (create_transaction env req quiz_id db) as [[db' a]|e]; simpl;
    [discriminate | now split].
Qed.

(** A bulk request with a bad reference is answered with an error. *)
Lemma create_bad_reference (env : Env) (req : CreateReq.t) (db : DB)
    (quiz_id : string) (inputs : list AnswerInput.t) (a : AnswerInput.t) :
  CreateReq.quiz_id req = Some quiz_id ->
  CreateReq.answers req = Some inputs ->
  In a inputs ->
  bad_reference db quiz_id a ->
  exists status message,
    out_response (createQuizAttempt env req db) = CreateError status message.
Proof.
  intros Q A I B.
  unfold createQuizAttempt. rewrite Q.
  destruct (is_blank quiz_id); [simpl; eauto|].
  destruct (negb (isValidUUID quiz_id)); [simpl; eauto|].
  destruct (findOne _ (quizzes db)) as [quiz|]; [|simpl; eauto].
  unfold withTransaction, create_transaction, insert_attempt.
  destruct (existsb _ (attempts db)); simpl; [eauto|].
  rewrite A. simpl.
  destruct (prepare_all_bad env
              (with_attempts db (attempts db ++ [new_attempt env req quiz_id]))
              quiz_id (new_attempt env req quiz_id) inputs a I B 0) as (e & ->).
  simpl. eauto.
Qed.

(* ================================================================== *)
(** * The sample runs *)

Example sample_three_answers :
  map QuizAttempt.status (attempts Sample.after_two) = [IN_PROGRESS]
  /\ map QuizAttempt.status (attempts Sample.after_three) = [COMPLETED]
  /\ map QuizAttempt.score (attempts Sample.after_three)
     = [Some (2 / 3 * 100)%float]
  /\ map QuizAttemptAnswer.is_correct (answers Sample.after_three) = [true; false; true].
Proof. vm_compute. repeat split. Qed.

Example sample_bulk :
  out_response (createQuizAttempt Sample.env4 (Sample.bulk 250%float "q-3") Sample.catalog)
  = CreateCreated (new_attempt Sample.env4 (Sample.bulk 250%float "q-3") Sample.algebra_id)
  /\ map QuizAttemptAnswer.is_correct
       (answers (out_db (createQuizAttempt Sample.env4 (Sample.bulk 250%float "q-3") Sample.catalog)))
     = [true; false; true].
Proof. vm_compute. repeat split. Qed.

(* ================================================================== *)
(** * Bulk submission: rollback, and the fields taken from the request *)

(** C3: a bulk submission with an answer whose question does not exist or
    belongs to another quiz is answered with an error, and the database
    after it is the database before it: neither the attempt nor any answer
    is stored, and no insight run is started. *)
Theorem bulk_bad_reference_rolls_back (env : Env) (req : CreateReq.t) (db : DB)
    (quiz_id : string) (inputs : list AnswerInput.t) (a : AnswerInput.t) :
  CreateReq.quiz_id req = Some quiz_id ->
  CreateReq.answers req = Some inputs ->
  In a inputs ->
  bad_reference db quiz_id a ->
  (exists status message,
     out_response (createQuizAttempt env req db) = CreateError status message)
  /\ out_db (createQuizAttempt env req db) = db
  /\ attempts (out_db (createQuizAttempt env req db)) = attempts db
  /\ answers (out_db (createQuizAttempt env req db)) = answers db
  /\ out_insights_for (createQuizAttempt env req db) = None.
Proof.
  intros Q A I B.
  destruct (create_bad_reference env req db quiz_id inputs a Q A I B) as (st & msg & E).
  destruct (create_error_unchanged env req db st msg E) as [U N].
  rewrite U. repeat split; eauto.
Qed.

Lemma bulk_bad_reference_rolls_back_witness :
  (exists status message,
     out_response (createQuizAttempt Sample.env4 (Sample.bulk 67%float "b-1") Sample.after_two)
     = CreateError status message)
  /\ out_db (createQuizAttempt Sample.env4 (Sample.bulk 67%float "b-1") Sample.after_two)
     = Sample.after_two
  /\ attempts (out_db (createQuizAttempt Sample.env4 (Sample.bulk 67%float "b-1")
                         Sample.after_two))
     = attempts Sample.after_two
  /\ answers (out_db (createQuizAttempt Sample.env4 (Sample.bulk 67%float "b-1")
                        Sample.after_two))
     = answers Sample.after_two
  /\ out_insights_for (createQuizAttempt Sample.env4 (Sample.bulk 67%float "b-1")
                         Sample.after_two)
     = None.
Proof.
  apply (bulk_bad_reference_rolls_back Sample.env4 (Sample.bulk 67%float "b-1")
           Sample.after_two Sample.algebra_id
           [ AnswerInput.mk (Some "q-1") (Some (JArr [JStr "A"]));
             AnswerInput.mk (Some "q-2") (Some (JStr "B"));
             AnswerInput.mk (Some "b-1") (Some (JArr [JStr "C"])) ]
           (AnswerInput.mk (Some "b-1") (Some (JArr [JStr "C"])))).
  - reflexivity.
  - reflexivity.
  - simpl. auto.
  - exists "b-1". split; [reflexivity|]. right. exists Sample.b1.
    split; [reflexivity | discriminate].
Defined.

(** C10: the attempt a bulk submission creates is completed and carries the
    score, the number of questions, the number of correct answers and the
    time of the request as they were sent, whatever they are. *)
Theorem bulk_stores_request_fields (env : Env) (req : CreateReq.t) (db : DB)
    (att : QuizAttempt.t) :
  out_response (createQuizAttempt env req db) = CreateCreated att ->
  In att (attempts (out_db (createQuizAttempt env req db)))
  /\ QuizAttempt.status att = COMPLETED
  /\ QuizAttempt.score att = CreateReq.score req
  /\ QuizAttempt.total_questions att = CreateReq.total_questions req
  /\ QuizAttempt.correct_answers att = CreateReq.correct_answers req
  /\ QuizAttempt.time_taken att = CreateReq.time_taken req.
Proof.
  intros H.
  destruct (create_created env req db att H) as (quiz_id & inputs & docs & _ & _ & -> & D & _).
  rewrite D. simpl. split; [|now repeat split].
  apply in_or_app. right. now left.
Qed.

Lemma bulk_stores_request_fields_witness :
  exists att,
    In att (attempts (out_db (createQuizAttempt Sample.env4 (Sample.bulk 250%float "q-3")
                                Sample.catalog)))
    /\ QuizAttempt.status att = COMPLETED
    /\ QuizAttempt.score att = Some 250%float
    /\ QuizAttempt.total_questions att = Some 3%float
    /\ QuizAttempt.correct_answers att = Some 0%float
    /\ QuizAttempt.time_taken att = Some 42%float.
Proof.
  exists (new_attempt Sample.env4 (Sample.bulk 250%float "q-3") Sample.algebra_id).
  apply (bulk_stores_request_fields Sample.env4 (Sample.bulk 250%float "q-3")
           Sample.catalog).
  vm_compute. reflexivity.
Defined.

(* ================================================================== *)
(** * The correctness flag *)



(* ================================================================== *)
(** * The completing update *)

Lemma findOne_updateOne_same (id : string) (f : QuizAttempt.t -> QuizAttempt.t)
    (c : list QuizAttempt.t) :
  (forall a, QuizAttempt.id (f a) = QuizAttempt.id a) ->
  findOne (attempt_has_id id) (updateOne id f c)
  = option_map f (findOne (attempt_has_id id) c).
Proof.
  intros K. induction c as [|a c IH]; simpl; [reflexivity|].
  unfold attempt_has_id at 2.
  destruct (String.eqb (QuizAttempt.id a) id) eqn:E; simpl.
  - unfold attempt_has_id. now rewrite K, E.
  - unfold attempt_has_id at 1. now rewrite E.
Qed.

Lemma findOne_updateOne_other (id i : string) (f : QuizAttempt.t -> QuizAttempt.t)
    (c : list QuizAttempt.t) :
  (forall a, QuizAttempt.id (f a) = QuizAttempt.id a) ->
  i <> id ->
  findOne (attempt_has_id i) (updateOne id f c) = findOne (attempt_has_id i) c.
Proof.
  intros K N. induction c as [|a c IH]; simpl; [reflexivity|].
  destruct (String.eqb (QuizAttempt.id a) id) eqn:E; simpl.
  - unfold attempt_has_id. rewrite K.
    apply String.eqb_eq in E. rewrite E.
    apply String.eqb_neq in N. rewrite String.eqb_sym in N. now rewrite N.
  - now rewrite IH.
Qed.

Lemma complete_id (env : Env) (c n : nat) (a : QuizAttempt.t) :
  QuizAttempt.id (complete env c n a) = QuizAttempt.id a.
Proof. reflexivity. Qed.

(** The attempts after a request: unchanged, or with the attempt of the
    request completed from the counts taken after the insertion. *)
Lemma submit_attempts (env : Env) (req : SubmitReq.t) (db : DB) :
  attempts (out_db (submitQuizAnswer env req db)) = attempts db
  \/ exists attempt ans,
       findOne (attempt_has_id (SubmitReq.attemptId req)) (attempts db) = Some attempt
       /\ QuizAttempt.status attempt = IN_PROGRESS
       /\ answers (out_db (submitQuizAnswer env req db)) = answers db ++ [ans]
       /\ attempts (out_db (submitQuizAnswer env req db))
          = updateOne (SubmitReq.attemptId req)
              (complete env
                 (countDocuments (correct_answer_of_attempt (SubmitReq.attemptId req))
                                 (answers db ++ [ans]))
                 (countDocuments (question_of_quiz (QuizAttempt.quiz_id attempt))
                                 (questions db)))
              (attempts db).
Proof.
  destruct (out_response (submitQuizAnswer env req db)) as [ic ans|st msg] eqn:R.
  - destruct (submit_created env req db ic ans R)
      as (qid & attempt & question & selected & _ & _ & A & _ & S & _ & _ & _ & _ & _
          & _ & _ & _ & E).
    rewrite E. unfold recorded.
    destruct (Nat.eqb _ _); simpl; [|now left].
    right. exists attempt, ans. now repeat split.
  - left. now destruct (submit_error_unchanged env req db st msg R) as [-> _].
Qed.

(** What [submitQuizAnswer] stores when it completes an attempt: the number
    of correct answers stored for the attempt, the number of questions of
    its quiz, and as score their quotient times 100 as the division gives
    it. *)
Lemma final_answer_completion (env : Env) (req : SubmitReq.t) (db : DB) (id : string)
    (before after : QuizAttempt.t) :
  findOne (attempt_has_id id) (attempts db) = Some before ->
  QuizAttempt.status before = IN_PROGRESS ->
  findOne (attempt_has_id id) (attempts (out_db (submitQuizAnswer env req db)))
  = Some after ->
  QuizAttempt.status after = COMPLETED ->
  score_is_percentage after
  /\ QuizAttempt.correct_answers after
     = Some (Number_of_nat
               (countDocuments (correct_answer_of_attempt id)
                  (answers (out_db (submitQuizAnswer env req db)))))
  /\ QuizAttempt.total_questions after
     = Some (Number_of_nat
               (countDocuments (question_of_quiz (QuizAttempt.quiz_id after))
                  (questions db))).
Proof.
  intros B S A C.
  destruct (submit_attempts env req db) as [U | (attempt & ans & F & _ & N & U)].
  - rewrite U in A. congruence.
  - rewrite U in A. rewrite N.
    destruct (String.eqb_spec id (SubmitReq.attemptId req)) as [-> | D].
    + rewrite findOne_updateOne_same, F in A by apply complete_id.
      injection A as <-. unfold score_is_percentage. simpl. now repeat split.
    + rewrite findOne_updateOne_other in A by (apply complete_id || assumption).
      congruence.
Qed.

(** C1 fails as stated: after the answers A (right), X (wrong) and C
    (right) to a quiz of three questions the attempt is completed with the
    score 2 / 3 * 100 = 66.66..., which is not the rounded 67; and a bulk
    submission is completed with the score sent (here 250, for three
    questions and no correct answer).  The first is where
    [submitQuizAnswer] leaves out the [Math.round] that the client's
    [submitQuiz] applies to the same field; the second is how
    [createQuizAttempt] is made: it stores the numbers of the request. *)
Lemma completed_score_not_rounded :
  (exists a,
     findOne (attempt_has_id Sample.attempt_id) (attempts Sample.after_three) = Some a
     /\ QuizAttempt.status a = COMPLETED
     /\ QuizAttempt.correct_answers a = Some 2%float
     /\ QuizAttempt.total_questions a = Some 3%float
     /\ ~ score_is_rounded a)
  /\ (exists a,
        out_response (createQuizAttempt Sample.env4 (Sample.bulk 250%float "q-3")
                        Sample.catalog)
        = CreateCreated a
        /\ QuizAttempt.status a = COMPLETED
        /\ ~ score_is_rounded a).
Proof.
  split.
  - exists (complete Sample.env3 2 3 Sample.in_progress).
    split; [vm_compute; reflexivity|].
    repeat split.
    unfold score_is_rounded. simpl. intros H.
    apply (f_equal (fun x => PrimFloat.eqb x 67%float)) in H.
    vm_compute in H. discriminate.
  - exists (new_attempt Sample.env4 (Sample.bulk 250%float "q-3") Sample.algebra_id).
    split; [vm_compute; reflexivity|].
    split; [reflexivity|].
    unfold score_is_rounded. simpl. intros H.
    apply (f_equal (fun x => PrimFloat.eqb x 250%float)) in H.
    vm_compute in H. discriminate.
Qed.

(* ================================================================== *)
(** * One answer per attempt and question *)

Lemma answer_duplicates_key (a b : QuizAttemptAnswer.t) :
  answer_duplicates a b = false -> answer_key b <> answer_key a.
Proof.
  unfold answer_duplicates, answer_key. intros H E. injection E as E1 E2.
  apply orb_false_iff in H. destruct H as [_ H].
  rewrite E1, E2, !String.eqb_refl in H. discriminate.
Qed.

Lemma no_duplicate_key (a : QuizAttemptAnswer.t) (l : list QuizAttemptAnswer.t) :
  existsb (answer_duplicates a) l = false -> ~ In (answer_key a) (map answer_key l).
Proof.
  induction l as [|b l IH]; simpl; [tauto|].
  intros H. apply orb_false_iff in H. destruct H as [H1 H2].
  intros [E | I]; [now apply (answer_duplicates_key a b) | now apply IH].
Qed.

Lemma NoDup_snoc {A : Type} (l : list A) (x : A) :
  NoDup l -> ~ In x l -> NoDup (l ++ [x]).
Proof.
  induction l as [|y l IH]; simpl; intros N I.
  - constructor; [tauto | constructor].
  - inversion N as [|? ? Y N']; subst. constructor.
    + rewrite in_app_iff. simpl. intros [H | [H | []]]; [tauto|]. subst. tauto.
    + apply IH; tauto.
Qed.

Lemma insert_answer_unique (a : QuizAttemptAnswer.t) (db db' : DB) :
  insert_answer a db = Ok db' ->
  one_answer_per_question db -> one_answer_per_question db'.
Proof.
  unfold insert_answer, one_answer_per_question.
  destruct (existsb (answer_duplicates a) (answers db)) eqn:E; [discriminate|].
  intros H N. injection H as <-. simpl. rewrite map_app. simpl.
  apply NoDup_snoc; [assumption | now apply no_duplicate_key].
Qed.

Lemma insert_all_unique (docs : list QuizAttemptAnswer.t) :
  forall db db', insert_all docs db = Ok db' ->
  one_answer_per_question db -> one_answer_per_question db'.
Proof.
  induction docs as [|d docs IH]; simpl; intros db db' H N.
  - now injection H as <-.
  - unfold bind in H. destruct (insert_answer d db) as [db1|e] eqn:I; [|discriminate].
    eapply IH; [eassumption|]. eapply insert_answer_unique; eassumption.
Qed.

Lemma submit_unique (env : Env) (req : SubmitReq.t) (db : DB) :
  one_answer_per_question db ->
  one_answer_per_question (out_db (submitQuizAnswer env req db)).
Proof.
  intros N.
  destruct (out_response (submitQuizAnswer env req db)) as [ic ans|st msg] eqn:R.
  - destruct (submit_created env req db ic ans R)
      as (qid & attempt & question & selected & _ & _ & _ & _ & _ & _ & _ & _ & _ & _
          & _ & _ & D & E).
    assert (one_answer_per_question (with_answers db (answers db ++ [ans]))) as N1.
    { unfold one_answer_per_question. simpl. rewrite map_app. simpl.
      apply NoDup_snoc; [assumption | now apply no_duplicate_key]. }
    rewrite E. unfold recorded. destruct (Nat.eqb _ _); simpl; exact N1.
  - now destruct (submit_error_unchanged env req db st msg R) as [-> _].
Qed.

Lemma create_unique (env : Env) (req : CreateReq.t) (db : DB) :
  one_answer_per_question db ->
  one_answer_per_question (out_db (createQuizAttempt env req db)).
Proof.
  intros N. unfold createQuizAttempt, create_error, withTransaction.
  destruct (CreateReq.quiz_id req) as [quiz_id|]; [|exact N].
  destruct (is_blank quiz_id); [exact N|].
  destruct (negb (isValidUUID quiz_id)); [exact N|].
  destruct (findOne _ (quizzes db)) as [quiz|]; [|exact N].
  destruct (create_transaction env req quiz_id db) as [[db' a]|e] eqn:T; simpl;
    [|exact N].
  unfold create_transaction, insert_attempt, insertMany in T.
  destruct (existsb _ (attempts db)); simpl in T; [discriminate|].
  destruct (CreateReq.answers req) as [inputs|]; simpl in T; [|discriminate].
  destruct (prepare_all _ _ _ _ _ _) as [preps|e]; simpl in T; [|discriminate].
  destruct (validate_all env preps) as [docs|e]; simpl in T; [|discriminate].
  destruct (insert_all docs _) as [db2|e] eqn:I; simpl in T; [|discriminate].
  injection T as <- _.
  eapply insert_all_unique; [exact I | exact N].
Qed.

Lemma find_app_none {A : Type} (p : A -> bool) (l : list A) (x : A) :
  find p l = None -> p x = true -> find p (l ++ [x]) = Some x.
Proof.
  induction l as [|y l IH]; simpl; intros N P.
  - now rewrite P.
  - destruct (p y); [discriminate | auto].
Qed.

(** The answer a request stored is in the way of the next request for the
    same attempt and question by the same user: it is refused as a conflict
    and changes nothing. *)
Lemma second_submit_conflict (env1 env2 : Env) (req1 req2 : SubmitReq.t) (db : DB)
    (ic : bool) (ans : QuizAttemptAnswer.t) :
  out_response (submitQuizAnswer env1 req1 db) = SubmitCreated ic ans ->
  SubmitReq.attemptId req2 = SubmitReq.attemptId req1 ->
  valid_question_id (SubmitReq.question_id req2)
  = valid_question_id (SubmitReq.question_id req1) ->
  SubmitReq.user_id req2 = SubmitReq.user_id req1 ->
  conflict (out_response (submitQuizAnswer env2 req2 (out_db (submitQuizAnswer env1 req1 db))))
  /\ out_db (submitQuizAnswer env2 req2 (out_db (submitQuizAnswer env1 req1 db)))
     = out_db (submitQuizAnswer env1 req1 db).
Proof.
  intros R Ea Eq Eu.
  destruct (submit_created env1 req1 db ic ans R)
    as (qid & attempt & question & selected & U & Q & A & O & S & F & B & X & _ & _
        & _ & Hans & _ & E).
  rewrite E. unfold recorded.
  destruct (Nat.eqb _ _); simpl.
  - (* the first request completed the attempt *)
    unfold submitQuizAnswer. rewrite Ea, U, Eq, Q. simpl.
    rewrite findOne_updateOne_same, A by apply complete_id. simpl.
    rewrite Eu, <- O, String.eqb_refl. simpl.
    split; [now right | reflexivity].
  - unfold submitQuizAnswer. rewrite Ea, U, Eq, Q. simpl.
    rewrite A, Eu, <- O, String.eqb_refl, S. simpl.
    rewrite F, B, String.eqb_refl. simpl.
    unfold findOne. rewrite (find_app_none _ _ ans X).
    + split; [now left | reflexivity].
    + subst ans. unfold answer_for. simpl. now rewrite !String.eqb_refl.
Qed.

(** C4: both handlers keep the answers unique per attempt and question; a
    second submission for a pair by the same user is refused as a conflict
    (status 400) and leaves the database, with the first answer in it, as it
    was; and whenever an answer exists for a pair, a submission for the pair
    is refused and changes nothing. *)
Theorem one_answer_first_write_wins :
  (forall env req db,
     one_answer_per_question db ->
     one_answer_per_question (out_db (submitQuizAnswer env req db)))
  /\ (forall env req db,
        one_answer_per_question db ->
        one_answer_per_question (out_db (createQuizAttempt env req db)))
  /\ (forall env1 env2 req1 req2 db ic ans,
        out_response (submitQuizAnswer env1 req1 db) = SubmitCreated ic ans ->
        SubmitReq.attemptId req2 = SubmitReq.attemptId req1 ->
        valid_question_id (SubmitReq.question_id req2)
        = valid_question_id (SubmitReq.question_id req1) ->
        SubmitReq.user_id req2 = SubmitReq.user_id req1 ->
        let db1 := out_db (submitQuizAnswer env1 req1 db) in
        In ans (answers db1)
        /\ conflict (out_response (submitQuizAnswer env2 req2 db1))
        /\ out_db (submitQuizAnswer env2 req2 db1) = db1)
  /\ (forall env req db question_id first,
        valid_question_id (SubmitReq.question_id req) = Some question_id ->
        findOne (answer_for (SubmitReq.attemptId req) question_id) (answers db)
        = Some first ->
        (exists status message,
           out_response (submitQuizAnswer env req db) = SubmitError status message)
        /\ out_db (submitQuizAnswer env req db) = db).
Proof.
  split; [exact submit_unique|].
  split; [exact create_unique|].
  split.
  - intros env1 env2 req1 req2 db ic ans R Ea Eq Eu db1.
    destruct (second_submit_conflict env1 env2 req1 req2 db ic ans R Ea Eq Eu) as [C U].
    split; [|now split].
    destruct (submit_created env1 req1 db ic ans R)
      as (qid & attempt & question & selected & _ & _ & _ & _ & _ & _ & _ & _ & _ & _
          & _ & _ & _ & E).
    unfold db1. rewrite E. unfold recorded.
    destruct (Nat.eqb _ _); simpl; apply in_or_app; right; now left.
  - intros env req db qid first Q F.
    destruct (out_response (submitQuizAnswer env req db)) as [ic ans|st msg] eqn:R.
    + destruct (submit_created env req db ic ans R)
        as (qid' & attempt & question & selected & _ & Q' & _ & _ & _ & _ & _ & X & _).
      congruence.
    + split; [eauto|]. now destruct (submit_error_unchanged env req db st msg R).
Qed.

Lemma one_answer_first_write_wins_witness :
  In (new_answer Sample.env1 (Sample.answer_to "q-1" "A") "q-1" (JArr [JStr "A"]) true)
     (answers Sample.after_one)
  /\ conflict (out_response (submitQuizAnswer Sample.env2 (Sample.answer_to "q-1" "B")
                               Sample.after_one))
  /\ out_db (submitQuizAnswer Sample.env2 (Sample.answer_to "q-1" "B") Sample.after_one)
     = Sample.after_one.
Proof.
  destruct one_answer_first_write_wins as (_ & _ & H & _).
  apply (H Sample.env1 Sample.env2 (Sample.answer_to "q-1" "A") (Sample.answer_to "q-1" "B")
           Sample.started true).
  - vm_compute. reflexivity.
  - reflexivity.
  - reflexivity.
  - reflexivity.
Defined.

(* ================================================================== *)
(** * The completing transition, request after request *)

(** A request that runs alone through its awaited operations ends where
    [submitQuizAnswer] ends. *)
Lemma run_alone_is_submitQuizAnswer (env : Env) (req : SubmitReq.t) (db : DB) :
  Async.run_alone 8 env req (Async.start req) db
  = (out_db (submitQuizAnswer env req db),
     Async.Responded (out_response (submitQuizAnswer env req db))
                     (out_insights_for (submitQuizAnswer env req db))).
Proof.
  unfold submitQuizAnswer, Async.start, submit_error.
  destruct (negb (isValidUUID (SubmitReq.attemptId req))); [reflexivity|].
  destruct (valid_question_id (SubmitReq.question_id req)) as [qid|]; [|reflexivity].
  cbn [Async.run_alone Async.step].
  destruct (findOne (attempt_has_id _) (attempts db)) as [attempt|]; [|reflexivity].
  destruct (negb (String.eqb (QuizAttempt.user_id attempt) _)); [reflexivity|].
  destruct (negb (Status_eqb (QuizAttempt.status attempt) IN_PROGRESS)); [reflexivity|].
  cbn [Async.run_alone Async.step].
  destruct (findOne (question_has_id qid) (questions db)) as [question|]; [|reflexivity].
  destruct (negb (String.eqb (Question.quiz_id question) _)); [reflexivity|].
  cbn [Async.run_alone Async.step].
  destruct (findOne (answer_for _ qid) (answers db)) as [x|]; [reflexivity|].
  cbn [Async.run_alone Async.step].
  destruct (required_mixed (SubmitReq.selected_answer req)) as [selected|e];
    [|reflexivity].
  cbn [bind]. unfold insert_answer.
  destruct (existsb _ (answers db)); [reflexivity|].
  cbn [bind Async.run_alone Async.step].
  destruct (Nat.eqb _ _); reflexivity.
Qed.

Lemma completed_attempt_recorded (env : Env) (req : SubmitReq.t) (db : DB)
    (attempt : QuizAttempt.t) (ans : QuizAttemptAnswer.t) :
  completed_attempt (recorded env req db attempt ans)
  = Nat.eqb (answers_after (SubmitReq.attemptId req) ans db) (questions_of attempt db).
Proof. unfold recorded. now destruct (Nat.eqb _ _). Qed.

(** A request completes an attempt only if the attempt was in progress, and
    leaves it completed. *)
Lemma completed_attempt_was_in_progress (env : Env) (req : SubmitReq.t) (db : DB) :
  completed_attempt (submitQuizAnswer env req db) = true ->
  in_progress (SubmitReq.attemptId req) db = true
  /\ in_progress (SubmitReq.attemptId req) (out_db (submitQuizAnswer env req db)) = false.
Proof.
  intros C.
  destruct (out_response (submitQuizAnswer env req db)) as [ic ans|st msg] eqn:R.
  - destruct (submit_created env req db ic ans R)
      as (qid & attempt & question & selected & _ & _ & A & _ & S & _ & _ & _ & _ & _
          & _ & _ & _ & E).
    rewrite E in *. rewrite completed_attempt_recorded in C.
    unfold in_progress. rewrite A, S. split; [reflexivity|].
    unfold recorded. rewrite C. simpl.
    rewrite findOne_updateOne_same, A by apply complete_id. reflexivity.
  - destruct (submit_error_unchanged env req db st msg R) as [_ N].
    unfold completed_attempt in C. rewrite N in C. discriminate.
Qed.

(** No request takes an attempt back to IN_PROGRESS. *)
Lemma not_in_progress_stays (env : Env) (req : SubmitReq.t) (db : DB) (id : string) :
  in_progress id db = false ->
  in_progress id (out_db (submitQuizAnswer env req db)) = false.
Proof.
  intros N. unfold in_progress in *.
  destruct (submit_attempts env req db) as [U | (attempt & ans & F & S & _ & U)];
    rewrite U; [exact N|].
  destruct (String.eqb_spec id (SubmitReq.attemptId req)) as [-> | D].
  - rewrite findOne_updateOne_same, F by apply complete_id. reflexivity.
  - rewrite findOne_updateOne_other by (apply complete_id || assumption). exact N.
Qed.

Lemma completions_none (id : string) (reqs : list (Env * SubmitReq.t)) :
  forall db, in_progress id db = false ->
  completions id reqs (snd (serve reqs db)) = 0.
Proof.
  induction reqs as [|[env req] reqs IH]; intros db N; [reflexivity|].
  simpl. destruct (serve reqs (out_db (submitQuizAnswer env req db))) as [db' os] eqn:S.
  simpl.
  assert (String.eqb (SubmitReq.attemptId req) id
          && completed_attempt (submitQuizAnswer env req db) = false) as ->.
  { destruct (String.eqb_spec (SubmitReq.attemptId req) id) as [E|]; [|reflexivity].
    destruct (completed_attempt (submitQuizAnswer env req db)) eqn:C; [|reflexivity].
    apply completed_attempt_was_in_progress in C. rewrite E in C. destruct C. congruence. }
  specialize (IH _ (not_in_progress_stays env req db id N)).
  rewrite S in IH. exact IH.
Qed.

Lemma completions_at_most_one (id : string) (reqs : list (Env * SubmitReq.t)) :
  forall db, completions id reqs (snd (serve reqs db)) <= 1.
Proof.
  induction reqs as [|[env req] reqs IH]; intros db; [simpl; lia|].
  simpl. destruct (serve reqs (out_db (submitQuizAnswer env req db))) as [db' os] eqn:S.
  simpl.
  destruct (String.eqb_spec (SubmitReq.attemptId req) id) as [E|]; simpl.
  - destruct (completed_attempt (submitQuizAnswer env req db)) eqn:C.
    + apply completed_attempt_was_in_progress in C. destruct C as [_ C].
      rewrite E in C.
      pose proof (completions_none id reqs _ C) as Z. rewrite S in Z. simpl in Z. lia.
    + specialize (IH (out_db (submitQuizAnswer env req db))). rewrite S in IH. exact IH.
  - specialize (IH (out_db (submitQuizAnswer env req db))). rewrite S in IH. exact IH.
Qed.

(* ================================================================== *)
(** * Objects *)

Lemma own_set_same {V : Type} (o : Obj.t V) (k : string) (v : V) :
  Obj.own (Obj.set o k v) k = Some v.
Proof.
  induction o as [|[k' v'] o IH]; simpl.
  - now rewrite String.eqb_refl.
  - destruct (String.eqb k k') eqn:E; simpl; rewrite E; auto.
Qed.

Lemma own_set_other {V : Type} (o : Obj.t V) (k k' : string) (v : V) :
  k' <> k -> Obj.own (Obj.set o k v) k' = Obj.own o k'.
Proof.
  intros N. induction o as [|[k0 v0] o IH]; simpl.
  - apply String.eqb_neq in N. now rewrite N.
  - destruct (String.eqb k k0) eqn:E; simpl.
    + apply String.eqb_eq in E. subst k0.
      apply String.eqb_neq in N. now rewrite N.
    + now rewrite IH.
Qed.

Lemma own_none_keys {V : Type} (o : Obj.t V) (k : string) :
  Obj.own o k = None <-> ~ In k (Obj.keys o).
Proof.
  induction o as [|[k' v'] o IH]; simpl; [tauto|].
  destruct (String.eqb_spec k k') as [->|N].
  - split; [discriminate | tauto].
  - rewrite IH. split; [intros H [E|I]; [congruence | tauto] | tauto].
Qed.

Lemma own_some_in {V : Type} (o : Obj.t V) (k : string) (v : V) :
  Obj.own o k = Some v -> In (k, v) o.
Proof.
  induction o as [|[k' v'] o IH]; simpl; [discriminate|].
  destruct (String.eqb_spec k k') as [->|N].
  - intros H. injection H as ->. now left.
  - intros H. right. now apply IH.
Qed.

Lemma in_own {V : Type} (o : Obj.t V) (k : string) (v : V) :
  NoDup (Obj.keys o) -> In (k, v) o -> Obj.own o k = Some v.
Proof.
  induction o as [|[k' v'] o IH]; simpl; [tauto|].
  intros N [E | I].
  - injection E as -> ->. now rewrite String.eqb_refl.
  - inversion N as [|? ? X N']; subst.
    destruct (String.eqb_spec k k') as [->|D].
    + exfalso. apply X. change (In (fst (k', v)) (map fst o)). now apply in_map.
    + now apply IH.
Qed.

Lemma keys_set {V : Type} (o : Obj.t V) (k : string) (v : V) :
  Obj.keys (Obj.set o k v)
  = match Obj.own o k with
    | Some _ => Obj.keys o
    | None => Obj.keys o ++ [k]
    end.
Proof.
  induction o as [|[k' v'] o IH]; simpl; [reflexivity|].
  destruct (String.eqb k k') eqn:E; simpl; [reflexivity|].
  rewrite IH. now destruct (Obj.own o k).
Qed.

Lemma NoDup_keys_set {V : Type} (o : Obj.t V) (k : string) (v : V) :
  NoDup (Obj.keys o) -> NoDup (Obj.keys (Obj.set o k v)).
Proof.
  intros N. rewrite keys_set. destruct (Obj.own o k) eqn:E; [exact N|].
  apply NoDup_snoc; [exact N | now apply own_none_keys].
Qed.

Lemma own_map_values {V W : Type} (f : V -> W) (o : Obj.t V) (k : string) :
  Obj.own (map (fun kv => (fst kv, f (snd kv))) o) k = option_map f (Obj.own o k).
Proof.
  induction o as [|[k' v'] o IH]; simpl; [reflexivity|].
  now destruct (String.eqb k k').
Qed.

(** [if (!o[k]) o[k] = v0; o[k] = f(o[k])] *)
Lemma own_update_init_same {V : Type} (o : Obj.t V) (k : string) (v0 : V) (f : V -> V) :
  Obj.own (update_key (init_key o k v0) k f) k
  = Some (f (match Obj.own o k with Some v => v | None => v0 end)).
Proof.
  unfold update_key, init_key.
  destruct (Obj.own o k) as [v|] eqn:E.
  - rewrite E. apply own_set_same.
  - rewrite own_set_same. apply own_set_same.
Qed.

Lemma own_update_init_other {V : Type} (o : Obj.t V) (k k' : string) (v0 : V) (f : V -> V) :
  k' <> k ->
  Obj.own (update_key (init_key o k v0) k f) k' = Obj.own o k'.
Proof.
  intros N. unfold update_key, init_key.
  destruct (Obj.own o k) as [v|] eqn:E.
  - rewrite E. now apply own_set_other.
  - rewrite own_set_same. rewrite !own_set_other by assumption. reflexivity.
Qed.

Lemma NoDup_keys_update_init {V : Type} (o : Obj.t V) (k : string) (v0 : V) (f : V -> V) :
  NoDup (Obj.keys o) -> NoDup (Obj.keys (update_key (init_key o k v0) k f)).
Proof.
  intros N. unfold update_key, init_key.
  destruct (Obj.own o k) as [v|] eqn:E.
  - rewrite E. now apply NoDup_keys_set.
  - rewrite own_set_same. now apply NoDup_keys_set, NoDup_keys_set.
Qed.

(* ================================================================== *)
(** * The first loop of the generator *)

Lemma details_of_app (topic : string) (g h : list (string * AttemptDetail)) :
  details_of topic (g ++ h) = details_of topic g ++ details_of topic h.
Proof. unfold details_of. now rewrite filter_app, map_app. Qed.

Lemma details_of_single (topic topic0 : string) (d : AttemptDetail) :
  details_of topic [(topic0, d)] = if String.eqb topic0 topic then [d] else [].
Proof. unfold details_of. simpl. now destruct (String.eqb topic0 topic). Qed.

Lemma sum_weights_snoc (l : list AttemptDetail) (d : AttemptDetail) :
  sum_weights (l ++ [d]) = (sum_weights l + weight d)%float.
Proof. unfold sum_weights. now rewrite fold_left_app. Qed.

Lemma stats_of_snoc (l : list AttemptDetail) (d : AttemptDetail) :
  stats_of (l ++ [d]) = count_answer d (stats_of l).
Proof.
  unfold stats_of, count_answer. simpl.
  rewrite filter_app. simpl.
  destruct (is_correct d); simpl;
    rewrite ?app_nil_r, ?sum_weights_snoc, ?length_app; reflexivity.
Qed.

Lemma nonempty_snoc {A : Type} (l : list A) (x : A) :
  nonempty (l ++ [x]) = Some (l ++ [x]).
Proof. now destruct l. Qed.

Lemma tally_of_empty : tally_of [] empty_tally.
Proof. intros topic. now repeat split. Qed.

(** One more answer: the objects follow the graded answers. *)
Lemma process_answer_tally (env : Env) (attempts : list QuizAttempt.t)
    (questionMap : Obj.t Question.t) (quizMap : Obj.t Quiz.t)
    (g : list (string * AttemptDetail)) (t t' : Tally) (answer : QuizAttemptAnswer.t) :
  tally_of g t ->
  process_answer env attempts questionMap quizMap t answer = Ok t' ->
  tally_of (g ++ graded_answer env attempts questionMap quizMap answer) t'.
Proof.
  intros T H. unfold process_answer in H. unfold graded_answer.
  destruct (topic_of_answer questionMap quizMap answer) as [[topic0 quiz]|].
  - destruct (Obj.inherited topic0); [discriminate|].
    injection H as <-. intros topic. simpl.
    rewrite details_of_app.
    destruct (T topic) as (S1 & S2 & S3).
    rewrite !details_of_single.
    destruct (String.eqb_spec topic0 topic) as [->|N].
    + rewrite !own_update_init_same, S1, S2, S3, nonempty_snoc. simpl.
      rewrite stats_of_snoc.
      destruct (details_of topic g); simpl; now repeat split.
    + rewrite !app_nil_r.
      rewrite !own_update_init_other by congruence. now repeat split.
  - injection H as <-. rewrite app_nil_r. exact T.
Qed.

Lemma foldM_process_tally (env : Env) (attempts : list QuizAttempt.t)
    (questionMap : Obj.t Question.t) (quizMap : Obj.t Quiz.t)
    (answers : list QuizAttemptAnswer.t) :
  forall g t t',
  tally_of g t ->
  foldM (process_answer env attempts questionMap quizMap) answers t = Ok t' ->
  tally_of (g ++ graded env attempts questionMap quizMap answers) t'.
Proof.
  induction answers as [|a answers IH]; simpl; intros g t t' T H.
  - injection H as <-. now rewrite app_nil_r.
  - unfold bind in H.
    destruct (process_answer env attempts questionMap quizMap t a) as [t1|e] eqn:P;
      [|discriminate].
    rewrite app_assoc. eapply IH; [|exact H].
    eapply process_answer_tally; eassumption.
Qed.

Lemma foldM_process_keys (env : Env) (attempts : list QuizAttempt.t)
    (questionMap : Obj.t Question.t) (quizMap : Obj.t Quiz.t)
    (answers : list QuizAttemptAnswer.t) :
  forall t t',
  NoDup (Obj.keys (topicStats t)) ->
  foldM (process_answer env attempts questionMap quizMap) answers t = Ok t' ->
  NoDup (Obj.keys (topicStats t')).
Proof.
  induction answers as [|a answers IH]; simpl; intros t t' N H.
  - now injection H as <-.
  - unfold bind in H.
    destruct (process_answer env attempts questionMap quizMap t a) as [t1|e] eqn:P;
      [|discriminate].
    eapply IH; [|exact H].
    unfold process_answer in P.
    destruct (topic_of_answer questionMap quizMap a) as [[topic0 quiz]|].
    + destruct (Obj.inherited topic0); [discriminate|].
      injection P as <-. simpl. now apply NoDup_keys_update_init.
    + now injection P as <-.
Qed.

(** After the first loop the objects hold the graded answers of the user,
    topic by topic. *)
Lemma tally_answers_spec (env : Env) (userId : string) (db : DB) (t : Tally) :
  tally_answers env (recent_completed 20 userId db) db = Ok t ->
  tally_of (graded_answers env userId db) t
  /\ NoDup (Obj.keys (topicStats t)).
Proof.
  unfold tally_answers. intros H. split.
  - apply (foldM_process_tally _ _ _ _ _ [] empty_tally t tally_of_empty H).
  - eapply foldM_process_keys; [|exact H]. constructor.
Qed.

(* ================================================================== *)
(** * The second loop of the generator *)

Lemma insert_sorted_length {A : Type} (before : A -> A -> bool) (x : A) (l : list A) :
  List.length (insert_sorted before x l) = S (List.length l).
Proof.
  induction l as [|y l IH]; simpl; [reflexivity|].
  destruct (before x y); simpl; [reflexivity | now rewrite IH].
Qed.

Lemma stable_sort_length {A : Type} (before : A -> A -> bool) (l : list A) :
  List.length (stable_sort before l) = List.length l.
Proof.
  induction l as [|x l IH]; simpl; [reflexivity|].
  now rewrite insert_sorted_length, IH.
Qed.

Lemma recent_of_length (l : list AttemptDetail) :
  List.length (recent_of l) = Nat.min 10 (List.length l).
Proof.
  unfold recent_of, Array_sort. now rewrite length_firstn, stable_sort_length.
Qed.

Lemma older_of_length (l : list AttemptDetail) :
  List.length (older_of l) = List.length l - 10.
Proof.
  unfold older_of, slice_to_minus, Array_sort.
  rewrite length_firstn, stable_sort_length, recent_of_length. lia.
Qed.

(** With three graded answers or more the confidence is the blend. *)
Lemma confidence_of_blend (l : list AttemptDetail) :
  3 <= List.length l ->
  confidence_of (proficiency_of l) (recent_of l) l = confidence_from l.
Proof.
  intros L. unfold confidence_of.
  assert ((3 <=? List.length (recent_of l)) = true) as ->.
  { apply Nat.leb_le. rewrite recent_of_length. lia. }
  reflexivity.
Qed.

Lemma stats_of_total (l : list AttemptDetail) : total (stats_of l) = List.length l.
Proof. reflexivity. Qed.

(** The body of the second loop on a topic that has its two lists. *)
Lemma score_topic_eq (recent all : Obj.t (list AttemptDetail)) (sc : Scores)
    (topic : string) (stats : TopicStats) (recentAttempts topicAttempts : list AttemptDetail) :
  (total stats <? 3) = false ->
  Obj.own recent topic = Some recentAttempts ->
  Obj.own all topic = Some topicAttempts ->
  score_topic recent all sc (topic, stats)
  = let score := Math_round (weightedCorrect stats / weightedTotal stats * 100)%float in
    Ok (mkScores
          (Obj.set (topicProficiency sc) topic score)
          (if ltb score 60%float then weakTopics sc ++ [topic] else weakTopics sc)
          (if ltb score 60%float then strongTopics sc
           else if leb 80%float score then strongTopics sc ++ [topic]
           else strongTopics sc)
          (Obj.set (confidenceScores sc) topic
             (confidence_of score recentAttempts topicAttempts))).
Proof.
  intros T R A. cbv beta match delta [score_topic]. rewrite T, R.
  destruct recentAttempts as [|a [|b [|c r]]]; simpl; rewrite ?A; reflexivity.
Qed.

(** One entry of [topicStats]: skipped below three answers, added above. *)
Lemma score_topic_step (g : list (string * AttemptDetail))
    (recent all : Obj.t (list AttemptDetail)) (sc : Scores) (entry : string * TopicStats) :
  entry_of g recent all entry ->
  score_topic recent all sc entry
  = Ok (if total (snd entry) <? 3 then sc
        else add_topic sc (fst entry) (details_of (fst entry) g)).
Proof.
  destruct entry as [topic stats]. intros (_ & S & R & A). cbn [fst snd] in *.
  destruct (total stats <? 3) eqn:T.
  - cbv beta match delta [score_topic]. now rewrite T.
  - rewrite (score_topic_eq _ _ _ _ _ _ _ T R A). subst stats.
    rewrite stats_of_total in T. apply Nat.ltb_ge in T.
    cbv zeta. unfold add_topic.
    change (Math_round (weightedCorrect (stats_of (details_of topic g))
                        / weightedTotal (stats_of (details_of topic g)) * 100)%float)
      with (proficiency_of (details_of topic g)).
    now rewrite confidence_of_blend.
Qed.

Lemma emitted_add_topic (sc : Scores) (topic0 topic : string) (l : list AttemptDetail) :
  emitted (add_topic sc topic0 l) topic -> emitted sc topic \/ topic = topic0.
Proof.
  destruct (String.eqb_spec topic topic0) as [->|N]; [now right|].
  intros E. left. unfold emitted, add_topic in *. simpl in E.
  rewrite !own_set_other in E by assumption.
  destruct E as [E | [E | [E | E]]]; auto.
  - destruct (ltb _ _); auto.
    apply in_app_or in E. destruct E as [E | [E | []]]; [auto 6 | congruence].
  - destruct (ltb _ _); auto 6. destruct (leb _ _); auto 6.
    apply in_app_or in E. destruct E as [E | [E | []]]; [auto 6 | congruence].
Qed.

Lemma score_topics_fold (g : list (string * AttemptDetail))
    (recent all : Obj.t (list AttemptDetail)) (entries : Obj.t TopicStats) :
  forall sc0 sc,
  Forall (entry_of g recent all) entries ->
  NoDup (Obj.keys entries) ->
  foldM (score_topic recent all) entries sc0 = Ok sc ->
  (forall topic,
     emitted sc topic ->
     emitted sc0 topic
     \/ (In topic (Obj.keys entries) /\ 3 <= List.length (details_of topic g)))
  /\ (forall topic,
        In topic (Obj.keys entries) -> 3 <= List.length (details_of topic g) ->
        Obj.own (topicProficiency sc) topic = Some (proficiency_of (details_of topic g))
        /\ Obj.own (confidenceScores sc) topic = Some (confidence_from (details_of topic g)))
  /\ (forall topic,
        ~ In topic (Obj.keys entries) ->
        Obj.own (topicProficiency sc) topic = Obj.own (topicProficiency sc0) topic
        /\ Obj.own (confidenceScores sc) topic = Obj.own (confidenceScores sc0) topic).
Proof.
  induction entries as [|[topic0 stats0] entries IH]; intros sc0 sc G N H.
  - simpl in H. injection H as <-. repeat split; auto; simpl in *; tauto.
  - inversion G as [|? ? G0 G']; subst. inversion N as [|? ? X N']; subst.
    cbn [foldM] in H. rewrite (score_topic_step g _ _ _ _ G0) in H. cbn [bind] in H.
    destruct (IH _ _ G' N' H) as (I1 & I2 & I3). clear IH.
    destruct G0 as (_ & S & _). cbn [fst snd] in *. subst stats0.
    rewrite stats_of_total in *.
    cbn [Obj.keys map fst In].
    destruct (Nat.ltb_spec (List.length (details_of topic0 g)) 3) as [L|L].
    + (* skipped *)
      split; [|split].
      * intros topic E. destruct (I1 topic E) as [E0 | [K Q]]; tauto.
      * intros topic [<- | K] Q; [lia | auto].
      * intros topic K. apply I3. tauto.
    + (* added *)
      split; [|split].
      * intros topic E. destruct (I1 topic E) as [E0 | [K Q]]; [|tauto].
        apply emitted_add_topic in E0. destruct E0 as [E0 | ->]; tauto.
      * intros topic [<- | K] Q; [|auto].
        destruct (I3 topic0 X) as [-> ->]. simpl.
        now rewrite !own_set_same.
      * intros topic K.
        destruct (I3 topic) as [-> ->]; [tauto|]. simpl.
        rewrite !own_set_other by (intros ->; tauto). now split.
Qed.

Lemma score_topics_fold_ok (g : list (string * AttemptDetail))
    (recent all : Obj.t (list AttemptDetail)) (entries : Obj.t TopicStats) :
  forall sc0,
  Forall (entry_of g recent all) entries ->
  exists sc, foldM (score_topic recent all) entries sc0 = Ok sc.
Proof.
  induction entries as [|e entries IH]; intros sc0 G; cbn [foldM]; [eauto|].
  inversion G as [|? ? G0 G']; subst.
  rewrite (score_topic_step g _ _ _ _ G0). cbn [bind]. now apply IH.
Qed.

Lemma own_keep_recent (t : Tally) (topic : string) :
  Obj.own (keep_recent t) topic
  = option_map recent_of (Obj.own (recentAttemptsByTopic t) topic).
Proof. unfold keep_recent. apply (own_map_values recent_of). Qed.

(** The entries of [topicStats] after the first loop are entries of the
    graded answers. *)
Lemma tally_entries (g : list (string * AttemptDetail)) (t : Tally) :
  tally_of g t ->
  NoDup (Obj.keys (topicStats t)) ->
  Forall (entry_of g (keep_recent t) (topicAttempts t)) (topicStats t).
Proof.
  intros T N. apply Forall_forall. intros [topic stats] I.
  apply in_own in I; [|exact N].
  destruct (T topic) as (S1 & S2 & S3). rewrite S1 in I.
  unfold entry_of. cbn [fst snd].
  rewrite own_keep_recent, S3, S2.
  destruct (details_of topic g) as [|d l]; simpl in I; [discriminate|].
  injection I as <-. repeat split. discriminate.
Qed.

Lemma tally_keys (g : list (string * AttemptDetail)) (t : Tally) (topic : string) :
  tally_of g t ->
  (In topic (Obj.keys (topicStats t)) <-> details_of topic g <> []).
Proof.
  intros T. destruct (T topic) as (S1 & _).
  split.
  - intros I E. rewrite E in S1. simpl in S1. now apply own_none_keys in S1.
  - intros E. destruct (in_dec string_dec topic (Obj.keys (topicStats t))) as [I|I]; auto.
    apply own_none_keys in I. rewrite I in S1.
    destruct (details_of topic g); [congruence | discriminate].
Qed.

(** The scores of the second loop, from the graded answers: a topic with
    three graded answers or more has its proficiency and its confidence,
    and no other topic shows. *)
Lemma score_topics_spec (g : list (string * AttemptDetail)) (t : Tally) (sc : Scores) :
  tally_of g t ->
  NoDup (Obj.keys (topicStats t)) ->
  score_topics t = Ok sc ->
  (forall topic, emitted sc topic -> 3 <= List.length (details_of topic g))
  /\ (forall topic,
        3 <= List.length (details_of topic g) ->
        Obj.own (topicProficiency sc) topic = Some (proficiency_of (details_of topic g))
        /\ Obj.own (confidenceScores sc) topic = Some (confidence_from (details_of topic g))).
Proof.
  intros T N H. unfold score_topics in H.
  destruct (score_topics_fold g _ _ _ _ _ (tally_entries g t T N) N H) as (I1 & I2 & _).
  split.
  - intros topic E. destruct (I1 topic E) as [E0 | [_ Q]]; [|exact Q].
    unfold emitted in E0. simpl in E0. tauto.
  - intros topic Q. apply I2; [|exact Q].
    apply (tally_keys g t topic T). intros E. rewrite E in Q. simpl in Q. lia.
Qed.

(* ================================================================== *)
(** * The sort *)

Section SortFacts.
Context {A : Type} (before : A -> A -> bool).
Hypothesis before_total : forall a b, before a b = false -> before b a = true.
Hypothesis before_trans :
  forall a b c, before a b = true -> before b c = true -> before a c = true.

Lemma insert_sorted_perm (x : A) (l : list A) :
  Permutation (insert_sorted before x l) (x :: l).
Proof.
  induction l as [|y l IH]; simpl; [reflexivity|].
  destruct (before x y); [reflexivity|].
  rewrite IH. apply perm_swap.
Qed.

Lemma stable_sort_perm (l : list A) : Permutation (stable_sort before l) l.
Proof.
  induction l as [|x l IH]; simpl; [reflexivity|].
  rewrite insert_sorted_perm. now constructor.
Qed.

Lemma insert_sorted_sorted (x : A) (l : list A) :
  Sorted.StronglySorted (fun a b => before a b = true) l ->
  Sorted.StronglySorted (fun a b => before a b = true) (insert_sorted before x l).
Proof.
  induction l as [|y l IH]; intros S; simpl.
  - constructor; constructor.
  - inversion S as [|? ? S' F]; subst.
    destruct (before x y) eqn:E.
    + constructor; [exact S|].
      constructor; [exact E|].
      eapply Forall_impl; [|exact F]. intros z Hz. now apply (before_trans x y z).
    + constructor; [now apply IH|].
      apply (Permutation_Forall (Permutation_sym (insert_sorted_perm x l))).
      constructor; [now apply before_total | exact F].
Qed.

Lemma stable_sort_sorted (l : list A) :
  Sorted.StronglySorted (fun a b => before a b = true) (stable_sort before l).
Proof.
  induction l as [|x l IH]; simpl; [constructor|].
  now apply insert_sorted_sorted.
Qed.

End SortFacts.

Lemma StronglySorted_impl {A : Type} (R R' : A -> A -> Prop) (l : list A) :
  (forall a b, R a b -> R' a b) ->
  Sorted.StronglySorted R l -> Sorted.StronglySorted R' l.
Proof.
  intros I S. induction S as [|x l S IH F]; constructor; [exact IH|].
  eapply Forall_impl; [|exact F]. intros y. apply I.
Qed.

(** The recent answers of a topic are the first ten of its answers put
    newest first. *)
Lemma recent_of_newest (l : list AttemptDetail) :
  exists sorted,
    Permutation sorted l
    /\ Sorted.StronglySorted not_older sorted
    /\ recent_of l = firstn 10 sorted.
Proof.
  exists (Array_sort newest_first l). unfold Array_sort. split; [|split].
  - apply stable_sort_perm.
  - eapply StronglySorted_impl; [| apply stable_sort_sorted ].
    + intros a b H. unfold not_older, newest_first in *. lia.
    + intros a b H. unfold newest_first in *. lia.
    + intros a b c H1 H2. unfold newest_first in *. lia.
  - reflexivity.
Qed.

(* ================================================================== *)
(** * [generateUserInsights]: the snapshot *)

Lemma find_replace_first {A : Type} (p : A -> bool) (x y : A) (l : list A) :
  find p l = Some y -> p x = true -> find p (replace_first p x l) = Some x.
Proof.
  intros F P. induction l as [|z l IH]; simpl in *; [discriminate|].
  destruct (p z) eqn:E; simpl.
  - now rewrite P.
  - rewrite E. now apply IH.
Qed.

(** A run that resolves to a snapshot went through both loops; the
    document it saved is the one the user has afterwards. *)
Lemma generate_snapshot (env : Env) (userId : string) (db db' : DB) (doc : MLInsight.t) :
  generateUserInsights env userId db = Ok (db', Some doc) ->
  exists t sc saved,
    tally_answers env (recent_completed 20 userId db) db = Ok t
    /\ score_topics t = Ok sc
    /\ saved = updated_insight env userId (findOne (insight_of_user userId) (insights db)) sc
    /\ doc = returned_insight saved sc
    /\ findOne (insight_of_user userId) (insights db') = Some saved.
Proof.
  unfold generateUserInsights.
  destruct (recent_completed 20 userId db) as [|a attempts] eqn:R; [discriminate|].
  rewrite <- R. clear R.
  destruct (tally_answers env (recent_completed 20 userId db) db) as [t|e] eqn:T;
    [|discriminate].
  cbn [bind].
  destruct (score_topics t) as [sc|e] eqn:C; [|discriminate].
  cbn [bind].
  set (old := findOne (insight_of_user userId) (insights db)).
  set (saved := updated_insight env userId old sc).
  destruct (save_insight userId old saved db) as [db1|e] eqn:S; [|discriminate].
  cbn [bind]. intros H. injection H as <- <-.
  exists t, sc, saved.
  split; [reflexivity|]. split; [exact C|]. split; [reflexivity|]. split; [reflexivity|].
  unfold save_insight in S.
  assert (insight_of_user userId saved = true) as P.
  { unfold insight_of_user, saved. simpl. apply String.eqb_refl. }
  destruct old as [i|] eqn:O.
  - injection S as <-. simpl. eapply find_replace_first; [exact O | exact P].
  - destruct (existsb _ (insights db)); [discriminate|].
    injection S as <-. simpl. now apply find_app_none.
Qed.

(** A run resolves whenever the user has a completed attempt, no graded
    topic is the name of a property of [Object.prototype], and the id drawn
    for a new document is not taken. *)
Lemma tally_resolves (env : Env) (attempts : list QuizAttempt.t)
    (questionMap : Obj.t Question.t) (quizMap : Obj.t Quiz.t)
    (answers : list QuizAttemptAnswer.t) :
  forall t,
  (forall topic d, In (topic, d) (graded env attempts questionMap quizMap answers) ->
                   Obj.inherited topic = false) ->
  exists t', foldM (process_answer env attempts questionMap quizMap) answers t = Ok t'.
Proof.
  induction answers as [|a answers IH]; intros t G; cbn [foldM]; [eauto|].
  unfold graded in G. cbn [flat_map] in G.
  assert (exists t1, process_answer env attempts questionMap quizMap t a = Ok t1)
    as (t1 & ->).
  { unfold process_answer. unfold graded_answer in G.
    destruct (topic_of_answer questionMap quizMap a) as [[topic quiz]|]; [|eauto].
    rewrite (G topic (detail_of env attempts quiz a)); [eauto|].
    apply in_or_app. left. now left. }
  cbn [bind]. apply IH. intros topic d I. apply (G topic d).
  apply in_or_app. now right.
Qed.

Lemma generate_resolves (env : Env) (userId : string) (db : DB) :
  recent_completed 20 userId db <> [] ->
  (forall topic d, In (topic, d) (graded_answers env userId db) ->
                   Obj.inherited topic = false) ->
  (findOne (insight_of_user userId) (insights db) = None ->
   existsb (fun i => String.eqb (MLInsight.id i) (uuidv4 env 0)) (insights db) = false) ->
  exists db' doc, generateUserInsights env userId db = Ok (db', Some doc).
Proof.
  intros R G U. unfold generateUserInsights.
  destruct (recent_completed 20 userId db) as [|a attempts] eqn:E; [congruence|].
  rewrite <- E in *. clear E R.
  destruct (tally_resolves env _ _ _ _ empty_tally G) as (t & T).
  fold (tally_answers env (recent_completed 20 userId db) db) in T.
  rewrite T. cbn [bind].
  destruct (tally_answers_spec env userId db t T) as [Ht N].
  destruct (score_topics_fold_ok _ _ _ _ (mkScores [] [] [] [])
              (tally_entries _ t Ht N)) as (sc & S).
  fold (score_topics t) in S. rewrite S. cbn [bind].
  unfold save_insight.
  destruct (findOne (insight_of_user userId) (insights db)) as [i|]; cbn [bind]; [eauto|].
  simpl. rewrite (U eq_refl). cbn [bind]. eauto.
Qed.

Lemma weak_topics_data_keys (prof : Obj.t Number) (weak : list string) (topic : string) :
  In topic (Obj.keys (weak_topics_data_of prof weak)) -> In topic weak.
Proof.
  unfold weak_topics_data_of.
  assert (forall o, In topic (Obj.keys (fold_left
            (fun o topic => match Obj.own prof topic with
                            | Some v => Obj.set o topic v
                            | None => o
                            end) weak o)) ->
          In topic (Obj.keys o) \/ In topic weak) as G.
  { induction weak as [|w weak IH]; intros o I; simpl in *; [now left|].
    destruct (IH _ I) as [K | K]; [|tauto].
    destruct (Obj.own prof w); [|tauto].
    rewrite keys_set in K. destruct (Obj.own o w); [tauto|].
    apply in_app_or in K. simpl in K. tauto. }
  intros I. destruct (G [] I) as [[] | K]. exact K.
Qed.

(** In the snapshot of a user the confidence of every topic with three
    graded answers or more is the clamped, rounded blend
    [proficiency * 0.6 + recent_score * 0.3 + trend * 0.1]: [recent_score]
    is the weighted score of the first ten answers of the topic, newest
    first; [trend] is [recent_score - older_score] when three answers or more
    are left beyond those ten, and 0 otherwise, where [older_score] is the
    weighted score of [older_of], the list the generator takes. *)
Lemma confidence_is_clamped_blend (env : Env) (userId : string)
    (db db' : DB) (doc : MLInsight.t) (topic : string) :
  generateUserInsights env userId db = Ok (db', Some doc) ->
  3 <= List.length (details_of topic (graded_answers env userId db)) ->
  let answers := details_of topic (graded_answers env userId db) in
  exists proficiency recent_score trend,
    Obj.own (MLInsight.topic_performance doc) topic = Some proficiency
    /\ Obj.own (MLInsight.confidence_scores doc) topic
       = Some (Math_max zero
                 (Math_min 100%float
                    (Math_round
                       (proficiency * 0.6 + recent_score * 0.3 + trend * 0.1)%float)))
    /\ recent_score = weighted_score (recent_of answers)
    /\ (exists sorted,
          Permutation sorted answers
          /\ Sorted.StronglySorted not_older sorted
          /\ recent_of answers = firstn 10 sorted)
    /\ List.length (older_of answers) = List.length answers - 10
    /\ (3 <= List.length answers - 10 ->
        trend = (recent_score - weighted_score (older_of answers))%float)
    /\ (List.length answers - 10 < 3 -> trend = zero)
    /\ (exists saved,
          findOne (insight_of_user userId) (insights db') = Some saved
          /\ MLInsight.confidence_scores saved = MLInsight.confidence_scores doc).
Proof.
  intros H Q.
  destruct (generate_snapshot env userId db db' doc H) as (t & sc & saved & T & S & -> & -> & F).
  destruct (tally_answers_spec env userId db t T) as [Ht N].
  destruct (score_topics_spec _ t sc Ht N S) as [_ P].
  destruct (P topic Q) as [P1 P2].
  cbv zeta.
  set (answers := details_of topic (graded_answers env userId db)) in *.
  exists (proficiency_of answers), (weighted_score (recent_of answers)), (trend_of answers).
  split; [exact P1|]. split; [exact P2|]. split; [reflexivity|].
  split; [apply recent_of_newest|].
  split; [apply older_of_length|].
  unfold trend_of. rewrite older_of_length.
  split; [|split].
  - intros L. apply Nat.leb_le in L. now rewrite L.
  - intros L. apply Nat.leb_gt in L. now rewrite L.
  - eexists. split; [exact F | reflexivity].
Qed.

(** C7: no topic shows in a snapshot, returned or saved, with fewer than
    three graded answers among the analysed attempts: not in the
    proficiency, not in the confidence scores, not among the weak and not
    among the strong topics. *)
Theorem snapshot_topics_have_three_answers (env : Env) (userId : string)
    (db db' : DB) (doc : MLInsight.t) (topic : string) :
  generateUserInsights env userId db = Ok (db', Some doc) ->
  (shows_in_schema doc topic \/ shows_in_extras doc topic
   \/ exists saved,
        findOne (insight_of_user userId) (insights db') = Some saved
        /\ shows_in_schema saved topic) ->
  3 <= List.length (details_of topic (graded_answers env userId db)).
Proof.
  intros H A.
  destruct (generate_snapshot env userId db db' doc H) as (t & sc & saved & T & S & -> & -> & F).
  destruct (tally_answers_spec env userId db t T) as [Ht N].
  destruct (score_topics_spec _ t sc Ht N S) as [E _].
  apply E. unfold emitted.
  assert (forall o : Obj.t Number, In topic (Obj.keys o) -> Obj.own o topic <> None) as K.
  { intros o I O. now apply own_none_keys in O. }
  assert (shows_in_schema
            (updated_insight env userId (findOne (insight_of_user userId) (insights db)) sc)
            topic -> emitted sc topic) as G.
  { unfold shows_in_schema, emitted. simpl. intros [X | [X | [X | X]]]; auto using K. }
  destruct A as [A | [A | (saved' & F' & A)]].
  - apply G. exact A.
  - unfold shows_in_extras in A. simpl in A.
    destruct A as [(o & O & I) | (o & O & I)]; injection O as <-.
    + left. now apply K.
    + right. right. left. now apply weak_topics_data_keys in I.
  - rewrite F in F'. injection F' as <-. apply G. exact A.
Qed.

Lemma sample_insight_run :
  generateUserInsights Sample.env4 Sample.alice Sample.after_three
  = Ok (SampleInsights.saved_db, Some SampleInsights.snapshot).
Proof. vm_compute. reflexivity. Qed.

Lemma sample_algebra_answers :
  List.length (details_of "Algebra"
                 (graded_answers Sample.env4 Sample.alice Sample.after_three)) = 3.
Proof. vm_compute. reflexivity. Qed.

Example sample_confidence :
  Obj.own (MLInsight.confidence_scores SampleInsights.snapshot) "Algebra"
  = Some 60%float.
Proof.
  destruct (confidence_is_clamped_blend Sample.env4 Sample.alice Sample.after_three
              SampleInsights.saved_db SampleInsights.snapshot "Algebra")
    as (p & r & t & _ & _ & _).
  - vm_compute. reflexivity.
  - vm_compute. repeat constructor.
  - vm_compute. reflexivity.
Qed.

Lemma snapshot_topics_have_three_answers_witness :
  3 <= List.length (details_of "Algebra"
                      (graded_answers Sample.env4 Sample.alice Sample.after_three)).
Proof.
  apply (snapshot_topics_have_three_answers Sample.env4 Sample.alice Sample.after_three
           SampleInsights.saved_db SampleInsights.snapshot "Algebra").
  - vm_compute. reflexivity.
  - left. left. vm_compute. now left.
Defined.

(* ================================================================== *)
(** * The dashboard *)

Lemma date_leb_total (a b : option Date) : date_leb a b = false -> date_leb b a = true.
Proof.
  destruct a as [x|], b as [y|]; simpl; try congruence.
  intros H. apply Z.leb_gt in H. apply Z.leb_le. lia.
Qed.

Lemma date_leb_trans (a b c : option Date) :
  date_leb a b = true -> date_leb b c = true -> date_leb a c = true.
Proof.
  destruct a as [x|], b as [y|], c as [z|]; simpl; try congruence.
  intros H1 H2. apply Z.leb_le in H1, H2. apply Z.leb_le. lia.
Qed.

(** The attempts of the history: the first [n] of the user's completed
    attempts, latest completion first. *)
Lemma recent_completed_spec (n : nat) (userId : string) (db : DB) :
  exists sorted,
    Permutation sorted (filter (completed_by userId) (attempts db))
    /\ Sorted.StronglySorted completed_not_before sorted
    /\ recent_completed n userId db = firstn n sorted.
Proof.
  eexists. split; [|split; [|reflexivity]].
  - apply stable_sort_perm.
  - apply stable_sort_sorted.
    + intros a b. apply date_leb_total.
    + intros a b c H1 H2. eapply date_leb_trans; eassumption.
Qed.

Lemma in_firstn {A : Type} (n : nat) (l : list A) (x : A) :
  In x (firstn n l) -> In x l.
Proof.
  revert l. induction n as [|n IH]; intros [|y l]; simpl; try tauto.
  intros [H | H]; auto.
Qed.

Lemma recent_completed_in (n : nat) (userId : string) (db : DB) (a : QuizAttempt.t) :
  In a (recent_completed n userId db) ->
  In a (attempts db)
  /\ QuizAttempt.user_id a = userId
  /\ QuizAttempt.status a = COMPLETED.
Proof.
  intros I. destruct (recent_completed_spec n userId db) as (sorted & P & _ & E).
  rewrite E in I. apply in_firstn in I.
  apply (Permutation_in _ P) in I. apply filter_In in I.
  destruct I as [I C]. unfold completed_by in C. apply andb_true_iff in C.
  destruct C as [C1 C2]. apply String.eqb_eq in C1. apply Status_eqb_eq in C2. auto.
Qed.

Lemma hd_error_none_in {A : Type} (l l' : list A) :
  Permutation l l' -> hd_error l = None -> l' = [].
Proof. destruct l; simpl; [|discriminate]. intros P _. now apply Permutation_nil. Qed.

Lemma latest_insight_none (userId : string) (db : DB) :
  latest_insight userId db = None
  <-> forall i, In i (insights db) -> MLInsight.user_id i <> userId.
Proof.
  unfold latest_insight. split.
  - intros H i I E.
    apply hd_error_none_in with (l' := filter (insight_of_user userId) (insights db)) in H;
      [|apply stable_sort_perm].
    assert (In i (filter (insight_of_user userId) (insights db))) as X.
    { apply filter_In. split; [exact I|]. unfold insight_of_user. rewrite E.
      apply String.eqb_refl. }
    rewrite H in X. exact X.
  - intros H.
    assert (filter (insight_of_user userId) (insights db) = []) as ->; [|reflexivity].
    destruct (filter (insight_of_user userId) (insights db)) as [|i l] eqn:F; [reflexivity|].
    assert (In i (filter (insight_of_user userId) (insights db))) as X
      by (rewrite F; now left).
    apply filter_In in X. destruct X as [I P].
    unfold insight_of_user in P. apply String.eqb_eq in P. now destruct (H i I).
Qed.

Lemma latest_insight_some (userId : string) (db : DB) (i : MLInsight.t) :
  latest_insight userId db = Some i ->
  In i (insights db)
  /\ MLInsight.user_id i = userId
  /\ forall j, In j (insights db) -> MLInsight.user_id j = userId ->
               (MLInsight.last_updated j <= MLInsight.last_updated i)%Z.
Proof.
  unfold latest_insight. intros H.
  set (before := fun a b : MLInsight.t =>
                   (MLInsight.last_updated b <=? MLInsight.last_updated a)%Z) in *.
  pose proof (stable_sort_perm before (filter (insight_of_user userId) (insights db))) as P.
  assert (Sorted.StronglySorted (fun a b => before a b = true)
            (stable_sort before (filter (insight_of_user userId) (insights db)))) as S.
  { apply stable_sort_sorted; unfold before.
    - intros a b E. apply Z.leb_gt in E. apply Z.leb_le. lia.
    - intros a b c E1 E2. apply Z.leb_le in E1, E2. apply Z.leb_le. lia. }
  destruct (stable_sort before (filter (insight_of_user userId) (insights db)))
    as [|x l] eqn:E; [discriminate|].
  injection H as ->.
  assert (In i (filter (insight_of_user userId) (insights db))) as X.
  { apply (Permutation_in _ P). now left. }
  apply filter_In in X. destruct X as [I U].
  unfold insight_of_user in U. apply String.eqb_eq in U.
  split; [exact I|]. split; [exact U|].
  intros j J Uj.
  assert (In j (i :: l)) as Y.
  { apply (Permutation_in _ (Permutation_sym P)). apply filter_In. split; [exact J|].
    unfold insight_of_user. rewrite Uj. apply String.eqb_refl. }
  inversion S as [|? ? _ F]; subst.
  destruct Y as [<- | Y]; [lia|].
  rewrite Forall_forall in F. specialize (F j Y). unfold before in F.
  now apply Z.leb_le in F.
Qed.

Lemma validate_scores_numbers (o : Obj.t Number) :
  Obj.keys (validate_scores (numbers o)) = Obj.keys o
  /\ forall k x,
       Obj.own o k = Some x ->
       Obj.own (validate_scores (numbers o)) k
       = Some (VNum (if invalid_score (VNum x) then zero else x)).
Proof.
  unfold validate_scores, numbers, Obj.keys. split.
  - rewrite !map_map. simpl. reflexivity.
  - intros k x. induction o as [|[k' v'] o IH]; simpl; [discriminate|].
    destruct (String.eqb k k'); [|exact IH].
    intros H. injection H as ->.
    now destruct (isNaN x || ltb x zero || ltb 100%float x).
Qed.

(* ================================================================== *)
(** * The completing transition under any interleaving *)

Lemma create_step (env : Env) (req : SubmitReq.t) (question_id : string) (ic : bool)
    (db db1 : DB) (newAnswer : QuizAttemptAnswer.t) :
  (let* selected := required_mixed (SubmitReq.selected_answer req) in
   let newAnswer := new_answer env req question_id selected ic in
   let* db1 := insert_answer newAnswer db in
   Ok (newAnswer, db1)) = Ok (newAnswer, db1) ->
  db1 = with_answers db (answers db ++ [newAnswer])
  /\ QuizAttemptAnswer.attempt_id newAnswer = SubmitReq.attemptId req.
Proof.
  unfold bind, insert_answer.
  destruct (required_mixed (SubmitReq.selected_answer req)) as [selected|e]; [|discriminate].
  destruct (existsb _ (answers db)); [discriminate|].
  intros H. injection H as <- <-. now split.
Qed.

(** Inversion of one step: the cases of [Async.step], with the insertion
    of the answer spelled out. *)
Ltac step_cases p H :=
  destruct p; cbn [Async.step] in H;
  repeat match type of H with
         | context [match findOne ?f ?l with _ => _ end] =>
             destruct (findOne f l) eqn:?
         | context [if ?x then _ else _] => destruct x eqn:?
         | context [match bind ?a ?b with _ => _ end] =>
             let E := fresh "E" in
             destruct (bind a b) as [[? ?]|?] eqn:E;
             [apply create_step in E; destruct E as [? ?]; subst|]
         end;
  injection H as <- <- <-.

Lemma step_questions (env : Env) (req : SubmitReq.t) (p p' : Async.Point)
    (db db' : DB) (c : bool) :
  Async.step env req p db = (db', p', c) -> questions db' = questions db.
Proof. intros H. step_cases p H; reflexivity. Qed.

Lemma count_snoc {A : Type} (f : A -> bool) (l : list A) (x : A) :
  countDocuments f (l ++ [x]) = countDocuments f l + (if f x then 1 else 0).
Proof.
  unfold countDocuments. rewrite filter_app, length_app. simpl.
  now destruct (f x).
Qed.

(** The answers of an attempt change only by the insertion of a request for
    it, which then stands before its count. *)
Lemma step_answers (env : Env) (req : SubmitReq.t) (p p' : Async.Point)
    (db db' : DB) (c : bool) (id : string) :
  Async.step env req p db = (db', p', c) ->
  answers_of id db' = answers_of id db
  \/ (SubmitReq.attemptId req = id
      /\ snapshot_of p' = snapshot_of p
      /\ forall n, will_complete n p' = true).
Proof.
  intros H. unfold answers_of. step_cases p H; auto.
  simpl. rewrite count_snoc. unfold answer_of_attempt at 2.
  match goal with E : QuizAttemptAnswer.attempt_id _ = _ |- _ => rewrite E end.
  destruct (String.eqb_spec (SubmitReq.attemptId req) id) as [E|E].
  - right. now repeat split.
  - left. lia.
Qed.

Lemma in_progress_updateOne (env : Env) (n m : nat) (id aid : string) (db : DB) :
  in_progress id
    (with_attempts db (updateOne aid (complete env n m) (attempts db)))
  = if String.eqb id aid then false else in_progress id db.
Proof.
  unfold in_progress. simpl.
  destruct (String.eqb_spec id aid) as [->|N].
  - rewrite findOne_updateOne_same by apply complete_id.
    now destruct (findOne (attempt_has_id aid) (attempts db)).
  - now rewrite findOne_updateOne_other by (apply complete_id || assumption).
Qed.

(** No step takes an attempt back to IN_PROGRESS. *)
Lemma step_in_progress (env : Env) (req : SubmitReq.t) (p p' : Async.Point)
    (db db' : DB) (c : bool) (id : string) :
  Async.step env req p db = (db', p', c) ->
  in_progress id db' = true -> in_progress id db = true.
Proof.
  intros H. step_cases p H; auto.
  rewrite in_progress_updateOne.
  destruct (String.eqb id (SubmitReq.attemptId req)); [discriminate | auto].
Qed.

(** The attempt stays, with its quiz; its status stays or becomes COMPLETED. *)
Lemma step_attempt (env : Env) (req : SubmitReq.t) (p p' : Async.Point)
    (db db' : DB) (c : bool) (id : string) (a : QuizAttempt.t) :
  Async.step env req p db = (db', p', c) ->
  findOne (attempt_has_id id) (attempts db) = Some a ->
  exists a',
    findOne (attempt_has_id id) (attempts db') = Some a'
    /\ QuizAttempt.quiz_id a' = QuizAttempt.quiz_id a
    /\ (QuizAttempt.status a' = QuizAttempt.status a \/ QuizAttempt.status a' = COMPLETED).
Proof.
  intros H F. step_cases p H; try (exists a; simpl; now auto).
  simpl. destruct (String.eqb_spec id (SubmitReq.attemptId req)) as [->|N].
  - rewrite findOne_updateOne_same, F by apply complete_id. simpl.
    eexists. split; [reflexivity|]. simpl. auto.
  - rewrite findOne_updateOne_other by (apply complete_id || assumption).
    exists a. auto.
Qed.

(** The attempt a request holds is the one it read at its first step. *)
Lemma step_snapshot (env : Env) (req : SubmitReq.t) (p p' : Async.Point)
    (db db' : DB) (c : bool) (a : QuizAttempt.t) :
  Async.step env req p db = (db', p', c) ->
  snapshot_of p' = Some a ->
  snapshot_of p = Some a
  \/ findOne (attempt_has_id (SubmitReq.attemptId req)) (attempts db) = Some a.
Proof.
  intros H S. step_cases p H; simpl in *; try discriminate; auto.
Qed.

(** A request on its way to the completing update stays on its way, as
    long as the attempt has its [n] answers and its quiz has [n] questions,
    until it has performed the update. *)
Lemma step_will_complete (env : Env) (req : SubmitReq.t) (p p' : Async.Point)
    (db db' : DB) (c : bool) (n : nat) :
  Async.step env req p db = (db', p', c) ->
  will_complete n p = true ->
  answers_of (SubmitReq.attemptId req) db' = n ->
  (forall a, snapshot_of p = Some a ->
             countDocuments (question_of_quiz (QuizAttempt.quiz_id a)) (questions db) = n) ->
  will_complete n p' = true
  \/ in_progress (SubmitReq.attemptId req) db' = false.
Proof.
  intros H W C Q. unfold answers_of in C.
  step_cases p H; simpl in *; try discriminate; auto.
  - left. rewrite C. apply Nat.eqb_refl.
  - apply Nat.eqb_eq in W. subst answersCount.
    rewrite (Q attempt eq_refl), Nat.eqb_refl in *. discriminate.
  - right. rewrite in_progress_updateOne. now rewrite String.eqb_refl.
Qed.

Lemma step_nth_inv (i : nat) (rs rs' : list Async.Request) (db db' : DB) (c : bool) :
  Async.step_nth i rs db = (db', rs', c) ->
  (db' = db /\ rs' = rs /\ c = false)
  \/ exists pre r post p',
       rs = pre ++ r :: post
       /\ rs' = pre ++ Async.mkRequest (Async.req_env r) (Async.req_body r) p' :: post
       /\ Async.step (Async.req_env r) (Async.req_body r) (Async.req_point r) db
          = (db', p', c).
Proof.
  revert rs rs' db db' c.
  induction i as [|i IH]; intros [|r rs] rs' db db' c H; simpl in H.
  - injection H as <- <- <-. now left.
  - destruct (Async.step _ _ _ db) as [[db1 p1] c1] eqn:S.
    injection H as <- <- <-. right. exists [], r, rs, p1. now repeat split.
  - injection H as <- <- <-. now left.
  - destruct (Async.step_nth i rs db) as [[db1 rs1] c1] eqn:S.
    injection H as <- <- <-.
    destruct (IH _ _ _ _ _ S) as [(-> & -> & ->) | (pre & r0 & post & p' & -> & -> & T)].
    + now left.
    + right. exists (r :: pre), r0, post, p'. now repeat split.
Qed.

(** One turn of the schedule keeps what holds throughout a run. *)
Lemma step_nth_no_loss (id quiz_id : string) (status0 : Status) (qs : list Question.t)
    (i : nat) (rs rs' : list Async.Request) (db db' : DB) (c : bool) :
  Async.step_nth i rs db = (db', rs', c) ->
  no_loss id quiz_id status0 qs db rs ->
  no_loss id quiz_id status0 qs db' rs'.
Proof.
  intros H (Q & (a & A & Aq & As) & S & W).
  destruct (step_nth_inv _ _ _ _ _ _ H)
    as [(-> & -> & ->) | (pre & r & post & p' & -> & -> & T)].
  { now repeat split; eauto. }
  set (r' := Async.mkRequest (Async.req_env r) (Async.req_body r) p').
  assert (forall x, In x (pre ++ r' :: post) -> x = r' \/ (In x (pre ++ r :: post) /\ In x (pre ++ post)))
    as Inew.
  { intros x I. apply in_app_or in I. destruct I as [I | [I | I]]; auto;
      right; split; apply in_or_app; simpl; auto. }
  assert (forall x, In x (pre ++ r :: post) -> x = r \/ In x (pre ++ r' :: post)) as Iold.
  { intros x I. apply in_app_or in I. destruct I as [I | [I | I]]; auto;
      right; apply in_or_app; simpl; auto. }
  assert (In r' (pre ++ r' :: post)) as Ir' by (apply in_or_app; simpl; auto).
  assert (In r (pre ++ r :: post)) as Ir by (apply in_or_app; simpl; auto).
  split; [|split; [|split]].
  - rewrite <- Q. eapply step_questions; eassumption.
  - destruct (step_attempt _ _ _ _ _ _ _ id a T A) as (a' & A' & Aq' & As').
    exists a'. split; [exact A'|]. split; [congruence|].
    destruct As' as [E | E]; [|now right]. rewrite E. exact As.
  - intros x b I E B.
    destruct (Inew x I) as [-> | [I' _]]; [|now apply (S x b)].
    simpl in E, B.
    destruct (step_snapshot _ _ _ _ _ _ _ b T B) as [B' | B'].
    + now apply (S r b).
    + rewrite E, A in B'. congruence.
  - intros C P.
    destruct (step_answers _ _ _ _ _ _ _ id T) as [C' | (E & _ & X)].
    + (* the answers of the attempt were not touched *)
      rewrite C' in C.
      destruct (W C (step_in_progress _ _ _ _ _ _ _ id T P)) as (w & Iw & Ew & Ww).
      destruct (Iold w Iw) as [-> | Iw']; [|now exists w].
      exists r'. split; [exact Ir'|]. split; [exact Ew|]. simpl.
      destruct (step_will_complete _ _ _ _ _ _ _ _ T Ww) as [G | G]; auto.
      * rewrite Ew. rewrite C'. exact C.
      * intros b B. rewrite Q, (S r b Ir Ew B). reflexivity.
      * rewrite Ew in G. congruence.
    + (* the request has just inserted an answer for the attempt *)
      exists r'. split; [exact Ir'|]. split; [exact E|]. apply X.
Qed.

Lemma run_no_loss (id quiz_id : string) (status0 : Status) (qs : list Question.t)
    (schedule : list nat) :
  forall rs rs' db db' n,
  Async.run schedule rs db = (db', rs', n) ->
  no_loss id quiz_id status0 qs db rs ->
  no_loss id quiz_id status0 qs db' rs'.
Proof.
  induction schedule as [|i schedule IH]; intros rs rs' db db' n H L; simpl in H.
  - now injection H as <- <- <-.
  - destruct (Async.step_nth i rs db) as [[db1 rs1] c] eqn:S.
    destruct (Async.run schedule rs1 db1) as [[db2 rs2] m] eqn:R.
    injection H as <- <- <-.
    eapply IH; [exact R|]. eapply step_nth_no_loss; eassumption.
Qed.

Lemma arrive_snapshot (env : Env) (req : SubmitReq.t) :
  snapshot_of (Async.req_point (Async.arrive env req)) = None
  /\ forall n, will_complete n (Async.req_point (Async.arrive env req)) = false.
Proof.
  unfold Async.arrive, Async.start. simpl.
  destruct (negb (isValidUUID (SubmitReq.attemptId req))); [now split|].
  destruct (valid_question_id (SubmitReq.question_id req)); now split.
Qed.

(** The transition is not lost, whatever the interleaving: if an attempt
    does not yet have all its answers when the requests arrive, and has them
    when all the requests have responded, it is no longer in progress; an
    attempt that was in progress is then completed. *)
Lemma no_lost_transition (schedule : list nat) (reqs : list (Env * SubmitReq.t))
    (db db' : DB) (rs : list Async.Request) (n : nat) (id : string) (a : QuizAttempt.t) :
  findOne (attempt_has_id id) (attempts db) = Some a ->
  answers_of id db
  <> countDocuments (question_of_quiz (QuizAttempt.quiz_id a)) (questions db) ->
  Async.run schedule (map (fun er => Async.arrive (fst er) (snd er)) reqs) db = (db', rs, n) ->
  forallb has_responded rs = true ->
  answers_of id db'
  = countDocuments (question_of_quiz (QuizAttempt.quiz_id a)) (questions db) ->
  exists a',
    findOne (attempt_has_id id) (attempts db') = Some a'
    /\ QuizAttempt.status a' <> IN_PROGRESS
    /\ (QuizAttempt.status a = IN_PROGRESS -> QuizAttempt.status a' = COMPLETED).
Proof.
  intros A C R F C'.
  assert (no_loss id (QuizAttempt.quiz_id a) (QuizAttempt.status a) (questions db) db
            (map (fun er => Async.arrive (fst er) (snd er)) reqs)) as L.
  { split; [reflexivity|]. split; [exists a; auto|]. split.
    - intros r b I _ B. apply in_map_iff in I. destruct I as ([env req] & <- & _).
      destruct (arrive_snapshot env req) as [X _]. cbn [fst snd] in B.
      rewrite X in B. discriminate.
    - intros X. contradiction. }
  destruct (run_no_loss _ _ _ _ _ _ _ _ _ _ R L) as (_ & (a' & A' & _ & S') & _ & W).
  assert (in_progress id db' = false) as P.
  { destruct (in_progress id db') eqn:P; [|reflexivity].
    destruct (W C' eq_refl) as (w & Iw & _ & Ww).
    rewrite forallb_forall in F. specialize (F w Iw).
    unfold has_responded in F. destruct (Async.req_point w); simpl in Ww; discriminate. }
  exists a'. split; [exact A'|].
  unfold in_progress in P. rewrite A' in P.
  assert (QuizAttempt.status a' <> IN_PROGRESS) as N.
  { intros E. rewrite E in P. discriminate. }
  split; [exact N|].
  intros I. destruct S' as [E | E]; [congruence | exact E].
Qed.

(** C2 (as amended): when the requests are served one after the other, a
    request that stores an answer completes the attempt exactly when the
    answers stored for the attempt are then as many as the questions of its
    quiz, the attempt going from IN_PROGRESS to COMPLETED, and over any
    sequence of requests an attempt is completed at most once.  When the
    requests are interleaved at their awaited operations the transition is
    not lost: once all of them have responded, an attempt that got its last
    answer in the run is no longer in progress. *)
Theorem completed_once_in_sequence :
  (forall env req db ic ans,
     out_response (submitQuizAnswer env req db) = SubmitCreated ic ans ->
     exists attempt,
       findOne (attempt_has_id (SubmitReq.attemptId req)) (attempts db) = Some attempt
       /\ QuizAttempt.status attempt = IN_PROGRESS
       /\ answers (out_db (submitQuizAnswer env req db)) = answers db ++ [ans]
       /\ (completed_attempt (submitQuizAnswer env req db) = true
           <-> countDocuments (answer_of_attempt (SubmitReq.attemptId req))
                 (answers db ++ [ans])
               = countDocuments (question_of_quiz (QuizAttempt.quiz_id attempt))
                   (questions db))
       /\ in_progress (SubmitReq.attemptId req) (out_db (submitQuizAnswer env req db))
          = negb (completed_attempt (submitQuizAnswer env req db))
       /\ (completed_attempt (submitQuizAnswer env req db) = true ->
           exists after,
             findOne (attempt_has_id (SubmitReq.attemptId req))
                     (attempts (out_db (submitQuizAnswer env req db)))
             = Some after
             /\ QuizAttempt.status after = COMPLETED))
  /\ (forall id reqs db, completions id reqs (snd (serve reqs db)) <= 1)
  /\ (forall schedule reqs db db' rs n id a,
        findOne (attempt_has_id id) (attempts db) = Some a ->
        answers_of id db
        <> countDocuments (question_of_quiz (QuizAttempt.quiz_id a)) (questions db) ->
        Async.run schedule (map (fun er => Async.arrive (fst er) (snd er)) reqs) db
        = (db', rs, n) ->
        forallb has_responded rs = true ->
        answers_of id db'
        = countDocuments (question_of_quiz (QuizAttempt.quiz_id a)) (questions db) ->
        exists a',
          findOne (attempt_has_id id) (attempts db') = Some a'
          /\ QuizAttempt.status a' <> IN_PROGRESS
          /\ (QuizAttempt.status a = IN_PROGRESS -> QuizAttempt.status a' = COMPLETED)).
Proof.
  split; [|split; [exact completions_at_most_one | exact no_lost_transition]].
  intros env req db ic ans R.
  destruct (submit_created env req db ic ans R)
    as (qid & attempt & question & selected & _ & _ & A & _ & S & _ & _ & _ & _ & _
        & _ & _ & _ & E).
  exists attempt. rewrite E. rewrite completed_attempt_recorded.
  unfold recorded, answers_after, questions_of, in_progress.
  split; [exact A|]. split; [exact S|].
  destruct (Nat.eqb_spec
              (countDocuments (answer_of_attempt (SubmitReq.attemptId req))
                 (answers db ++ [ans]))
              (countDocuments (question_of_quiz (QuizAttempt.quiz_id attempt))
                 (questions db))) as [Q|Q]; simpl.
  - rewrite findOne_updateOne_same, A by apply complete_id. simpl.
    repeat split; auto. intros _. eexists. split; reflexivity.
  - rewrite A, S. simpl. repeat split; auto; discriminate.
Qed.

Lemma completed_once_in_sequence_witness :
  exists attempt,
    findOne (attempt_has_id Sample.attempt_id) (attempts Sample.after_two) = Some attempt
    /\ QuizAttempt.status attempt = IN_PROGRESS
    /\ answers Sample.after_three
       = answers Sample.after_two
         ++ [new_answer Sample.env3 (Sample.answer_to "q-3" "C") "q-3" (JArr [JStr "C"]) true]
    /\ completed_attempt
         (submitQuizAnswer Sample.env3 (Sample.answer_to "q-3" "C") Sample.after_two)
       = true.
Proof.
  destruct completed_once_in_sequence as (H & _ & _).
  destruct (H Sample.env3 (Sample.answer_to "q-3" "C") Sample.after_two true
              (new_answer Sample.env3 (Sample.answer_to "q-3" "C") "q-3"
                 (JArr [JStr "C"]) true))
    as (attempt & A & S & N & C & _).
  - vm_compute. reflexivity.
  - exists attempt. refine (conj A (conj S (conj N _))).
    apply C.
    assert (Some Sample.in_progress = Some attempt) as I by exact A.
    injection I as <-. vm_compute. reflexivity.
Defined.

(** C2 fails as stated: when the last two answers of the sample attempt
    arrive together and each request inserts its answer before either one
    counts, both requests count three answers for three questions and both
    perform the completing update; served one after the other, the same two
    requests complete the attempt once. *)
Lemma last_two_answers_complete_twice :
  (exists db rs,
     Async.run both_insert_then_count last_two Sample.after_one = (db, rs, 2)
     /\ map Async.req_point rs
        = [ Async.Responded
              (SubmitCreated false
                 (new_answer Sample.env2 (Sample.answer_to "q-2" "X") "q-2"
                    (JArr [JStr "X"]) false))
              (Some Sample.alice);
            Async.Responded
              (SubmitCreated true
                 (new_answer Sample.env3 (Sample.answer_to "q-3" "C") "q-3"
                    (JArr [JStr "C"]) true))
              (Some Sample.alice) ])
  /\ (exists db rs,
        Async.run one_after_the_other last_two Sample.after_one = (db, rs, 1)).
Proof.
  split; eexists; eexists; [split|]; vm_compute; reflexivity.
Qed.

(* ================================================================== *)
(** * The older answers of a topic *)

Lemma sorted_unique {A : Type} (R : A -> A -> Prop) (l1 : list A) :
  forall l2,
  (forall a b, In a l1 -> In b l1 -> R a b -> R b a -> a = b) ->
  Permutation l1 l2 ->
  Sorted.StronglySorted R l1 -> Sorted.StronglySorted R l2 ->
  l1 = l2.
Proof.
  induction l1 as [|x t IH]; intros l2 Anti P S1 S2.
  - apply Permutation_nil in P. now subst.
  - destruct l2 as [|y u].
    { apply Permutation_sym, Permutation_nil in P. discriminate. }
    inversion S1 as [|? ? S1' F1]; subst. inversion S2 as [|? ? S2' F2]; subst.
    rewrite Forall_forall in F1, F2.
    assert (x = y) as ->.
    { assert (In x (y :: u)) as Ix by (apply (Permutation_in _ P); now left).
      assert (In y (x :: t)) as Iy
        by (apply (Permutation_in _ (Permutation_sym P)); now left).
      destruct Ix as [E | Ix]; [now subst|].
      destruct Iy as [E | Iy]; [now subst|].
      apply Anti; simpl; auto. }
    f_equal. apply IH; auto.
    + intros a b Ia Ib. apply Anti; now right.
    + now apply Permutation_cons_inv in P.
Qed.

Lemma StronglySorted_snoc {A : Type} (R : A -> A -> Prop) (l : list A) (x : A) :
  Sorted.StronglySorted R l -> Forall (fun y => R y x) l ->
  Sorted.StronglySorted R (l ++ [x]).
Proof.
  induction l as [|y l IH]; intros S F; simpl.
  - constructor; constructor.
  - inversion S as [|? ? S' Fy]; subst. inversion F as [|? ? Ryx F']; subst.
    constructor; [now apply IH|].
    apply Forall_app. split; [exact Fy | now constructor].
Qed.

Lemma StronglySorted_rev {A : Type} (R : A -> A -> Prop) (l : list A) :
  Sorted.StronglySorted R l -> Sorted.StronglySorted (fun a b => R b a) (rev l).
Proof.
  induction 1 as [|x l S IH F]; simpl; [constructor|].
  apply StronglySorted_snoc; [exact IH|].
  apply Forall_rev. exact F.
Qed.

Lemma same_timestamp (l : list AttemptDetail) (a b : AttemptDetail) :
  NoDup (map timestamp l) -> In a l -> In b l -> timestamp a = timestamp b -> a = b.
Proof.
  induction l as [|x l IH]; simpl; [tauto|].
  intros N Ia Ib E. inversion N as [|? ? X N']; subst.
  destruct Ia as [<- | Ia], Ib as [<- | Ib]; auto.
  - exfalso. apply X. rewrite E. now apply in_map.
  - exfalso. apply X. rewrite <- E. now apply in_map.
Qed.

(** When no two answers of a topic have the same time, the answers oldest
    first are the answers newest first read backwards, and the older
    answers are those that remain beyond the ten most recent. *)
Lemma older_are_the_remaining (l : list AttemptDetail) :
  NoDup (map timestamp l) ->
  older_of l = rev (remaining_of l)
  /\ Permutation (recent_of l ++ older_of l) l.
Proof.
  intros N.
  set (newest := Array_sort newest_first l).
  assert (Permutation newest l) as Pn by apply stable_sort_perm.
  assert (Array_sort oldest_first l = rev newest) as E.
  { apply (sorted_unique (fun a b => (timestamp a <= timestamp b)%Z)).
    - intros a b Ia Ib H1 H2.
      assert (forall x, In x (Array_sort oldest_first l) -> In x l) as I.
      { intros x. apply Permutation_in, stable_sort_perm. }
      apply (same_timestamp l); auto. lia.
    - rewrite <- Permutation_rev. unfold newest, Array_sort.
      rewrite !stable_sort_perm. reflexivity.
    - eapply StronglySorted_impl; [|apply stable_sort_sorted].
      + intros a b H. unfold oldest_first in H. lia.
      + intros a b H. unfold oldest_first in *. lia.
      + intros a b c H1 H2. unfold oldest_first in *. lia.
    - apply (StronglySorted_rev (fun a b => (timestamp b <= timestamp a)%Z)).
      eapply StronglySorted_impl; [|apply stable_sort_sorted].
      + intros a b H. unfold newest_first in H. lia.
      + intros a b H. unfold newest_first in *. lia.
      + intros a b c H1 H2. unfold newest_first in *. lia. }
  assert (older_of l = rev (remaining_of l)) as O.
  { unfold older_of, slice_to_minus, remaining_of. fold newest. rewrite E.
    rewrite length_rev, firstn_rev. f_equal.
    rewrite recent_of_length.
    assert (List.length newest = List.length l) as L by apply stable_sort_length.
    rewrite L.
    destruct (Nat.le_gt_cases 10 (List.length l)) as [G|G].
    - f_equal. lia.
    - rewrite !skipn_all2 by lia. reflexivity. }
  split; [exact O|].
  rewrite O, <- Permutation_rev. unfold recent_of, remaining_of. fold newest.
  now rewrite firstn_skipn.
Qed.

(** C6 fails on the code: Bob's single attempt has thirteen answers on one
    topic, all of the same time.  The recent answers are the first ten; the
    three that remain are the last three, all wrong, and the confidence the
    specification words is 26.  The generator takes as older answers the
    first three, which are among the recent ones and all right, and stores
    the confidence 16. *)
Theorem older_answers_taken_from_the_recent :
  generateUserInsights (Sample13.env "i-" 6000%Z) Sample13.bob Sample13.submitted
  = Ok (Sample13.saved_db, Some Sample13.snapshot)
  /\ List.length Sample13.answers = 13
  /\ recent_of Sample13.answers = firstn 10 Sample13.answers
  /\ remaining_of Sample13.answers = skipn 10 Sample13.answers
  /\ older_of Sample13.answers = firstn 3 Sample13.answers
  /\ Obj.own (MLInsight.topic_performance Sample13.snapshot) "Geometry" = Some 23%float
  /\ Obj.own (MLInsight.confidence_scores Sample13.snapshot) "Geometry" = Some 16%float
  /\ confidence_by_spec Sample13.answers = 26%float.
Proof.
  repeat (apply conj; [vm_compute; reflexivity|]). vm_compute. reflexivity.
Qed.

(* ================================================================== *)
(** * Reading and deleting attempts *)

Lemma find_deleteOne_other {A : Type} (p q : A -> bool) (c : list A) :
  (forall a, p a = true -> q a = true -> False) ->
  find p (deleteOne q c) = find p c.
Proof.
  intros D. induction c as [|a r IH]; simpl; [reflexivity|].
  destruct (q a) eqn:Q; simpl.
  - destruct (p a) eqn:P; [exfalso; eauto | reflexivity].
  - destruct (p a); [reflexivity | exact IH].
Qed.

Lemma find_deleteOne_unique {A : Type} (key : A -> string) (id : string) (c : list A) :
  NoDup (map key c) ->
  find (fun a => String.eqb (key a) id) (deleteOne (fun a => String.eqb (key a) id) c) = None.
Proof.
  induction c as [|a r IH]; simpl; intros N; [reflexivity|].
  inversion N as [|? ? NI N']; subst.
  destruct (String.eqb (key a) id) eqn:E.
  - apply String.eqb_eq in E. subst id.
    destruct (find (fun b => String.eqb (key b) (key a)) r) as [b|] eqn:F; [|reflexivity].
    apply find_some in F. destruct F as [I B]. apply String.eqb_eq in B.
    exfalso. apply NI. rewrite <- B. apply in_map. exact I.
  - simpl. rewrite E. apply IH. exact N'.
Qed.

Lemma length_deleteOne {A : Type} (p : A -> bool) (c : list A) (a : A) :
  find p c = Some a -> S (List.length (deleteOne p c)) = List.length c.
Proof.
  induction c as [|b r IH]; simpl; [discriminate|].
  destruct (p b); simpl; intros F; [reflexivity|].
  rewrite IH; [reflexivity | exact F].
Qed.

Lemma filter_deleteMany_same {A : Type} (p : A -> bool) (c : list A) :
  filter p (deleteMany p c) = [].
Proof.
  unfold deleteMany. induction c as [|a r IH]; simpl; [reflexivity|].
  destruct (p a) eqn:P; simpl; [exact IH|]. rewrite P. exact IH.
Qed.

Lemma filter_deleteMany_other {A : Type} (p q : A -> bool) (c : list A) :
  (forall a, p a = true -> q a = true -> False) ->
  filter p (deleteMany q c) = filter p c.
Proof.
  intros D. unfold deleteMany. induction c as [|a r IH]; simpl; [reflexivity|].
  destruct (q a) eqn:Q; simpl.
  - destruct (p a) eqn:P; [exfalso; eauto | exact IH].
  - destruct (p a); [f_equal|]; exact IH.
Qed.

Lemma filter_filter_disjoint {A : Type} (p q : A -> bool) (c : list A) :
  (forall a, p a = true -> q a = true -> False) ->
  filter p (filter q c) = [].
Proof.
  intros D. induction c as [|a r IH]; simpl; [reflexivity|].
  destruct (q a) eqn:Q; simpl; [|exact IH].
  destruct (p a) eqn:P; [exfalso; eauto | exact IH].
Qed.

Lemma same_attempt_id (i j : string) (a : QuizAttempt.t) :
  i <> j -> attempt_has_id i a = true -> attempt_has_id j a = true -> False.
Proof.
  unfold attempt_has_id. intros N I J.
  apply String.eqb_eq in I. apply String.eqb_eq in J. congruence.
Qed.

Lemma same_answer_attempt (i j : string) (a : QuizAttemptAnswer.t) :
  i <> j -> answer_of_attempt i a = true -> answer_of_attempt j a = true -> False.
Proof.
  unfold answer_of_attempt. intros N I J.
  apply String.eqb_eq in I. apply String.eqb_eq in J. congruence.
Qed.

(** X1 (deleteQuizAttempt).  When the owner deletes an attempt, the
    response is 200, one attempt document is removed and every answer of
    the attempt with it: no answer of the attempt is left, the answers of
    the other attempts and the other attempts are as before, the quizzes,
    questions and insights are not touched; and when the attempt ids are
    unique, reading the attempt afterwards is answered 404. *)
Theorem delete_attempt_takes_its_answers (id user_id : string) (db : DB)
    (attempt : QuizAttempt.t) :
  findOne (attempt_has_id id) (attempts db) = Some attempt ->
  QuizAttempt.user_id attempt = user_id ->
  let db' := fst (deleteQuizAttempt id user_id db) in
  snd (deleteQuizAttempt id user_id db)
  = mkMessage 200 "Quiz attempt deleted successfully"
  /\ filter (answer_of_attempt id) (answers db') = []
  /\ S (List.length (attempts db')) = List.length (attempts db)
  /\ (forall other, other <> id ->
        filter (answer_of_attempt other) (answers db')
        = filter (answer_of_attempt other) (answers db)
        /\ findOne (attempt_has_id other) (attempts db')
           = findOne (attempt_has_id other) (attempts db))
  /\ quizzes db' = quizzes db
  /\ questions db' = questions db
  /\ insights db' = insights db
  /\ (NoDup (map QuizAttempt.id (attempts db)) ->
      getQuizAttemptById id user_id db' = AttemptError 404 "Quiz attempt not found").
Proof.
  intros F U. unfold deleteQuizAttempt. rewrite F.
  rewrite U, String.eqb_refl. cbn [negb fst snd].
  cbn [with_answers with_attempts answers attempts quizzes questions insights].
  split; [reflexivity|].
  split; [apply filter_deleteMany_same|].
  split; [apply length_deleteOne with (a := attempt); exact F|].
  split.
  - intros other N. split.
    + apply filter_deleteMany_other. intros a. apply same_answer_attempt. exact N.
    + unfold findOne. apply find_deleteOne_other. intros a. apply same_attempt_id. exact N.
  - repeat (split; [reflexivity|]).
    intros N. unfold getQuizAttemptById.
    cbn [with_answers with_attempts answers attempts].
    unfold findOne, attempt_has_id.
    rewrite (find_deleteOne_unique QuizAttempt.id id (attempts db) N). reflexivity.
Qed.

Lemma delete_attempt_takes_its_answers_witness :
  filter (answer_of_attempt Sample.attempt_id)
         (answers (fst (deleteQuizAttempt Sample.attempt_id Sample.alice Sample.after_two)))
  = []
  /\ getQuizAttemptById Sample.attempt_id Sample.alice
       (fst (deleteQuizAttempt Sample.attempt_id Sample.alice Sample.after_two))
     = AttemptError 404 "Quiz attempt not found".
Proof.
  destruct (delete_attempt_takes_its_answers Sample.attempt_id Sample.alice
              Sample.after_two Sample.in_progress)
    as (_ & A & _ & _ & _ & _ & _ & G).
  - vm_compute. reflexivity.
  - vm_compute. reflexivity.
  - split; [exact A|]. apply G. vm_compute. repeat constructor. intros [].
Defined.

Lemma eqb_differs (a b : string) : a <> b -> negb (String.eqb a b) = true.
Proof. intros N. apply String.eqb_neq in N. rewrite N. reflexivity. Qed.

(** X2 (getQuizAttemptById, deleteQuizAttempt, getUserQuizAttempts,
    submitQuizAnswer).  An attempt that belongs to another user cannot be
    read, deleted or answered: reading and deleting are answered 403 and
    nothing is deleted, the attempt is not in the caller's list, and a
    submitted answer is refused (with 403 once the ids of the request are
    well formed) without any write. *)
Theorem attempt_of_another_user (id caller : string) (db : DB) (attempt : QuizAttempt.t) :
  findOne (attempt_has_id id) (attempts db) = Some attempt ->
  QuizAttempt.user_id attempt <> caller ->
  getQuizAttemptById id caller db = AttemptError 403 "Unauthorized"
  /\ deleteQuizAttempt id caller db = (db, mkMessage 403 "Unauthorized")
  /\ ~ In attempt (getUserQuizAttempts caller db)
  /\ (forall env req,
        SubmitReq.attemptId req = id ->
        SubmitReq.user_id req = caller ->
        out_db (submitQuizAnswer env req db) = db
        /\ out_insights_for (submitQuizAnswer env req db) = None
        /\ exists status message,
             out_response (submitQuizAnswer env req db) = SubmitError status message
             /\ (isValidUUID id = true ->
                 valid_question_id (SubmitReq.question_id req) <> None ->
                 status = 403 /\ message = "Unauthorized")).
Proof.
  intros F N.
  split; [unfold getQuizAttemptById; rewrite F, (eqb_differs _ _ N); reflexivity|].
  split; [unfold deleteQuizAttempt; rewrite F, (eqb_differs _ _ N); reflexivity|].
  split.
  - unfold getUserQuizAttempts. intros I. apply filter_In in I. destruct I as [_ E].
    apply String.eqb_eq in E. contradiction.
  - intros env req E1 E2. subst id caller. unfold submitQuizAnswer.
    destruct (negb (isValidUUID (SubmitReq.attemptId req))) eqn:V.
    + cbn. repeat split. eexists _, _. split; [reflexivity|].
      intros V'. rewrite V' in V. discriminate.
    + destruct (valid_question_id (SubmitReq.question_id req)) eqn:Q.
      * rewrite F, (eqb_differs _ _ N). cbn. repeat split.
        eexists _, _. split; [reflexivity|]. intros _ _. split; reflexivity.
      * cbn. repeat split. eexists _, _. split; [reflexivity|].
        intros _ C. contradiction.
Qed.

Lemma attempt_of_another_user_witness :
  getQuizAttemptById Sample.attempt_id "user-bob" Sample.after_two
  = AttemptError 403 "Unauthorized"
  /\ deleteQuizAttempt Sample.attempt_id "user-bob" Sample.after_two
     = (Sample.after_two, mkMessage 403 "Unauthorized").
Proof.
  destruct (attempt_of_another_user Sample.attempt_id "user-bob" Sample.after_two
              Sample.in_progress) as (G & D & _).
  - vm_compute. reflexivity.
  - vm_compute. discriminate.
  - split; [exact G | exact D].
Defined.

Lemma find_app_first {A : Type} (p : A -> bool) (l l' : list A) :
  find p (l ++ l')
  = match find p l with
    | Some x => Some x
    | None => find p l'
    end.
Proof.
  induction l as [|a r IH]; simpl; [reflexivity|].
  destruct (p a); [reflexivity | exact IH].
Qed.

Lemma find_filter_implied {A : Type} (p g : A -> bool) (l : list A) :
  (forall a, p a = true -> g a = true) ->
  find p (filter g l) = find p l.
Proof.
  intros I. induction l as [|a r IH]; simpl; [reflexivity|].
  destruct (g a) eqn:G; simpl.
  - destruct (p a); [reflexivity | exact IH].
  - destruct (p a) eqn:P; [|exact IH].
    apply I in P. congruence.
Qed.

Lemma find_rev_unique {A : Type} (key : A -> string) (k : string) (l : list A) :
  NoDup (map key l) ->
  find (fun a => String.eqb (key a) k) (rev l) = find (fun a => String.eqb (key a) k) l.
Proof.
  induction l as [|a r IH]; simpl; intros N; [reflexivity|].
  inversion N as [|? ? NI N']; subst.
  rewrite find_app_first, (IH N'). simpl.
  destruct (String.eqb (key a) k) eqn:E.
  - destruct (find (fun b => String.eqb (key b) k) r) as [b|] eqn:F; [|reflexivity].
    apply find_some in F. destruct F as [I B].
    apply String.eqb_eq in E. apply String.eqb_eq in B.
    exfalso. apply NI. rewrite E, <- B. apply in_map. exact I.
  - destruct (find (fun b => String.eqb (key b) k) r); reflexivity.
Qed.

(** The map of questions gives, for an id, the last of the questions that
    has it. *)
Lemma own_questionMap_from (l : list Question.t) (k : string) :
  forall m,
  Obj.own (fold_left (fun m q => Obj.set m (Question.id q) q) l m) k
  = match find (question_has_id k) (rev l) with
    | Some q => Some q
    | None => Obj.own m k
    end.
Proof.
  induction l as [|a r IH]; intros m; simpl; [reflexivity|].
  rewrite IH, find_app_first.
  destruct (find (question_has_id k) (rev r)); [reflexivity|].
  simpl. unfold question_has_id at 1.
  destruct (String.eqb (Question.id a) k) eqn:E.
  - apply String.eqb_eq in E. subst k. apply own_set_same.
  - apply own_set_other. apply String.eqb_neq in E. congruence.
Qed.

Lemma own_questionMap_of (l : list Question.t) (k : string) :
  Obj.own (questionMap_of l) k = find (question_has_id k) (rev l).
Proof.
  unfold questionMap_of. rewrite own_questionMap_from.
  destruct (find (question_has_id k) (rev l)); reflexivity.
Qed.

Lemma get_attempt_answers (id : string) (db : DB) (attempt : QuizAttempt.t) :
  findOne (attempt_has_id id) (attempts db) = Some attempt ->
  exists l,
    getQuizAttemptById id (QuizAttempt.user_id attempt) db = AttemptOk attempt l
    /\ map awq_answer l = filter (answer_of_attempt id) (answers db).
Proof.
  intros F. unfold getQuizAttemptById. rewrite F, String.eqb_refl. cbn [negb].
  eexists. split; [reflexivity|].
  rewrite map_map. cbn [awq_answer]. apply map_id.
Qed.

(** X3 (getQuizAttemptById).  The owner of an attempt is sent the attempt
    with its answers, all of them and in the order they were stored, each
    with the question it answers: the last question of the collection with
    that id, which is the question with that id when the ids of the
    questions are unique, and none when the question is gone. *)
Theorem attempt_is_read_with_its_answers (id user_id : string) (db : DB)
    (attempt : QuizAttempt.t) :
  findOne (attempt_has_id id) (attempts db) = Some attempt ->
  QuizAttempt.user_id attempt = user_id ->
  exists l,
    getQuizAttemptById id user_id db = AttemptOk attempt l
    /\ map awq_answer l = filter (answer_of_attempt id) (answers db)
    /\ Forall
         (fun x =>
            awq_question x
            = findOne (question_has_id (QuizAttemptAnswer.question_id (awq_answer x)))
                      (rev (questions db)))
         l
    /\ (NoDup (map Question.id (questions db)) ->
        Forall
          (fun x =>
             awq_question x
             = findOne (question_has_id (QuizAttemptAnswer.question_id (awq_answer x)))
                       (questions db))
          l).
Proof.
  intros F U. unfold getQuizAttemptById. rewrite F, U, String.eqb_refl. cbn [negb].
  eexists. split; [reflexivity|].
  split; [rewrite map_map; cbn [awq_answer]; apply map_id|].
  assert (forall a, In a (filter (answer_of_attempt id) (answers db)) ->
          Obj.own
            (questionMap_of
               (questions_in
                  (map QuizAttemptAnswer.question_id
                     (filter (answer_of_attempt id) (answers db))) db))
            (QuizAttemptAnswer.question_id a)
          = findOne (question_has_id (QuizAttemptAnswer.question_id a))
                    (rev (questions db))) as K.
  { intros a I. rewrite own_questionMap_of. unfold questions_in, findOne.
    rewrite <- filter_rev. apply find_filter_implied.
    intros q Q. unfold question_has_id in Q. apply String.eqb_eq in Q.
    apply existsb_exists. exists (QuizAttemptAnswer.question_id a).
    split; [apply in_map; exact I | apply String.eqb_eq; exact Q]. }
  split.
  - apply Forall_forall. intros x I. apply in_map_iff in I.
    destruct I as (a & <- & I). cbn [awq_answer awq_question]. apply K. exact I.
  - intros N. apply Forall_forall. intros x I. apply in_map_iff in I.
    destruct I as (a & <- & I). cbn [awq_answer awq_question].
    rewrite (K a I). unfold findOne, question_has_id.
    apply (find_rev_unique Question.id). exact N.
Qed.

Lemma attempt_is_read_with_its_answers_witness :
  exists l,
    getQuizAttemptById Sample.attempt_id Sample.alice Sample.after_two
    = AttemptOk Sample.in_progress l
    /\ map awq_answer l = answers Sample.after_two
    /\ map awq_question l = [Some Sample.q1; Some Sample.q2].
Proof.
  destruct (attempt_is_read_with_its_answers Sample.attempt_id Sample.alice
              Sample.after_two Sample.in_progress) as (l & G & A & _ & _).
  - vm_compute. reflexivity.
  - vm_compute. reflexivity.
  - exists l. split; [exact G|]. split; [exact A|].
    assert (AttemptOk Sample.in_progress l
            = getQuizAttemptById Sample.attempt_id Sample.alice Sample.after_two) as E
      by (symmetry; exact G).
    vm_compute in E. injection E as ->. vm_compute. reflexivity.
Defined.

(* ================================================================== *)
(** * A bulk submission read back *)

(** What a successful bulk submission has checked before it wrote. *)
Lemma create_checked (env : Env) (req : CreateReq.t) (db : DB) (att : QuizAttempt.t) :
  out_response (createQuizAttempt env req db) = CreateCreated att ->
  find (attempt_has_id (QuizAttempt.id att)) (attempts db) = None
  /\ QuizAttempt.user_id att = CreateReq.user_id req
  /\ isValidUUID (QuizAttempt.quiz_id att) = true
  /\ (exists quiz,
        findOne (fun q => String.eqb (Quiz.id q) (QuizAttempt.quiz_id att)) (quizzes db)
        = Some quiz)
  /\ out_insights_for (createQuizAttempt env req db) = Some (CreateReq.user_id req).
Proof.
  unfold createQuizAttempt.
  destruct (CreateReq.quiz_id req) as [quiz_id|] eqn:Q; [|discriminate].
  destruct (is_blank quiz_id); [discriminate|].
  destruct (negb (isValidUUID quiz_id)) eqn:V; [discriminate|].
  destruct (findOne _ (quizzes db)) as [quiz|] eqn:FQ; [|discriminate].
  unfold withTransaction, create_transaction, insert_attempt.
  destruct (existsb _ (attempts db)) eqn:X; simpl; [discriminate|].
  destruct (CreateReq.answers req) as [inputs|]; simpl; [|discriminate].
  set (att0 := new_attempt env req quiz_id).
  destruct (prepare_all env _ quiz_id att0 0 inputs) as [preps|e]; simpl; [|discriminate].
  destruct (insertMany env preps _) as [db2|e]; simpl; [|discriminate].
  intros H. injection H as <-. split.
  - destruct (find (attempt_has_id (QuizAttempt.id att0)) (attempts db)) as [b|] eqn:F;
      [|reflexivity].
    apply find_some in F. destruct F as [I B]. unfold attempt_has_id in B.
    assert (existsb (fun b => String.eqb (QuizAttempt.id att0) (QuizAttempt.id b))
                    (attempts db) = true) as C.
    { apply existsb_exists. exists b. split; [exact I|]. now rewrite String.eqb_sym. }
    unfold att0 in C. simpl in C. simpl in X. congruence.
  - split; [reflexivity|]. split; [simpl; now destruct (isValidUUID quiz_id)|].
    split; [exists quiz; exact FQ | reflexivity].
Qed.

Lemma graded_copies_of_attempt (db : DB) (quiz_id attempt_id : string)
    (inputs : list AnswerInput.t) (docs : list QuizAttemptAnswer.t) :
  Forall2 (graded_copy db quiz_id attempt_id) inputs docs ->
  filter (answer_of_attempt attempt_id) docs = docs.
Proof.
  induction 1 as [|i d li ld G _ IH]; simpl; [reflexivity|].
  destruct G as (question & _ & _ & _ & A & _).
  unfold answer_of_attempt at 1. rewrite A, String.eqb_refl. now f_equal.
Qed.

(** X4 (createQuizAttempt, getQuizAttemptById, getUserQuizAttempts).  An
    attempt stored by a bulk submission is read back by its user as it was
    returned: with the graded copies of the request's answers, in the order
    of the request (after the answers that were already stored under the new
    id, if any), and it is added at the end of the user's list of attempts,
    the lists of the other users staying as they were. *)
Theorem bulk_attempt_is_read_back (env : Env) (req : CreateReq.t) (db : DB)
    (att : QuizAttempt.t) :
  out_response (createQuizAttempt env req db) = CreateCreated att ->
  let db' := out_db (createQuizAttempt env req db) in
  exists inputs docs l,
    CreateReq.answers req = Some inputs
    /\ Forall2 (graded_copy db (QuizAttempt.quiz_id att) (QuizAttempt.id att)) inputs docs
    /\ getQuizAttemptById (QuizAttempt.id att) (CreateReq.user_id req) db'
       = AttemptOk att l
    /\ map awq_answer l
       = filter (answer_of_attempt (QuizAttempt.id att)) (answers db) ++ docs
    /\ getUserQuizAttempts (CreateReq.user_id req) db'
       = getUserQuizAttempts (CreateReq.user_id req) db ++ [att]
    /\ (forall other, other <> CreateReq.user_id req ->
          getUserQuizAttempts other db' = getUserQuizAttempts other db).
Proof.
  intros H db'.
  destruct (create_checked env req db att H) as (Fresh & U & _).
  destruct (create_created env req db att H) as (quiz_id & inputs & docs & Q & A & E & D & G).
  assert (QuizAttempt.quiz_id att = quiz_id) as -> by (rewrite E; reflexivity).
  assert (findOne (attempt_has_id (QuizAttempt.id att)) (attempts db') = Some att) as F.
  { unfold db'. rewrite D. cbn [with_answers with_attempts attempts]. unfold findOne.
    apply find_app_none; [exact Fresh|]. unfold attempt_has_id. apply String.eqb_refl. }
  destruct (get_attempt_answers (QuizAttempt.id att) db' att) as (l & R & M).
  - exact F.
  - exists inputs, docs, l. split; [exact A|]. split; [exact G|].
    rewrite U in R. split; [exact R|]. split.
    + rewrite M. unfold db'. rewrite D. cbn [with_answers answers].
      rewrite filter_app. f_equal. eapply graded_copies_of_attempt. exact G.
    + unfold getUserQuizAttempts, db'. rewrite D. cbn [with_answers with_attempts attempts].
      split.
      * rewrite filter_app. simpl. unfold attempt_of_user at 2.
        rewrite U, String.eqb_refl. reflexivity.
      * intros other N. rewrite filter_app. simpl. unfold attempt_of_user at 2.
        rewrite U. apply not_eq_sym in N. apply String.eqb_neq in N. rewrite N.
        apply app_nil_r.
Qed.

Lemma bulk_attempt_is_read_back_witness :
  exists l,
    getQuizAttemptById (Sample.uuid' "4-" 0) Sample.alice
      (out_db (createQuizAttempt Sample.env4 (Sample.bulk 250%float "q-3") Sample.catalog))
    = AttemptOk (new_attempt Sample.env4 (Sample.bulk 250%float "q-3") Sample.algebra_id) l
    /\ List.length l = 3.
Proof.
  destruct (bulk_attempt_is_read_back Sample.env4 (Sample.bulk 250%float "q-3")
              Sample.catalog
              (new_attempt Sample.env4 (Sample.bulk 250%float "q-3") Sample.algebra_id))
    as (inputs & docs & l & A & G & R & M & _).
  - vm_compute. reflexivity.
  - exists l. split; [exact R|].
    assert (List.length (map awq_answer l) = 3) as L.
    { rewrite M. apply Forall2_length in G. rewrite length_app, <- G.
      injection A as <-. reflexivity. }
    rewrite length_map in L. exact L.
Defined.

(* ================================================================== *)
(** * What the handlers leave alone *)

Lemma recorded_db (env : Env) (req : SubmitReq.t) (db : DB)
    (attempt : QuizAttempt.t) (ans : QuizAttemptAnswer.t) :
  answers (out_db (recorded env req db attempt ans)) = answers db ++ [ans]
  /\ questions (out_db (recorded env req db attempt ans)) = questions db
  /\ quizzes (out_db (recorded env req db attempt ans)) = quizzes db
  /\ insights (out_db (recorded env req db attempt ans)) = insights db
  /\ (attempts (out_db (recorded env req db attempt ans)) = attempts db
      \/ exists c n,
           attempts (out_db (recorded env req db attempt ans))
           = updateOne (SubmitReq.attemptId req) (complete env c n) (attempts db)).
Proof.
  unfold recorded.
  destruct (Nat.eqb _ _); cbn; repeat (split; [reflexivity|]); [right|left]; eauto.
Qed.

Lemma findOne_after_complete (env : Env) (c n : nat) (id i : string)
    (l : list QuizAttempt.t) (a : QuizAttempt.t) :
  findOne (attempt_has_id i) l = Some a ->
  exists a',
    findOne (attempt_has_id i) (updateOne id (complete env c n) l) = Some a'
    /\ QuizAttempt.quiz_id a' = QuizAttempt.quiz_id a
    /\ QuizAttempt.user_id a' = QuizAttempt.user_id a
    /\ (i <> id -> a' = a).
Proof.
  intros F. destruct (string_dec i id) as [->|N].
  - rewrite findOne_updateOne_same by (intros; apply complete_id). rewrite F.
    eexists. split; [reflexivity|]. repeat split. intros C. contradiction.
  - rewrite findOne_updateOne_other by (try (intros; apply complete_id); exact N).
    exists a. repeat split. exact F.
Qed.

(** X5 (submitQuizAnswer, createQuizAttempt).  An attempt that is completed
    or abandoned is not changed by any later submission, single or bulk: the
    attempt document and its answers stay as they are. *)
Theorem finished_attempt_is_kept (id : string) (db : DB) (a : QuizAttempt.t) :
  findOne (attempt_has_id id) (attempts db) = Some a ->
  QuizAttempt.status a <> IN_PROGRESS ->
  (forall env req,
     findOne (attempt_has_id id) (attempts (out_db (submitQuizAnswer env req db))) = Some a
     /\ filter (answer_of_attempt id) (answers (out_db (submitQuizAnswer env req db)))
        = filter (answer_of_attempt id) (answers db))
  /\ (forall env req,
        findOne (attempt_has_id id) (attempts (out_db (createQuizAttempt env req db)))
        = Some a
        /\ filter (answer_of_attempt id) (answers (out_db (createQuizAttempt env req db)))
           = filter (answer_of_attempt id) (answers db)).
Proof.
  intros F S. split; intros env req.
  - destruct (out_response (submitQuizAnswer env req db)) as [ic ans|status message] eqn:R.
    + destruct (submit_created env req db ic ans R)
        as (question_id & attempt & question & selected & _ & _ & FA & _ & ST & _ & _
            & _ & _ & _ & _ & E & _ & REC).
      assert (id <> SubmitReq.attemptId req) as N.
      { intros ->. rewrite F in FA. injection FA as ->. contradiction. }
      rewrite REC.
      destruct (recorded_db env req db attempt ans) as (A & _ & _ & _ & AT).
      split.
      * destruct AT as [->|(c & n & ->)]; [exact F|].
        destruct (findOne_after_complete env c n (SubmitReq.attemptId req) id
                    (attempts db) a F) as (a' & F' & _ & _ & K).
        rewrite F', (K N). reflexivity.
      * rewrite A, filter_app. simpl. unfold answer_of_attempt at 2.
        rewrite E. cbn [new_answer QuizAttemptAnswer.attempt_id].
        apply not_eq_sym in N. apply String.eqb_neq in N. rewrite N. apply app_nil_r.
    + destruct (submit_error_unchanged env req db status message R) as [-> _].
      split; [exact F | reflexivity].
  - destruct (out_response (createQuizAttempt env req db)) as [att|status message] eqn:R.
    + destruct (create_checked env req db att R) as (Fresh & _).
      destruct (create_created env req db att R) as (quiz_id & inputs & docs & _ & _ & _ & D & G).
      assert (QuizAttempt.id att <> id) as N.
      { intros C. rewrite C in Fresh. unfold findOne in F. congruence. }
      rewrite D. cbn [with_answers with_attempts attempts answers]. split.
      * unfold findOne. rewrite find_app_first. unfold findOne in F. rewrite F. reflexivity.
      * rewrite filter_app. rewrite <- (graded_copies_of_attempt _ _ _ _ _ G).
        rewrite (filter_filter_disjoint (answer_of_attempt id)
                   (answer_of_attempt (QuizAttempt.id att))).
        -- apply app_nil_r.
        -- intros x X Y. eapply same_answer_attempt; [|exact Y|exact X]. exact N.
    + destruct (create_error_unchanged env req db status message R) as [-> _].
      split; [exact F | reflexivity].
Qed.

Lemma finished_attempt_is_kept_witness :
  findOne (attempt_has_id Sample.attempt_id)
    (attempts (out_db (submitQuizAnswer Sample.env4 (Sample.answer_to "q-1" "B")
                         Sample.after_three)))
  = Some (complete Sample.env3 2 3 Sample.in_progress).
Proof.
  destruct (finished_attempt_is_kept Sample.attempt_id Sample.after_three
              (complete Sample.env3 2 3 Sample.in_progress)) as [S _].
  - vm_compute. reflexivity.
  - vm_compute. discriminate.
  - apply S.
Defined.

(* ================================================================== *)
(** * No more answers than questions *)

Lemma NoDup_map_filter {A K : Type} (key : A -> K) (keep : A -> bool) :
  forall c : list A, NoDup (map key c) -> NoDup (map key (filter keep c)).
Proof.
  intros c. induction c as [|a r IH]; simpl; intros N; [constructor|].
  inversion N as [|? ? NI N']; subst.
  destruct (keep a); simpl; [|now apply IH].
  constructor; [|now apply IH].
  intros I. apply NI. apply in_map_iff in I. destruct I as (x & E & I).
  apply filter_In in I. rewrite <- E. apply in_map. tauto.
Qed.

Lemma NoDup_map_finer {A B C : Type} (f : A -> B) (g : A -> C) (l : list A) :
  (forall x y, In x l -> In y l -> g x = g y -> f x = f y) ->
  NoDup (map f l) -> NoDup (map g l).
Proof.
  induction l as [|a r IH]; simpl; intros H N; [constructor|].
  inversion N as [|? ? NI N']; subst.
  constructor.
  - intros I. apply NI. apply in_map_iff in I. destruct I as (x & E & I).
    rewrite (H a x); [apply in_map; exact I | now left | now right | now symmetry].
  - apply IH; [|exact N']. intros x y X Y. apply H; now right.
Qed.

(** The pigeonhole: the answers of an attempt are on different questions of
    its quiz. *)
Lemma consistent_count (db : DB) (id : string) (attempt : QuizAttempt.t) :
  consistent db ->
  findOne (attempt_has_id id) (attempts db) = Some attempt ->
  countDocuments (answer_of_attempt id) (answers db)
  <= countDocuments (question_of_quiz (QuizAttempt.quiz_id attempt)) (questions db).
Proof.
  intros [U R] F. unfold countDocuments.
  rewrite <- (length_map QuizAttemptAnswer.question_id).
  rewrite <- (length_map Question.id (filter _ (questions db))).
  apply NoDup_incl_length.
  - apply NoDup_map_finer with (f := answer_key).
    + intros x y X Y E. apply filter_In in X. apply filter_In in Y.
      destruct X as [_ X]. destruct Y as [_ Y]. unfold answer_of_attempt in X, Y.
      apply String.eqb_eq in X. apply String.eqb_eq in Y.
      unfold answer_key. congruence.
    + apply NoDup_map_filter. exact U.
  - intros q I. apply in_map_iff in I. destruct I as (x & <- & I).
    apply filter_In in I. destruct I as [I X].
    unfold answer_of_attempt in X. apply String.eqb_eq in X.
    unfold answers_refer in R. rewrite Forall_forall in R.
    destruct (R x I) as (attempt' & question & FA & FQ & Q).
    rewrite X, F in FA. injection FA as <-.
    unfold findOne in FQ. apply find_some in FQ. destruct FQ as [IQ EQ].
    unfold question_has_id in EQ. apply String.eqb_eq in EQ. rewrite <- EQ.
    apply in_map. apply filter_In. split; [exact IQ|].
    unfold question_of_quiz. apply String.eqb_eq. exact Q.
Qed.

Lemma answer_refers_submit (env : Env) (req : SubmitReq.t) (db : DB)
    (attempt : QuizAttempt.t) (ans x : QuizAttemptAnswer.t) :
  answer_refers db x ->
  answer_refers (out_db (recorded env req db attempt ans)) x.
Proof.
  intros (a & q & FA & FQ & Q).
  destruct (recorded_db env req db attempt ans) as (_ & QS & _ & _ & AT).
  unfold answer_refers. rewrite QS.
  destruct AT as [->|(c & n & ->)].
  - exists a, q. auto.
  - destruct (findOne_after_complete env c n (SubmitReq.attemptId req) _ _ _ FA)
      as (a' & F' & K & _).
    exists a', q. rewrite K. auto.
Qed.

Lemma consistent_submit (env : Env) (req : SubmitReq.t) (db : DB) :
  consistent db -> consistent (out_db (submitQuizAnswer env req db)).
Proof.
  intros [U R]. split; [apply submit_unique; exact U|].
  destruct (out_response (submitQuizAnswer env req db)) as [ic ans|status message] eqn:E.
  - destruct (submit_created env req db ic ans E)
      as (question_id & attempt & question & selected & _ & _ & FA & _ & _ & FQ & Q
          & _ & _ & _ & _ & EA & _ & REC).
    rewrite REC. unfold answers_refer.
    destruct (recorded_db env req db attempt ans) as (A & _).
    rewrite A. apply Forall_app. split.
    + unfold answers_refer in R. rewrite Forall_forall in R. apply Forall_forall.
      intros x I. apply answer_refers_submit. apply R. exact I.
    + constructor; [|constructor]. apply answer_refers_submit.
      exists attempt, question. rewrite EA. cbn [new_answer QuizAttemptAnswer.attempt_id
        QuizAttemptAnswer.question_id]. auto.
  - destruct (submit_error_unchanged env req db status message E) as [-> _]. exact R.
Qed.

Lemma consistent_create (env : Env) (req : CreateReq.t) (db : DB) :
  consistent db -> consistent (out_db (createQuizAttempt env req db)).
Proof.
  intros [U R]. split; [apply create_unique; exact U|].
  destruct (out_response (createQuizAttempt env req db)) as [att|status message] eqn:E.
  - destruct (create_checked env req db att E) as (Fresh & _).
    destruct (create_created env req db att E)
      as (quiz_id & inputs & docs & _ & _ & EA & D & G).
    rewrite D. unfold answers_refer. cbn [with_answers answers].
    apply Forall_app. split.
    + unfold answers_refer in R. rewrite Forall_forall in R. apply Forall_forall.
      intros x I. destruct (R x I) as (a & q & FA & FQ & Q).
      exists a, q. cbn [with_answers with_attempts attempts questions].
      split; [|auto]. unfold findOne. rewrite find_app_first.
      unfold findOne in FA. rewrite FA. reflexivity.
    + clear - G Fresh EA. induction G as [|i d li ld H _ IH]; constructor; [|exact IH].
      destruct H as (question & _ & FQ & Q & A & _).
      exists att, question. cbn [with_answers with_attempts attempts questions].
      split; [|split; [exact FQ|]].
      * rewrite A. unfold findOne. apply find_app_none; [exact Fresh|].
        unfold attempt_has_id. apply String.eqb_refl.
      * rewrite Q, EA. reflexivity.
  - destruct (create_error_unchanged env req db status message E) as [-> _]. exact R.
Qed.

Lemma consistent_delete (id user_id : string) (db : DB) :
  consistent db -> consistent (fst (deleteQuizAttempt id user_id db)).
Proof.
  intros [U R]. unfold deleteQuizAttempt.
  destruct (findOne (attempt_has_id id) (attempts db)) as [attempt|]; [|now split].
  destruct (negb _); [now split|].
  cbn [fst with_answers with_attempts answers attempts]. split.
  - unfold one_answer_per_question. cbn [answers]. apply NoDup_map_filter. exact U.
  - unfold answers_refer. cbn [answers]. apply Forall_forall. intros x I.
    apply filter_In in I. destruct I as [I N].
    unfold answers_refer in R. rewrite Forall_forall in R.
    destruct (R x I) as (a & q & FA & FQ & Q).
    exists a, q. cbn [with_answers with_attempts attempts questions]. split; [|auto].
    unfold findOne. rewrite find_deleteOne_other; [exact FA|].
    intros b B1 B2. unfold attempt_has_id in B1, B2.
    apply String.eqb_eq in B1. apply String.eqb_eq in B2.
    unfold answer_of_attempt in N. rewrite <- B1, B2, String.eqb_refl in N. discriminate.
Qed.

(** X6 (submitQuizAnswer, createQuizAttempt, deleteQuizAttempt).  The
    handlers of the attempts keep the stored answers consistent (one answer
    per attempt and question, each on a stored question of the quiz of its
    stored attempt), and in a consistent database no attempt has more
    answers than its quiz has questions. *)
Theorem answers_never_exceed_questions (db : DB) :
  consistent db ->
  (forall id attempt,
     findOne (attempt_has_id id) (attempts db) = Some attempt ->
     countDocuments (answer_of_attempt id) (answers db)
     <= countDocuments (question_of_quiz (QuizAttempt.quiz_id attempt)) (questions db))
  /\ (forall env req, consistent (out_db (submitQuizAnswer env req db)))
  /\ (forall env req, consistent (out_db (createQuizAttempt env req db)))
  /\ (forall id user_id, consistent (fst (deleteQuizAttempt id user_id db))).
Proof.
  intros C. split; [intros id attempt; apply consistent_count; exact C|].
  split; [intros; apply consistent_submit; exact C|].
  split; [intros; apply consistent_create; exact C|].
  intros. apply consistent_delete. exact C.
Qed.

Lemma sample_consistent : consistent Sample.after_two.
Proof.
  apply consistent_submit. apply consistent_submit.
  split; [constructor | constructor].
Qed.

Lemma answers_never_exceed_questions_witness :
  countDocuments (answer_of_attempt Sample.attempt_id) (answers Sample.after_two)
  <= countDocuments (question_of_quiz Sample.algebra_id) (questions Sample.after_two)
  /\ consistent Sample.after_three.
Proof.
  destruct (answers_never_exceed_questions Sample.after_two sample_consistent)
    as (C & S & _).
  split.
  - apply (C Sample.attempt_id Sample.in_progress). vm_compute. reflexivity.
  - apply S.
Defined.

(* ================================================================== *)
(** * The ids [isValidUUID] accepts *)

Ltac uuid_char_step H s :=
  let c := fresh "c" in
  destruct s as [|c s]; cbn [hexes expect] in H; [discriminate|];
  match type of H with
  | context [if ?b then _ else _] =>
      let E := fresh "E" in
      destruct b eqn:E; cbn [hexes expect] in H; [|discriminate]
  end.

(** The 36 characters of an accepted id: 30 hexadecimal digits, four
    dashes, the version and the variant. *)
Lemma uuid_characters (s : string) :
  isValidUUID s = true ->
  exists c1 c2 c3 c4 c5 c6 c7 c8 d1 c9 c10 c11 c12 d2 v c13 c14 c15 d3 y c16 c17 c18 d4
         c19 c20 c21 c22 c23 c24 c25 c26 c27 c28 c29 c30,
    s = String c1 (String c2 (String c3 (String c4 (String c5 (String c6 (String c7
        (String c8 (String d1 (String c9 (String c10 (String c11 (String c12 (String d2
        (String v (String c13 (String c14 (String c15 (String d3 (String y (String c16
        (String c17 (String c18 (String d4 (String c19 (String c20 (String c21 (String c22
        (String c23 (String c24 (String c25 (String c26 (String c27 (String c28 (String c29
        (String c30 EmptyString)))))))))))))))))))))))))))))))))))
    /\ forallb is_hex [c1; c2; c3; c4; c5; c6; c7; c8; c9; c10; c11; c12; c13; c14; c15;
                       c16; c17; c18; c19; c20; c21; c22; c23; c24; c25; c26; c27; c28;
                       c29; c30] = true
    /\ forallb is_dash [d1; d2; d3; d4] = true
    /\ is_version v = true
    /\ is_variant y = true.
Proof.
  intros H. unfold isValidUUID in H. cbv zeta in H.
  do 36 (uuid_char_step H s).
  destruct s; [|discriminate].
  do 36 eexists. split; [reflexivity|].
  cbn [forallb].
  repeat match goal with E : _ = true |- _ => rewrite E; clear E end.
  repeat split.
Qed.

Lemma hex_is_uuid_char (c : ascii) : is_hex c = true -> uuid_char c = true.
Proof. unfold uuid_char. intros ->. reflexivity. Qed.

Lemma dash_is_uuid_char (c : ascii) : is_dash c = true -> uuid_char c = true.
Proof. unfold uuid_char. intros ->. apply orb_true_r. Qed.

Lemma version_is_hex (c : ascii) : is_version c = true -> is_hex c = true.
Proof.
  unfold is_version, is_hex, is_digit. cbv zeta.
  destruct (49 <=? nat_of_ascii c) eqn:A; [|discriminate].
  destruct (nat_of_ascii c <=? 53) eqn:B; [|discriminate].
  apply Nat.leb_le in A. apply Nat.leb_le in B. intros _.
  assert ((48 <=? nat_of_ascii c) = true) as -> by (apply Nat.leb_le; lia).
  assert ((nat_of_ascii c <=? 57) = true) as -> by (apply Nat.leb_le; lia).
  reflexivity.
Qed.

Lemma variant_is_hex (c : ascii) : is_variant c = true -> is_hex c = true.
Proof.
  unfold is_variant, is_hex, is_digit. cbv zeta. intros H.
  repeat (apply orb_true_iff in H; destruct H as [H|H]);
    apply Nat.eqb_eq in H; rewrite H; reflexivity.
Qed.

Lemma uuid_char_no_space (c : ascii) : uuid_char c = true -> is_space c = false.
Proof.
  unfold uuid_char, is_hex, is_digit, is_dash, is_space. cbv zeta. intros H.
  destruct (nat_of_ascii c =? 32) eqn:A.
  - apply Nat.eqb_eq in A. rewrite A in H. discriminate.
  - destruct (9 <=? nat_of_ascii c) eqn:B; [|reflexivity].
    destruct (nat_of_ascii c <=? 13) eqn:C; [|reflexivity].
    apply Nat.leb_le in C.
    assert ((48 <=? nat_of_ascii c) = false) as E1 by (apply Nat.leb_gt; lia).
    assert ((97 <=? nat_of_ascii c) = false) as E2 by (apply Nat.leb_gt; lia).
    assert ((65 <=? nat_of_ascii c) = false) as E3 by (apply Nat.leb_gt; lia).
    assert ((nat_of_ascii c =? 45) = false) as E4 by (apply Nat.eqb_neq; lia).
    rewrite E1, E2, E3, E4 in H. discriminate.
Qed.

Lemma trimEnd_no_space (s : string) :
  all_chars (fun c => negb (is_space c)) s = true -> trimEnd s = s.
Proof.
  induction s as [|c t IH]; simpl; [reflexivity|].
  intros H. apply andb_true_iff in H. destruct H as [C T].
  rewrite (IH T). destruct t; [|reflexivity].
  apply negb_true_iff in C. rewrite C. reflexivity.
Qed.

Lemma trim_no_space (s : string) :
  all_chars (fun c => negb (is_space c)) s = true -> trim s = s.
Proof.
  intros H. unfold trim.
  assert (trimStart s = s) as ->.
  { destruct s as [|c t]; [reflexivity|]. simpl in *.
    apply andb_true_iff in H. destruct H as [C _].
    apply negb_true_iff in C. rewrite C. reflexivity. }
  apply trimEnd_no_space. exact H.
Qed.

Lemma all_chars_impl (p q : ascii -> bool) (s : string) :
  (forall c, p c = true -> q c = true) ->
  all_chars p s = true -> all_chars q s = true.
Proof.
  intros I. induction s as [|c t IH]; simpl; [reflexivity|].
  intros H. apply andb_true_iff in H. destruct H as [C T].
  rewrite (I c C), (IH T). reflexivity.
Qed.

Lemma uuid_all_chars (s : string) :
  isValidUUID s = true -> String.length s = 36 /\ all_chars uuid_char s = true.
Proof.
  intros H. apply uuid_characters in H.
  do 36 destruct H as [? H]. destruct H as (-> & X & D & V & Y).
  split; [reflexivity|].
  apply version_is_hex in V. apply variant_is_hex in Y.
  cbn [forallb] in X, D.
  repeat (apply andb_true_iff in X; destruct X as [?X X]).
  repeat (apply andb_true_iff in D; destruct D as [?D D]).
  cbn [all_chars].
  repeat match goal with
         | E : is_hex ?c = true |- _ => rewrite (hex_is_uuid_char c E); clear E
         | E : is_dash ?c = true |- _ => rewrite (dash_is_uuid_char c E); clear E
         end.
  reflexivity.
Qed.

Lemma uuid_is_trimmed (s : string) :
  isValidUUID s = true -> trim s = s /\ s <> EmptyString /\ is_blank s = false.
Proof.
  intros H. destruct (uuid_all_chars s H) as [L A]. split; [|split].
  - apply trim_no_space. eapply all_chars_impl; [|exact A].
    intros c C. apply uuid_char_no_space in C. rewrite C. reflexivity.
  - intros ->. discriminate.
  - destruct s as [|c t]; [discriminate|]. simpl in *.
    apply andb_true_iff in A. destruct A as [C _].
    apply uuid_char_no_space in C. rewrite C. reflexivity.
Qed.

(** X7 (isValidUUID).  An id that [isValidUUID] accepts has 36 characters,
    hexadecimal digits and dashes only, with a version digit from 1 to 5 at
    index 14 and a variant digit (8, 9, a or b) at index 19.  It has no white
    space: it is not blank and trimming leaves it as it is. *)
Theorem valid_uuid_shape (s : string) :
  isValidUUID s = true ->
  String.length s = 36
  /\ all_chars uuid_char s = true
  /\ (exists v, String.get 14 s = Some v /\ is_version v = true)
  /\ (exists y, String.get 19 s = Some y /\ is_variant y = true)
  /\ (forall i, In i [8; 13; 18; 23] -> exists d, String.get i s = Some d /\ is_dash d = true)
  /\ is_blank s = false
  /\ trim s = s.
Proof.
  intros H.
  destruct (uuid_all_chars s H) as [L A].
  destruct (uuid_is_trimmed s H) as (T & _ & B).
  split; [exact L|]. split; [exact A|].
  apply uuid_characters in H.
  do 36 destruct H as [? H]. destruct H as (-> & _ & D & V & Y).
  cbn [forallb] in D.
  repeat (apply andb_true_iff in D; destruct D as [?D D]).
  split; [eexists; split; [reflexivity | exact V]|].
  split; [eexists; split; [reflexivity | exact Y]|].
  split; [|split; [exact B | exact T]].
  intros i I. cbn [In] in I.
  destruct I as [<-|[<-|[<-|[<-|[]]]]]; eexists; (split; [reflexivity | assumption]).
Qed.

Lemma valid_uuid_shape_witness :
  String.length Sample.algebra_id = 36 /\ trim Sample.algebra_id = Sample.algebra_id.
Proof.
  destruct (valid_uuid_shape Sample.algebra_id) as (L & _ & _ & _ & _ & _ & T).
  - vm_compute. reflexivity.
  - split; [exact L | exact T].
Defined.

(* ================================================================== *)
(** * The questions of a quiz *)

(** X8 (getQuizQuestions).  For a well-formed quiz id in the path, the
    response is 404 when the quiz has no question and otherwise 200 with all
    the questions of the quiz in stored order, a time limit of 300, and as
    [total_questions] the number of questions that [submitQuizAnswer] counts
    to complete an attempt on the quiz; a missing or blank id is answered
    400; and a 200 response never carries an empty list. *)
Theorem quiz_questions_total (db : DB) :
  (forall quiz_id query,
     isValidUUID quiz_id = true ->
     getQuizQuestions (QuestionsReq.mk (Some quiz_id) query) db
     = if countDocuments (question_of_quiz quiz_id) (questions db) =? 0
       then QuestionsError 404 "No questions found for this quiz"
       else QuestionsOk (filter (question_of_quiz quiz_id) (questions db)) 300
              (countDocuments (question_of_quiz quiz_id) (questions db)))
  /\ (forall req,
        match or_string (QuestionsReq.params_id req) (QuestionsReq.query_quiz_id req) with
        | Some quiz_id => is_blank quiz_id = true
        | None => True
        end ->
        getQuizQuestions req db = QuestionsError 400 "Quiz ID is required")
  /\ (forall req l time_limit total,
        getQuizQuestions req db = QuestionsOk l time_limit total ->
        l <> [] /\ total = List.length l /\ time_limit = 300
        /\ exists quiz_id, l = filter (question_of_quiz quiz_id) (questions db)).
Proof.
  split; [|split].
  - intros quiz_id query V.
    destruct (uuid_is_trimmed quiz_id V) as (T & N & _).
    unfold getQuizQuestions. cbn [QuestionsReq.params_id QuestionsReq.query_quiz_id].
    destruct quiz_id as [|c t]; [contradiction|]. cbn [or_string].
    rewrite T. cbn [String.eqb]. unfold countDocuments.
    destruct (filter _ (questions db)); reflexivity.
  - intros req B. unfold getQuizQuestions.
    destruct (or_string _ _) as [quiz_id|]; [|reflexivity].
    destruct quiz_id as [|c t]; [reflexivity|].
    assert (trim (String c t) = EmptyString) as ->; [|reflexivity].
    revert B. generalize (String c t). clear. intros s B. unfold trim.
    assert (trimStart s = EmptyString) as ->; [|reflexivity].
    induction s as [|c t IH]; [reflexivity|]. simpl in *.
    apply andb_true_iff in B. destruct B as [C B]. rewrite C. apply IH. exact B.
  - intros req l time_limit total. unfold getQuizQuestions.
    destruct (or_string _ _) as [quiz_id|]; [|discriminate].
    destruct quiz_id as [|c t]; [discriminate|].
    destruct (String.eqb _ _); [discriminate|].
    destruct (filter _ (questions db)) as [|q r] eqn:F; [discriminate|].
    intros H. injection H as <- <- <-.
    split; [discriminate|]. split; [reflexivity|]. split; [reflexivity|].
    eexists. symmetry. exact F.
Qed.

Lemma quiz_questions_total_witness :
  getQuizQuestions (QuestionsReq.mk (Some Sample.algebra_id) None) Sample.catalog
  = QuestionsOk [Sample.q1; Sample.q2; Sample.q3] 300 3.
Proof.
  destruct (quiz_questions_total Sample.catalog) as (H & _).
  rewrite (H Sample.algebra_id None); vm_compute; reflexivity.
Defined.

(* ================================================================== *)
(** * Deleting a quiz *)

(** [submitQuizAnswer] does not read the quizzes. *)
Lemma submit_without_quizzes (env : Env) (req : SubmitReq.t) (db : DB) (l : list Quiz.t) :
  out_response (submitQuizAnswer env req (with_quizzes db l))
  = out_response (submitQuizAnswer env req db)
  /\ out_db (submitQuizAnswer env req (with_quizzes db l))
     = with_quizzes (out_db (submitQuizAnswer env req db)) l.
Proof.
  unfold submitQuizAnswer.
  cbn [with_quizzes attempts questions answers].
  destruct (negb (isValidUUID _)); [split; reflexivity|].
  destruct (valid_question_id _); [|split; reflexivity].
  destruct (findOne _ (attempts db)); [|split; reflexivity].
  destruct (negb (String.eqb _ _)); [split; reflexivity|].
  destruct (negb (Status_eqb _ _)); [split; reflexivity|].
  destruct (findOne _ (questions db)); [|split; reflexivity].
  destruct (negb (String.eqb _ _)); [split; reflexivity|].
  destruct (findOne _ (answers db)); [split; reflexivity|].
  destruct (required_mixed _); [|split; reflexivity].
  cbn [bind]. unfold insert_answer. cbn [with_quizzes answers].
  destruct (existsb _ (answers db)); [split; reflexivity|].
  cbn [bind with_answers with_quizzes answers questions attempts].
  destruct (Nat.eqb _ _); split; reflexivity.
Qed.

(** X9 (deleteQuiz).  Deleting a quiz removes the quiz document and nothing
    else: its questions, the attempts on it and their answers stay.  The
    questions are still served and answers to its attempts are handled as
    before, while a new bulk submission for the quiz is answered 404 (the
    ids of the quizzes being unique). *)
Theorem deleted_quiz_leaves_its_questions (id : string) (db : DB) (quiz : Quiz.t) :
  id <> EmptyString ->
  findOne (quiz_has_id id) (quizzes db) = Some quiz ->
  let db' := fst (deleteQuiz id db) in
  snd (deleteQuiz id db) = QuizDeleted "Quiz deleted successfully" quiz
  /\ S (List.length (quizzes db')) = List.length (quizzes db)
  /\ questions db' = questions db
  /\ attempts db' = attempts db
  /\ answers db' = answers db
  /\ (forall req, getQuizQuestions req db' = getQuizQuestions req db)
  /\ (forall env req,
        out_response (submitQuizAnswer env req db')
        = out_response (submitQuizAnswer env req db))
  /\ (NoDup (map Quiz.id (quizzes db)) ->
      forall env req,
        CreateReq.quiz_id req = Some id ->
        isValidUUID id = true ->
        createQuizAttempt env req db'
        = mkOutcome db' (CreateError 404 "Quiz not found") None).
Proof.
  intros N F db'.
  assert (deleteQuiz id db
          = (with_quizzes db (deleteOne (quiz_has_id id) (quizzes db)),
             QuizDeleted "Quiz deleted successfully" quiz)) as E.
  { unfold deleteQuiz. rewrite F. destruct id; [contradiction | reflexivity]. }
  unfold db'. rewrite E. cbn [fst snd with_quizzes quizzes questions attempts answers].
  split; [reflexivity|].
  split; [apply length_deleteOne with (a := quiz); exact F|].
  do 3 (split; [reflexivity|]).
  split; [reflexivity|].
  split; [intros env req; apply submit_without_quizzes|].
  intros U env req Q V. unfold createQuizAttempt. rewrite Q.
  destruct (uuid_is_trimmed id V) as (_ & _ & ->). rewrite V. cbn [negb quizzes].
  unfold findOne, quiz_has_id. cbn [with_quizzes quizzes].
  rewrite (find_deleteOne_unique Quiz.id id (quizzes db) U). reflexivity.
Qed.

Lemma deleted_quiz_leaves_its_questions_witness :
  questions (fst (deleteQuiz Sample.algebra_id Sample.after_two))
  = questions Sample.after_two
  /\ createQuizAttempt Sample.env4 (Sample.bulk 67%float "q-3")
       (fst (deleteQuiz Sample.algebra_id Sample.after_two))
     = mkOutcome (fst (deleteQuiz Sample.algebra_id Sample.after_two))
         (CreateError 404 "Quiz not found") None.
Proof.
  destruct (deleted_quiz_leaves_its_questions Sample.algebra_id Sample.after_two
              Sample.algebra) as (_ & _ & Q & _ & _ & _ & _ & C).
  - discriminate.
  - vm_compute. reflexivity.
  - split; [exact Q|]. apply C.
    + vm_compute. repeat constructor; simpl; intuition discriminate.
    + reflexivity.
    + vm_compute. reflexivity.
Defined.

(* ================================================================== *)
(** * Deleting a badge *)

(** The dashboard shows each achievement of the user with the first badge
    of the collection that has the id the achievement names. *)
Lemma badge_achievements_shown (userId : string) (db : DB) :
  badge_achievements userId db
  = map (shown_with (badges db)) (achievements_of userId db).
Proof.
  unfold badge_achievements. fold (achievements_of userId db).
  apply map_ext_in. intros ub I. unfold shown_with.
  assert (find (fun badge => String.eqb (Badge.id badge) (UserBadge.badge_id ub))
               (filter
                  (fun b => existsb (String.eqb (Badge.id b))
                              (map UserBadge.badge_id (achievements_of userId db)))
                  (badges db))
          = find (badge_has_id (UserBadge.badge_id ub)) (badges db)) as ->;
    [|reflexivity].
  apply find_filter_implied. intros b B. apply String.eqb_eq in B.
  apply existsb_exists. exists (UserBadge.badge_id ub).
  split; [apply in_map; exact I | apply String.eqb_eq; exact B].
Qed.

(** X10 (deleteBadge, getDashboardData).  Deleting a badge removes the badge
    document and leaves the achievements that name it: on the dashboard of
    every user the achievements are the same, in the same order, and those
    of the deleted badge are shown under the name "Unknown Badge" with an
    empty description (the ids of the badges being unique). *)
Theorem deleted_badge_shows_as_unknown (id : string) (db : DB) (badge : Badge.t) :
  findOne (badge_has_id id) (badges db) = Some badge ->
  NoDup (map Badge.id (badges db)) ->
  let db' := fst (deleteBadge id db) in
  snd (deleteBadge id db) = mkMessage 200 "Badge deleted successfully"
  /\ S (List.length (badges db')) = List.length (badges db)
  /\ user_badges db' = user_badges db
  /\ forall userId, exists data data',
       getDashboardData userId userId db = DashboardOk data
       /\ getDashboardData userId userId db' = DashboardOk data'
       /\ DashboardData.badges data'
          = map (fun x => if String.eqb (BadgeAchievement.badge_id x) id
                          then unknown_badge x else x)
                (DashboardData.badges data)
       /\ DashboardData.performance_history data'
          = DashboardData.performance_history data.
Proof.
  intros F U db'.
  assert (deleteBadge id db
          = (with_badges db (deleteOne (badge_has_id id) (badges db)),
             mkMessage 200 "Badge deleted successfully")) as E
    by (unfold deleteBadge; rewrite F; reflexivity).
  unfold db'. rewrite E. cbn [fst snd with_badges badges user_badges].
  split; [reflexivity|].
  split; [apply length_deleteOne with (a := badge); exact F|].
  split; [reflexivity|].
  intros userId. unfold getDashboardData. rewrite String.eqb_refl. cbn [negb].
  eexists _, _. split; [reflexivity|]. split; [reflexivity|].
  cbn [DashboardData.badges DashboardData.performance_history].
  split; [|reflexivity].
  rewrite !badge_achievements_shown, map_map.
  apply map_ext. intros ub. unfold shown_with.
  cbn [with_badges badges BadgeAchievement.badge_id].
  destruct (String.eqb (UserBadge.badge_id ub) id) eqn:B.
  - apply String.eqb_eq in B. rewrite B. unfold badge_has_id.
    rewrite (find_deleteOne_unique Badge.id id (badges db) U). reflexivity.
  - rewrite find_deleteOne_other; [reflexivity|].
    intros b B1 B2. unfold badge_has_id in B1, B2.
    apply String.eqb_eq in B1. apply String.eqb_eq in B2.
    rewrite <- B1, B2, String.eqb_refl in B. discriminate.
Qed.

Lemma deleted_badge_shows_as_unknown_witness :
  exists data',
    getDashboardData Sample.alice Sample.alice
      (fst (deleteBadge "badge-pro" SampleBadges.db))
    = DashboardOk data'
    /\ DashboardData.badges data'
       = [BadgeAchievement.mk "ub-1" "badge-pro" "Unknown Badge" EmptyString 5000%Z].
Proof.
  destruct (deleted_badge_shows_as_unknown "badge-pro" SampleBadges.db SampleBadges.pro)
    as (_ & _ & _ & D).
  - vm_compute. reflexivity.
  - vm_compute. repeat constructor. intros [].
  - destruct (D Sample.alice) as (data & data' & G & G' & B & _).
    exists data'. split; [exact G'|]. rewrite B.
    assert (DashboardOk data
            = getDashboardData Sample.alice Sample.alice SampleBadges.db) as X
      by (symmetry; exact G).
    vm_compute in X. injection X as ->. vm_compute. reflexivity.
Defined.

(* ================================================================== *)
(** * The quiz kept for a topic *)

Lemma more_questions_total (a b : QuizInfo) :
  (more_questions_then_oldest a b <=? 0)%Z = false ->
  (more_questions_then_oldest b a <=? 0)%Z = true.
Proof.
  unfold more_questions_then_oldest. intros H.
  apply Z.leb_gt in H. apply Z.leb_le.
  rewrite (Nat.eqb_sym (question_count b)).
  destruct (Nat.eqb (question_count a) (question_count b)) eqn:E; cbn [negb] in *; lia.
Qed.

Lemma more_questions_trans (a b c : QuizInfo) :
  (more_questions_then_oldest a b <=? 0)%Z = true ->
  (more_questions_then_oldest b c <=? 0)%Z = true ->
  (more_questions_then_oldest a c <=? 0)%Z = true.
Proof.
  unfold more_questions_then_oldest. intros H1 H2.
  apply Z.leb_le in H1. apply Z.leb_le in H2. apply Z.leb_le.
  destruct (Nat.eqb (question_count a) (question_count b)) eqn:E1;
  destruct (Nat.eqb (question_count b) (question_count c)) eqn:E2;
  destruct (Nat.eqb (question_count a) (question_count c)) eqn:E3;
  cbn [negb] in *;
  repeat match goal with
         | E : Nat.eqb _ _ = true |- _ => apply Nat.eqb_eq in E
         | E : Nat.eqb _ _ = false |- _ => apply Nat.eqb_neq in E
         end;
  lia.
Qed.

(** X11 (migrateAndCleanupTopics).  Of the quizzes of a duplicated topic,
    the quiz kept is one with the most questions and, among those, one that
    was created first; the quizzes to delete are all the others. *)
Theorem kept_quiz_has_most_questions (quizzes : list QuizInfo) :
  quizzes <> [] ->
  exists keep,
    quizToKeep quizzes = Some keep
    /\ Permutation (keep :: quizzesToDelete quizzes) quizzes
    /\ forall q, In q quizzes ->
         question_count q <= question_count keep
         /\ (question_count q = question_count keep ->
             (info_created_at keep <= info_created_at q)%Z).
Proof.
  intros N. unfold quizToKeep, quizzesToDelete, sortedQuizzes, Array_sort.
  pose proof (stable_sort_perm (fun a b => (more_questions_then_oldest a b <=? 0)%Z) quizzes)
    as P.
  pose proof (stable_sort_sorted (fun a b => (more_questions_then_oldest a b <=? 0)%Z)
                more_questions_total more_questions_trans quizzes) as S.
  destruct (stable_sort _ quizzes) as [|keep rest].
  - apply Permutation_nil in P. contradiction.
  - exists keep. split; [reflexivity|]. split; [exact P|].
    intros q I. apply (Permutation_in _ (Permutation_sym P)) in I.
    inversion S as [|? ? _ F]; subst. destruct I as [<-|I]; [split; lia|].
    rewrite Forall_forall in F. specialize (F q I). apply Z.leb_le in F.
    unfold more_questions_then_oldest in F.
    destruct (Nat.eqb (question_count keep) (question_count q)) eqn:E; cbn [negb] in F.
    + apply Nat.eqb_eq in E. split; lia.
    + apply Nat.eqb_neq in E. split; lia.
Qed.

Lemma kept_quiz_has_most_questions_witness :
  exists keep,
    quizToKeep (map (quiz_info Sample.catalog) [Sample.biology; Sample.algebra]) = Some keep
    /\ info_id keep = Sample.algebra_id.
Proof.
  destruct (kept_quiz_has_most_questions
              (map (quiz_info Sample.catalog) [Sample.biology; Sample.algebra]))
    as (keep & K & _).
  - discriminate.
  - exists keep. split; [exact K|].
    vm_compute in K. injection K as <-. reflexivity.
Defined.

(* ================================================================== *)
(** * Weak and strong topics *)

Lemma weak_after_topic (sc : Scores) (topic0 topic : string) (l : list AttemptDetail) :
  In topic (weakTopics (if List.length l <? 3 then sc else add_topic sc topic0 l))
  <-> In topic (weakTopics sc)
      \/ (topic = topic0 /\ 3 <= List.length l /\ ltb (proficiency_of l) 60%float = true).
Proof.
  destruct (Nat.ltb_spec (List.length l) 3) as [L|L].
  - split; [tauto|]. intros [H|(_ & H & _)]; [exact H | lia].
  - unfold add_topic. cbn [weakTopics].
    destruct (ltb (proficiency_of l) 60%float).
    + rewrite in_app_iff. cbn [In]. split.
      * intros [H|[<-|[]]]; auto.
      * intros [H|(-> & _)]; auto.
    + split; [tauto|]. intros [H|(_ & _ & H)]; [exact H | discriminate].
Qed.

Lemma strong_after_topic (sc : Scores) (topic0 topic : string) (l : list AttemptDetail) :
  In topic (strongTopics (if List.length l <? 3 then sc else add_topic sc topic0 l))
  <-> In topic (strongTopics sc)
      \/ (topic = topic0 /\ 3 <= List.length l
          /\ ltb (proficiency_of l) 60%float = false
          /\ leb 80%float (proficiency_of l) = true).
Proof.
  destruct (Nat.ltb_spec (List.length l) 3) as [L|L].
  - split; [tauto|]. intros [H|(_ & H & _)]; [exact H | lia].
  - unfold add_topic. cbn [strongTopics].
    destruct (ltb (proficiency_of l) 60%float).
    + split; [tauto|]. intros [H|(_ & _ & H & _)]; [exact H | discriminate].
    + destruct (leb 80%float (proficiency_of l)).
      * rewrite in_app_iff. cbn [In]. split.
        -- intros [H|[<-|[]]]; auto.
        -- intros [H|(-> & _)]; auto.
      * split; [tauto|]. intros [H|(_ & _ & _ & H)]; [exact H | discriminate].
Qed.

(** The two lists after the second loop. *)
Lemma score_topics_lists (g : list (string * AttemptDetail))
    (recent all : Obj.t (list AttemptDetail)) (entries : Obj.t TopicStats) :
  forall sc0 sc,
  Forall (entry_of g recent all) entries ->
  foldM (score_topic recent all) entries sc0 = Ok sc ->
  forall topic,
    (In topic (weakTopics sc)
     <-> In topic (weakTopics sc0)
         \/ (In topic (Obj.keys entries)
             /\ 3 <= List.length (details_of topic g)
             /\ ltb (proficiency_of (details_of topic g)) 60%float = true))
    /\ (In topic (strongTopics sc)
        <-> In topic (strongTopics sc0)
            \/ (In topic (Obj.keys entries)
                /\ 3 <= List.length (details_of topic g)
                /\ ltb (proficiency_of (details_of topic g)) 60%float = false
                /\ leb 80%float (proficiency_of (details_of topic g)) = true)).
Proof.
  induction entries as [|[topic0 stats0] entries IH]; intros sc0 sc G H topic.
  - simpl in H. injection H as <-. simpl. tauto.
  - inversion G as [|? ? G0 G']; subst.
    cbn [foldM] in H. rewrite (score_topic_step g _ _ _ _ G0) in H. cbn [bind] in H.
    destruct (IH _ _ G' H topic) as (W & S). clear IH.
    destruct G0 as (_ & E & _). cbn [fst snd] in *. subst stats0.
    rewrite stats_of_total in *.
    rewrite weak_after_topic in W. rewrite strong_after_topic in S.
    cbn [Obj.keys map fst In]. fold (Obj.keys entries).
    split.
    + rewrite W. split.
      * intros [[X|(-> & X)]|(X & Y)]; auto.
      * intros [X|([<-|X] & Y)]; auto.
    + rewrite S. split.
      * intros [[X|(-> & X)]|(X & Y)]; auto.
      * intros [X|([<-|X] & Y)]; auto.
Qed.

Lemma own_weak_topics_data_from (prof : Obj.t Number) (weak : list string) (topic : string) :
  forall o,
  Obj.own
    (fold_left
       (fun o topic =>
          match Obj.own prof topic with
          | Some v => Obj.set o topic v
          | None => o
          end)
       weak o) topic
  = if in_dec string_dec topic weak
    then match Obj.own prof topic with
         | Some v => Some v
         | None => Obj.own o topic
         end
    else Obj.own o topic.
Proof.
  induction weak as [|w weak IH]; intros o; [reflexivity|].
  cbn [fold_left]. rewrite IH.
  destruct (string_dec w topic) as [->|N].
  - destruct (in_dec string_dec topic (topic :: weak)) as [_|X]; [|exfalso; apply X; now left].
    destruct (Obj.own prof topic) as [v|] eqn:P.
    + destruct (in_dec _ _ _); [reflexivity | apply own_set_same].
    + destruct (in_dec _ _ _); reflexivity.
  - assert (Obj.own (match Obj.own prof w with
                     | Some v => Obj.set o w v
                     | None => o
                     end) topic = Obj.own o topic) as ->.
    { destruct (Obj.own prof w); [|reflexivity].
      apply own_set_other. congruence. }
    destruct (in_dec string_dec topic weak) as [I|I];
      destruct (in_dec string_dec topic (w :: weak)) as [J|J]; try reflexivity.
    + exfalso. apply J. now right.
    + exfalso. destruct J as [J|J]; [congruence | contradiction].
Qed.

(** X12 (generateUserInsights).  In the snapshot a topic is weak exactly
    when it has three graded answers or more and a proficiency below 60, and
    strong exactly when it has three graded answers or more and a proficiency
    that is not below 60 and is at least 80; no topic is both.  The snapshot
    that is stored has the same two lists, and [weak_topics_data] of the
    returned snapshot holds the proficiency of each weak topic, and nothing
    for the other topics. *)
Theorem weak_below_60_strong_from_80 (env : Env) (userId : string)
    (db db' : DB) (doc : MLInsight.t) (topic : string) :
  generateUserInsights env userId db = Ok (db', Some doc) ->
  let answers := details_of topic (graded_answers env userId db) in
  (In topic (MLInsight.weak_topics doc)
   <-> 3 <= List.length answers /\ ltb (proficiency_of answers) 60%float = true)
  /\ (In topic (MLInsight.strong_topics doc)
      <-> 3 <= List.length answers
          /\ ltb (proficiency_of answers) 60%float = false
          /\ leb 80%float (proficiency_of answers) = true)
  /\ ~ (In topic (MLInsight.weak_topics doc) /\ In topic (MLInsight.strong_topics doc))
  /\ (exists saved,
        findOne (insight_of_user userId) (insights db') = Some saved
        /\ MLInsight.weak_topics saved = MLInsight.weak_topics doc
        /\ MLInsight.strong_topics saved = MLInsight.strong_topics doc)
  /\ (exists data,
        MLInsight.weak_topics_data doc = Some data
        /\ (In topic (MLInsight.weak_topics doc) ->
            Obj.own data topic = Some (proficiency_of answers))
        /\ (~ In topic (MLInsight.weak_topics doc) -> Obj.own data topic = None)).
Proof.
  intros H answers.
  destruct (generate_snapshot env userId db db' doc H) as (t & sc & saved & T & SC & ES & ED & F).
  destruct (tally_answers_spec env userId db t T) as (TO & N).
  pose proof (tally_entries _ t TO N) as G.
  destruct (score_topics_spec _ t sc TO N SC) as (_ & P).
  unfold score_topics in SC.
  destruct (score_topics_lists _ _ _ _ _ _ G SC topic) as (W & S).
  assert (3 <= List.length answers -> In topic (Obj.keys (topicStats t))) as K.
  { intros L. apply (tally_keys _ t topic TO). intros E. unfold answers in L.
    rewrite E in L. simpl in L. lia. }
  assert (MLInsight.weak_topics doc = weakTopics sc) as -> by (subst; reflexivity).
  assert (MLInsight.strong_topics doc = strongTopics sc) as -> by (subst; reflexivity).
  cbn [weakTopics strongTopics In] in W, S.
  assert (In topic (weakTopics sc)
          <-> 3 <= List.length answers /\ ltb (proficiency_of answers) 60%float = true)
    as W'.
  { rewrite W. unfold answers. split; [intros [[]|(_ & X)]; exact X|].
    intros X. right. split; [apply K; tauto | exact X]. }
  assert (In topic (strongTopics sc)
          <-> 3 <= List.length answers
              /\ ltb (proficiency_of answers) 60%float = false
              /\ leb 80%float (proficiency_of answers) = true) as S'.
  { rewrite S. unfold answers. split; [intros [[]|(_ & X)]; exact X|].
    intros X. right. split; [apply K; tauto | exact X]. }
  split; [exact W'|]. split; [exact S'|]. split; [|split].
  - rewrite W', S'. intros ((_ & A) & (_ & B & _)). congruence.
  - exists saved. split; [exact F|]. subst saved. split; reflexivity.
  - exists (weak_topics_data_of (topicProficiency sc) (weakTopics sc)).
    split; [subst doc; reflexivity|].
    unfold weak_topics_data_of. rewrite own_weak_topics_data_from.
    split.
    + intros I. destruct (in_dec string_dec topic (weakTopics sc)) as [_|X]; [|contradiction].
      apply W' in I. destruct I as (L & _).
      destruct (P topic L) as (-> & _). reflexivity.
    + intros I. destruct (in_dec string_dec topic (weakTopics sc)) as [X|_]; [contradiction|].
      reflexivity.
Qed.

Lemma weak_below_60_strong_from_80_witness :
  ~ (In "Algebra" (MLInsight.weak_topics SampleInsights.snapshot)
     /\ In "Algebra" (MLInsight.strong_topics SampleInsights.snapshot)).
Proof.
  destruct (weak_below_60_strong_from_80 Sample.env4 Sample.alice Sample.after_three
              SampleInsights.saved_db SampleInsights.snapshot "Algebra")
    as (_ & _ & N & _).
  - vm_compute. reflexivity.
  - exact N.
Defined.

(* ================================================================== *)
(** * What an insight run writes *)

Lemma recent_completed_nil (n : nat) (userId : string) (db : DB) :
  recent_completed (S n) userId db = []
  <-> forall a, In a (attempts db) -> QuizAttempt.user_id a = userId ->
                QuizAttempt.status a <> COMPLETED.
Proof.
  unfold recent_completed.
  set (before := fun a b => date_leb (QuizAttempt.completed_at b) (QuizAttempt.completed_at a)).
  pose proof (stable_sort_perm before (filter (completed_by userId) (attempts db))) as P.
  split.
  - intros E a I U S.
    assert (In a (filter (completed_by userId) (attempts db))) as X.
    { apply filter_In. split; [exact I|]. unfold completed_by.
      rewrite U, S, String.eqb_refl. reflexivity. }
    apply (Permutation_in _ (Permutation_sym P)) in X.
    destruct (stable_sort before _); [contradiction | discriminate].
  - intros H.
    destruct (filter (completed_by userId) (attempts db)) as [|a l] eqn:F.
    + reflexivity.
    + exfalso. assert (In a (filter (completed_by userId) (attempts db))) as X
        by (rewrite F; now left).
      apply filter_In in X. destruct X as [I C]. unfold completed_by in C.
      apply andb_true_iff in C. destruct C as [U S].
      apply String.eqb_eq in U. apply Status_eqb_eq in S.
      exact (H a I U S).
Qed.

Lemma no_completed_run (env : Env) (userId : string) (db db' : DB) :
  generateUserInsights env userId db = Ok (db', None) ->
  db' = db /\ recent_completed 20 userId db = [].
Proof.
  intros H. unfold generateUserInsights in H.
  destruct (recent_completed 20 userId db) as [|a l] eqn:R.
  - injection H as <-. split; reflexivity.
  - exfalso.
    destruct (tally_answers env (a :: l) db) as [t|e]; cbn [bind] in H; [|discriminate].
    destruct (score_topics t) as [sc|e]; cbn [bind] in H; [|discriminate].
    destruct (save_insight _ _ _ db) as [db1|e]; cbn [bind] in H; discriminate.
Qed.

(** X13 (generateUserInsights).  For a user without a completed attempt the
    run resolves to null and writes nothing; and a run resolves to null for
    such a user only. *)
Theorem no_completed_attempt_no_snapshot (env : Env) (userId : string) (db : DB) :
  ((forall a, In a (attempts db) -> QuizAttempt.user_id a = userId ->
              QuizAttempt.status a <> COMPLETED)
   -> generateUserInsights env userId db = Ok (db, None))
  /\ (forall db',
        generateUserInsights env userId db = Ok (db', None) ->
        db' = db
        /\ forall a, In a (attempts db) -> QuizAttempt.user_id a = userId ->
                     QuizAttempt.status a <> COMPLETED).
Proof.
  split.
  - intros H. apply (recent_completed_nil 19) in H.
    unfold generateUserInsights. rewrite H. reflexivity.
  - intros db' H. destruct (no_completed_run env userId db db' H) as [-> R].
    split; [reflexivity|]. apply (recent_completed_nil 19). exact R.
Qed.

Lemma no_completed_attempt_no_snapshot_witness :
  generateUserInsights Sample.env4 Sample.alice Sample.after_two
  = Ok (Sample.after_two, None).
Proof.
  destruct (no_completed_attempt_no_snapshot Sample.env4 Sample.alice Sample.after_two)
    as [H _].
  apply H. intros a I U. vm_compute in I. destruct I as [<-|[]]. discriminate.
Defined.

(** What a run that resolves to a snapshot did: the snapshot [saved] took
    the place of the user's first document, or was added when the user had
    none. *)
Lemma generate_saved (env : Env) (userId : string) (db db' : DB) (doc : MLInsight.t) :
  generateUserInsights env userId db = Ok (db', Some doc) ->
  exists a l t sc L,
    recent_completed 20 userId db = a :: l
    /\ tally_answers env (a :: l) db = Ok t
    /\ score_topics t = Ok sc
    /\ db' = with_insights db L
    /\ doc = returned_insight
               (updated_insight env userId (findOne (insight_of_user userId) (insights db)) sc)
               sc
    /\ find (insight_of_user userId) L
       = Some (updated_insight env userId (findOne (insight_of_user userId) (insights db)) sc)
    /\ ((exists old, findOne (insight_of_user userId) (insights db) = Some old
                     /\ L = replace_first (insight_of_user userId)
                              (updated_insight env userId (Some old) sc) (insights db))
        \/ (findOne (insight_of_user userId) (insights db) = None
            /\ L = insights db
                   ++ [updated_insight env userId None sc])).
Proof.
  unfold generateUserInsights.
  destruct (recent_completed 20 userId db) as [|a l] eqn:R; [discriminate|].
  destruct (tally_answers env (a :: l) db) as [t|e] eqn:T; cbn [bind]; [|discriminate].
  destruct (score_topics t) as [sc|e] eqn:SC; cbn [bind]; [|discriminate].
  destruct (findOne (insight_of_user userId) (insights db)) as [old|] eqn:F;
    unfold save_insight.
  - cbn [bind]. intros H. injection H as <- <-.
    exists a, l, t, sc,
      (replace_first (insight_of_user userId) (updated_insight env userId (Some old) sc)
         (insights db)).
    split; [reflexivity|]. split; [exact T|]. split; [exact SC|].
    do 2 (split; [reflexivity|]). split.
    + eapply find_replace_first; [exact F|].
      unfold insight_of_user. cbn. apply String.eqb_refl.
    + left. exists old. split; reflexivity.
  - destruct (existsb _ (insights db)); cbn [bind]; [discriminate|].
    intros H. injection H as <- <-.
    exists a, l, t, sc, (insights db ++ [updated_insight env userId None sc]).
    split; [reflexivity|]. split; [exact T|]. split; [exact SC|].
    do 2 (split; [reflexivity|]). split.
    + apply find_app_none; [exact F|].
      unfold insight_of_user. cbn. apply String.eqb_refl.
    + right. split; reflexivity.
Qed.

Lemma filter_others_replace_first {A : Type} (p : A -> bool) (x : A) (l : list A) :
  p x = true ->
  filter (fun a => negb (p a)) (replace_first p x l) = filter (fun a => negb (p a)) l.
Proof.
  intros X. induction l as [|a r IH]; simpl; [reflexivity|].
  destruct (p a) eqn:P; simpl.
  - rewrite X. reflexivity.
  - rewrite P. simpl. f_equal. exact IH.
Qed.

Lemma count_replace_first {A : Type} (p : A -> bool) (x : A) (l : list A) :
  p x = true ->
  countDocuments p (replace_first p x l) = countDocuments p l.
Proof.
  intros X. unfold countDocuments. induction l as [|a r IH]; simpl; [reflexivity|].
  destruct (p a) eqn:P; simpl.
  - rewrite X. reflexivity.
  - rewrite P. exact IH.
Qed.

Lemma count_found {A : Type} (p : A -> bool) (l : list A) :
  match find p l with
  | Some _ => 1 <= countDocuments p l
  | None => countDocuments p l = 0
  end.
Proof.
  unfold countDocuments. induction l as [|a r IH]; simpl; [reflexivity|].
  destruct (p a); simpl; [lia | exact IH].
Qed.

(** X14 (generateUserInsights).  A run writes to the insights of its user
    and to nothing else: the quizzes, questions, attempts, answers and badges
    and the insights of the other users are as before; and the user has one
    snapshot after the first run that resolves to one, and as many as before
    after the later ones (the snapshot found is replaced). *)
Theorem insight_run_writes_one_snapshot (env : Env) (userId : string) (db db' : DB)
    (result : option MLInsight.t) :
  generateUserInsights env userId db = Ok (db', result) ->
  quizzes db' = quizzes db
  /\ questions db' = questions db
  /\ attempts db' = attempts db
  /\ answers db' = answers db
  /\ user_badges db' = user_badges db
  /\ badges db' = badges db
  /\ insights_of_others userId db' = insights_of_others userId db
  /\ (result = None -> insights db' = insights db)
  /\ (result <> None ->
      countDocuments (insight_of_user userId) (insights db')
      = Nat.max 1 (countDocuments (insight_of_user userId) (insights db))).
Proof.
  intros H. destruct result as [doc|].
  - destruct (generate_saved env userId db db' doc H)
      as (a & l & t & sc & L & _ & _ & _ & -> & _ & _ & C).
    cbn [with_insights quizzes questions attempts answers user_badges badges insights].
    do 6 (split; [reflexivity|]).
    unfold insights_of_others. cbn [with_insights insights].
    pose proof (count_found (insight_of_user userId) (insights db)) as K.
    unfold findOne in C.
    destruct C as [(old & F & ->)|(F & ->)]; rewrite F in K; cbv beta iota in K.
    + split; [|split; [discriminate|]].
      * apply filter_others_replace_first. unfold insight_of_user. cbn.
        apply String.eqb_refl.
      * intros _. rewrite count_replace_first; [lia|].
        unfold insight_of_user. cbn. apply String.eqb_refl.
    + split; [|split; [discriminate|]].
      * rewrite filter_app. cbn [filter]. unfold insight_of_user at 2. cbn.
        rewrite String.eqb_refl. cbn. apply app_nil_r.
      * intros _. rewrite count_snoc, K. unfold insight_of_user. cbn.
        rewrite String.eqb_refl. reflexivity.
  - destruct (no_completed_run env userId db db' H) as [-> _].
    repeat split; try reflexivity. intros C. contradiction.
Qed.

Lemma insight_run_writes_one_snapshot_witness :
  attempts SampleInsights.saved_db = attempts Sample.after_three
  /\ countDocuments (insight_of_user Sample.alice) (insights SampleInsights.saved_db) = 1.
Proof.
  destruct (insight_run_writes_one_snapshot Sample.env4 Sample.alice Sample.after_three
              SampleInsights.saved_db (Some SampleInsights.snapshot))
    as (_ & _ & A & _ & _ & _ & _ & _ & C).
  - vm_compute. reflexivity.
  - split; [exact A|]. rewrite C by discriminate. vm_compute. reflexivity.
Defined.

(* ================================================================== *)
(** * Running the insights again *)

Lemma foldM_ext_in {A S : Type} (f g : S -> A -> Result S) (l : list A) :
  (forall x s, In x l -> f s x = g s x) ->
  forall s, foldM f l s = foldM g l s.
Proof.
  induction l as [|x r IH]; intros E s; cbn [foldM]; [reflexivity|].
  rewrite (E x s) by now left.
  destruct (g s x) as [s'|e]; cbn [bind]; [|reflexivity].
  apply IH. intros y s0 I. apply E. now right.
Qed.

(** The answers that are analysed belong to the attempts that are analysed:
    the clock is not read for their time. *)
Lemma answer_timestamp_found (env env' : Env) (attempts : list QuizAttempt.t)
    (answer : QuizAttemptAnswer.t) :
  existsb (String.eqb (QuizAttemptAnswer.attempt_id answer)) (map QuizAttempt.id attempts)
  = true ->
  answer_timestamp env' attempts answer = answer_timestamp env attempts answer.
Proof.
  intros X. unfold answer_timestamp.
  destruct (find (attempt_has_id (QuizAttemptAnswer.attempt_id answer)) attempts) eqn:F;
    [reflexivity|].
  exfalso. apply existsb_exists in X. destruct X as (i & I & E).
  apply String.eqb_eq in E. apply in_map_iff in I. destruct I as (a & <- & I).
  apply (find_none _ _ F) in I. unfold attempt_has_id in I.
  rewrite E, String.eqb_refl in I. discriminate.
Qed.

Lemma tally_answers_clock (env env' : Env) (attempts : list QuizAttempt.t) (db : DB) :
  tally_answers env' attempts db = tally_answers env attempts db.
Proof.
  unfold tally_answers. apply foldM_ext_in. intros x s I.
  unfold analysed_answers in I. apply filter_In in I. destruct I as [_ X].
  unfold process_answer, detail_of.
  rewrite (answer_timestamp_found env env' attempts x X). reflexivity.
Qed.

Lemma replace_first_found {A : Type} (p : A -> bool) (x : A) (l : list A) :
  find p l = Some x -> replace_first p x l = l.
Proof.
  induction l as [|a r IH]; simpl; [reflexivity|].
  destruct (p a); intros F; [now injection F as -> | now rewrite IH].
Qed.

(** X15 (generateUserInsights).  A second run over the same attempts and
    answers gives the same snapshot with a new date: it resolves, it
    replaces the stored snapshot by itself with the date of the run, and it
    adds no document; at the same instant it changes nothing at all. *)
Theorem insight_rerun_changes_the_date_only (env env' : Env) (userId : string)
    (db db' : DB) (doc : MLInsight.t) :
  generateUserInsights env userId db = Ok (db', Some doc) ->
  exists saved,
    findOne (insight_of_user userId) (insights db') = Some saved
    /\ generateUserInsights env' userId db'
       = Ok (with_insights db'
               (replace_first (insight_of_user userId) (dated (now env') saved)
                  (insights db')),
             Some (dated (now env') doc))
    /\ (now env' = now env -> generateUserInsights env' userId db' = Ok (db', Some doc)).
Proof.
  intros H.
  destruct (generate_saved env userId db db' doc H)
    as (a & l & t & sc & L & R & T & SC & -> & -> & F & _).
  set (saved := updated_insight env userId (findOne (insight_of_user userId) (insights db)) sc)
    in *.
  exists saved. split; [exact F|].
  assert (generateUserInsights env' userId (with_insights db L)
          = Ok (with_insights (with_insights db L)
                  (replace_first (insight_of_user userId) (dated (now env') saved) L),
                Some (dated (now env') (returned_insight saved sc)))) as E.
  { unfold generateUserInsights.
    change (recent_completed 20 userId (with_insights db L))
      with (recent_completed 20 userId db).
    rewrite R.
    change (tally_answers env' (a :: l) (with_insights db L))
      with (tally_answers env' (a :: l) db).
    rewrite (tally_answers_clock env env'), T. cbn [bind]. rewrite SC. cbn [bind].
    cbn [with_insights insights]. unfold findOne. rewrite F.
    unfold save_insight. cbn [bind]. reflexivity. }
  split; [exact E|].
  intros N. rewrite E, N.
  assert (dated (now env) saved = saved) as -> by reflexivity.
  assert (dated (now env) (returned_insight saved sc) = returned_insight saved sc) as ->
    by reflexivity.
  rewrite replace_first_found by exact F. reflexivity.
Qed.

Lemma insight_rerun_changes_the_date_only_witness :
  generateUserInsights Sample.env4 Sample.alice SampleInsights.saved_db
  = Ok (SampleInsights.saved_db, Some SampleInsights.snapshot).
Proof.
  destruct (insight_rerun_changes_the_date_only Sample.env4 Sample.env4 Sample.alice
              Sample.after_three SampleInsights.saved_db SampleInsights.snapshot)
    as (saved & _ & _ & S).
  - vm_compute. reflexivity.
  - apply S. reflexivity.
Defined.

(* ================================================================== *)
(** * The scores on the dashboard *)

Lemma validate_scores_valid (o : Obj.t jsval) (k : string) (v : jsval) :
  In (k, v) (validate_scores o) -> invalid_score v = false.
Proof.
  unfold validate_scores. intros I. apply in_map_iff in I.
  destruct I as ([k0 v0] & E & _). cbn [fst snd] in E.
  destruct (invalid_score v0) eqn:X; injection E as _ <-; [reflexivity | exact X].
Qed.

(** X16 (getDashboardData).  Whatever the stored snapshot holds, every score
    the dashboard sends under [topic_proficiency] and under [weak_topics] is
    a number that is not NaN, not below 0 and not above 100. *)
Theorem dashboard_scores_are_valid (userId requestingUserId : string) (db : DB)
    (data : DashboardData.t) (k : string) (v : jsval) :
  getDashboardData userId requestingUserId db = DashboardOk data ->
  In (k, v) (DashboardData.topic_proficiency data)
  \/ In (k, v) (DashboardData.weak_topics data) ->
  exists x,
    v = VNum x /\ isNaN x = false /\ ltb x zero = false /\ ltb 100%float x = false.
Proof.
  unfold getDashboardData. destruct (negb _); [discriminate|].
  intros H. injection H as <-.
  cbn [DashboardData.topic_proficiency DashboardData.weak_topics].
  intros I.
  assert (invalid_score v = false) as X
    by (destruct I as [I|I]; apply validate_scores_valid in I; exact I).
  destruct v as [x|]; [|discriminate]. exists x. cbn [invalid_score] in X.
  apply orb_false_iff in X. destruct X as [X C]. apply orb_false_iff in X.
  destruct X as [A B]. auto.
Qed.

Lemma dashboard_scores_are_valid_witness :
  exists x,
    VNum zero = VNum x /\ isNaN x = false /\ ltb x zero = false /\ ltb 100%float x = false.
Proof.
  destruct (getDashboardData Sample.alice Sample.alice
              (with_insights Sample.catalog
                 [MLInsight.mk "i-1" Sample.alice [] [] [] [("Algebra", 250%float)] 0%Z
                    None None]))
    as [data|status message] eqn:G.
  - apply (dashboard_scores_are_valid _ _ _ data "Algebra" (VNum zero) G).
    left. vm_compute in G. injection G as <-. left. reflexivity.
  - vm_compute in G. discriminate.
Defined.

(* ================================================================== *)
(** * The range of the confidence *)

Lemma SFcompare_antisym (a b : spec_float) :
  SFcompare b a = option_map CompOpp (SFcompare a b).
Proof.
  destruct a as [s1| s1| |s1 m1 e1], b as [s2|s2| |s2 m2 e2]; simpl;
    try destruct s1; try destruct s2; try reflexivity;
    rewrite (Z.compare_antisym e1 e2); destruct (e1 ?= e2)%Z; simpl; try reflexivity;
    change (PosDef.Pos.compare_cont Eq m2 m1) with (Pos.compare m2 m1);
    change (PosDef.Pos.compare_cont Eq m1 m2) with (Pos.compare m1 m2);
    rewrite (Pos.compare_antisym m1 m2); destruct (m1 ?= m2)%positive; reflexivity.
Qed.

Lemma SFcompare_none (a b : spec_float) :
  SFcompare a b = None -> a = S754_nan \/ b = S754_nan.
Proof.
  destruct a, b; simpl; try discriminate; auto.
Qed.

Lemma SFcompare_refl (a : spec_float) :
  a <> S754_nan -> SFcompare a a = Some Eq.
Proof.
  destruct a as [s|s| |s m e]; simpl; intros N; try reflexivity; try contradiction.
  - destruct s; reflexivity.
  - rewrite Z.compare_refl.
    change (PosDef.Pos.compare_cont Eq m m) with (Pos.compare m m).
    rewrite Pos.compare_refl. destruct s; reflexivity.
Qed.

Lemma is_nan_spec (x : float) : is_nan x = true <-> Prim2SF x = S754_nan.
Proof.
  unfold is_nan. rewrite eqb_spec. unfold SFeqb. split.
  - intros H. destruct (Prim2SF x) eqn:E; try reflexivity;
      rewrite SFcompare_refl in H by discriminate; discriminate.
  - intros ->. reflexivity.
Qed.

Lemma ltb_leb (a b : float) : ltb a b = true -> leb a b = true.
Proof.
  rewrite ltb_spec, leb_spec. unfold SFltb, SFleb.
  destruct (SFcompare _ _) as [[]|]; auto.
Qed.

Lemma leb_not_ltb (a b : float) : leb a b = true -> ltb b a = false.
Proof.
  rewrite ltb_spec, leb_spec. unfold SFltb, SFleb.
  rewrite (SFcompare_antisym (Prim2SF a) (Prim2SF b)).
  destruct (SFcompare _ _) as [[]|]; simpl; auto.
Qed.

Lemma nan_not_ltb (a b : float) :
  is_nan a = true -> ltb a b = false /\ ltb b a = false.
Proof.
  intros N. apply is_nan_spec in N. rewrite !ltb_spec. unfold SFltb. rewrite N.
  simpl. destruct (Prim2SF b); auto.
Qed.

Lemma neither_below (a b : float) :
  is_nan a = false -> is_nan b = false ->
  ltb a b = false -> ltb b a = false -> leb a b = true.
Proof.
  intros A B. rewrite !ltb_spec, leb_spec. unfold SFltb, SFleb.
  rewrite (SFcompare_antisym (Prim2SF a) (Prim2SF b)).
  destruct (SFcompare (Prim2SF a) (Prim2SF b)) as [[]|] eqn:C; simpl; auto.
  intros _ _. apply SFcompare_none in C.
  destruct C as [C|C]; apply is_nan_spec in C; congruence.
Qed.

(** [Math.max(0, Math.min(100, x))] is never below 0 and never above 100;
    it is NaN for NaN only. *)
Lemma clamp_range (x : Number) :
  ltb (clamp_0_100 x) zero = false
  /\ ltb 100%float (clamp_0_100 x) = false
  /\ is_nan (clamp_0_100 x) = is_nan x
  /\ (is_nan x = false ->
      leb zero (clamp_0_100 x) = true /\ leb (clamp_0_100 x) 100%float = true).
Proof.
  unfold clamp_0_100.
  destruct (is_nan x) eqn:N.
  - assert (Math_min 100%float x = nan) as ->.
    { unfold Math_min. rewrite N, orb_true_r. reflexivity. }
    vm_compute. repeat split; discriminate.
  - assert (exists r, Math_min 100%float x = r /\ is_nan r = false
                      /\ leb r 100%float = true) as (r & -> & NR & LR).
    { unfold Math_min. rewrite N.
      change (is_nan 100%float) with false. cbn [orb].
      destruct (ltb 100%float x) eqn:L1.
      - eexists. split; [reflexivity|]. split; vm_compute; reflexivity.
      - destruct (ltb x 100%float) eqn:L2.
        + eexists. split; [reflexivity|]. split; [exact N | apply ltb_leb; exact L2].
        + change (get_sign 100%float) with false. cbv iota.
          eexists. split; [reflexivity|]. split; [exact N|].
          apply neither_below; auto. }
    unfold Math_max. rewrite NR. change (is_nan zero) with false. cbn [orb].
    destruct (ltb zero r) eqn:L1.
    + pose proof (ltb_leb _ _ L1) as L0.
      split; [apply leb_not_ltb; exact L0|].
      split; [apply leb_not_ltb; exact LR|].
      split; [exact NR|]. intros _. split; assumption.
    + destruct (ltb r zero); [|change (get_sign zero) with false; cbv iota];
        vm_compute; repeat split.
Qed.

(** X17 (generateUserInsights).  A confidence score of the snapshot is never
    below 0 and never above 100, and when it is a number (not NaN) it is at
    least 0 and at most 100; the stored snapshot has the same scores. *)
Theorem confidence_between_0_and_100 (env : Env) (userId : string)
    (db db' : DB) (doc : MLInsight.t) (topic : string) (c : Number) :
  generateUserInsights env userId db = Ok (db', Some doc) ->
  Obj.own (MLInsight.confidence_scores doc) topic = Some c ->
  ltb c zero = false
  /\ ltb 100%float c = false
  /\ (is_nan c = false -> leb zero c = true /\ leb c 100%float = true)
  /\ (exists saved,
        findOne (insight_of_user userId) (insights db') = Some saved
        /\ MLInsight.confidence_scores saved = MLInsight.confidence_scores doc).
Proof.
  intros H O.
  destruct (generate_snapshot env userId db db' doc H) as (t & sc & saved & T & SC & ES & ED & F).
  destruct (tally_answers_spec env userId db t T) as (TO & N).
  destruct (score_topics_spec _ t sc TO N SC) as (E & P).
  assert (MLInsight.confidence_scores doc = confidenceScores sc) as X by (subst; reflexivity).
  rewrite X in O.
  assert (3 <= List.length (details_of topic (graded_answers env userId db))) as L.
  { apply E. right. left. rewrite O. discriminate. }
  destruct (P topic L) as (_ & C). rewrite C in O. injection O as <-.
  unfold confidence_from.
  match goal with
  | |- context [clamp_0_100 ?y] => destruct (clamp_range y) as (A & B & NC & R)
  end.
  split; [exact A|]. split; [exact B|]. split.
  - intros NN. apply R. rewrite <- NC. exact NN.
  - exists saved. split; [exact F|]. rewrite X. subst saved. reflexivity.
Qed.

Lemma confidence_between_0_and_100_witness :
  ltb 60%float zero = false /\ ltb 100%float 60%float = false.
Proof.
  destruct (confidence_between_0_and_100 Sample.env4 Sample.alice Sample.after_three
              SampleInsights.saved_db SampleInsights.snapshot "Algebra" 60%float)
    as (A & B & _).
  - vm_compute. reflexivity.
  - vm_compute. reflexivity.
  - split; [exact A | exact B].
Defined.

(* ================================================================== *)
(** * A topic that names a property of [Object.prototype] *)

Lemma process_answer_throws (env : Env) (attempts : list QuizAttempt.t)
    (questionMap : Obj.t Question.t) (quizMap : Obj.t Quiz.t)
    (t : Tally) (answer : QuizAttemptAnswer.t) (e : Error) :
  process_answer env attempts questionMap quizMap t answer = Throw e ->
  e = not_a_function "topicAttempts[topic].push".
Proof.
  unfold process_answer.
  destruct (topic_of_answer questionMap quizMap answer) as [[topic quiz]|]; [|discriminate].
  destruct (Obj.inherited topic); [|discriminate].
  intros H. now injection H as <-.
Qed.

Lemma tally_rejects (env : Env) (attempts : list QuizAttempt.t)
    (questionMap : Obj.t Question.t) (quizMap : Obj.t Quiz.t)
    (answers : list QuizAttemptAnswer.t) (topic : string) (d : AttemptDetail) :
  In (topic, d) (graded env attempts questionMap quizMap answers) ->
  Obj.inherited topic = true ->
  forall t,
  foldM (process_answer env attempts questionMap quizMap) answers t
  = Throw (not_a_function "topicAttempts[topic].push").
Proof.
  intros I X. induction answers as [|a answers IH]; intros t; [contradiction|].
  cbn [foldM].
  destruct (process_answer env attempts questionMap quizMap t a) as [t1|e] eqn:P.
  - cbn [bind]. apply IH. unfold graded in I. cbn [flat_map] in I.
    apply in_app_or in I. destruct I as [I|I]; [|exact I].
    exfalso. unfold graded_answer in I. unfold process_answer in P.
    destruct (topic_of_answer questionMap quizMap a) as [[topic0 quiz]|]; [|contradiction].
    destruct I as [I|[]]. injection I as -> _. rewrite X in P. discriminate.
  - cbn [bind]. apply process_answer_throws in P. now subst.
Qed.

Lemma filter_none {A : Type} (l : list A) : filter (fun _ => false) l = [].
Proof. induction l as [|x r IH]; [reflexivity | exact IH]. Qed.

(** X18 (generateUserInsights).  When one of the answers that are graded
    belongs to a quiz whose topic is the name of a property of
    [Object.prototype] ("constructor", "toString", ...), the run rejects with
    a TypeError and no snapshot is written. *)
Theorem prototype_topic_rejects (env : Env) (userId : string) (db : DB)
    (topic : string) (d : AttemptDetail) :
  In (topic, d) (graded_answers env userId db) ->
  Obj.inherited topic = true ->
  generateUserInsights env userId db
  = Throw (not_a_function "topicAttempts[topic].push").
Proof.
  intros I X. unfold generateUserInsights.
  destruct (recent_completed 20 userId db) as [|a l] eqn:R.
  - exfalso. unfold graded_answers in I. rewrite R in I.
    unfold analysed_answers in I. cbn [map existsb] in I.
    rewrite filter_none in I. exact I.
  - unfold graded_answers in I. rewrite R in I. unfold tally_answers.
    rewrite (tally_rejects _ _ _ _ _ topic d I X). reflexivity.
Qed.

Lemma prototype_topic_rejects_witness :
  generateUserInsights Sample.env4 Sample.alice SampleConstructor.db
  = Throw (not_a_function "topicAttempts[topic].push").
Proof.
  apply (prototype_topic_rejects Sample.env4 Sample.alice SampleConstructor.db
           "constructor" (mkDetail true 2100%Z EASY 1.0%float)).
  - vm_compute. left. reflexivity.
  - vm_compute. reflexivity.
Defined.

(* ================================================================== *)
(** * Requests that are refused *)

(** X19 (submitQuizAnswer, createQuizAttempt, deleteQuizAttempt, deleteQuiz,
    deleteBadge).  A request that is answered with an error has written
    nothing, and has started no insight run: the database is as it was
    before the request. *)
Theorem refused_requests_write_nothing (db : DB) :
  (forall env req status message,
     out_response (submitQuizAnswer env req db) = SubmitError status message ->
     out_db (submitQuizAnswer env req db) = db
     /\ out_insights_for (submitQuizAnswer env req db) = None)
  /\ (forall env req status message,
        out_response (createQuizAttempt env req db) = CreateError status message ->
        out_db (createQuizAttempt env req db) = db
        /\ out_insights_for (createQuizAttempt env req db) = None)
  /\ (forall id user_id,
        msg_status (snd (deleteQuizAttempt id user_id db)) <> 200 ->
        fst (deleteQuizAttempt id user_id db) = db)
  /\ (forall id status message,
        snd (deleteQuiz id db) = QuizError status message ->
        fst (deleteQuiz id db) = db)
  /\ (forall id,
        msg_status (snd (deleteBadge id db)) <> 200 ->
        fst (deleteBadge id db) = db).
Proof.
  split; [intros env req status message; apply submit_error_unchanged|].
  split; [intros env req status message; apply create_error_unchanged|].
  split; [|split].
  - intros id user_id. unfold deleteQuizAttempt.
    destruct (findOne _ (attempts db)); [|reflexivity].
    destruct (negb _); [reflexivity|]. cbn. intros C. contradiction.
  - intros id status message. unfold deleteQuiz.
    destruct id; [reflexivity|].
    destruct (findOne _ (quizzes db)); [discriminate | reflexivity].
  - intros id. unfold deleteBadge.
    destruct (findOne _ (badges db)); [|reflexivity].
    cbn. intros C. contradiction.
Qed.

Lemma refused_requests_write_nothing_witness :
  out_db (submitQuizAnswer Sample.env4 (Sample.answer_to "b-1" "X") Sample.after_two)
  = Sample.after_two.
Proof.
  destruct (refused_requests_write_nothing Sample.after_two) as (S & _).
  destruct (S Sample.env4 (Sample.answer_to "b-1" "X") 400
              "This question does not belong to the attempted quiz") as [D _].
  - vm_compute. reflexivity.
  - exact D.
Defined.

(* ================================================================== *)
(** * A bulk submission without answers *)

(** X20 (createQuizAttempt).  For an existing quiz, a bulk submission whose
    [answers] is an empty array is accepted: a completed attempt with the
    numbers of the request is stored, no answer is stored with it, and an
    insight run is started for the user.  A submission whose body has no
    [answers] array is answered 500 and nothing is stored. *)
Theorem bulk_without_answers (env : Env) (req : CreateReq.t) (db : DB)
    (quiz_id : string) (quiz : Quiz.t) :
  CreateReq.quiz_id req = Some quiz_id ->
  isValidUUID quiz_id = true ->
  findOne (fun q => String.eqb (Quiz.id q) quiz_id) (quizzes db) = Some quiz ->
  (CreateReq.answers req = Some [] ->
   find (attempt_has_id (uuidv4 env 0)) (attempts db) = None ->
   createQuizAttempt env req db
   = mkOutcome (with_attempts db (attempts db ++ [new_attempt env req quiz_id]))
       (CreateCreated (new_attempt env req quiz_id))
       (Some (CreateReq.user_id req)))
  /\ (CreateReq.answers req = None ->
      out_db (createQuizAttempt env req db) = db
      /\ exists message,
           out_response (createQuizAttempt env req db) = CreateError 500 message).
Proof.
  intros Q V F.
  destruct (uuid_is_trimmed quiz_id V) as (_ & _ & B).
  unfold createQuizAttempt. rewrite Q, B, V, F. cbn [negb].
  unfold withTransaction, create_transaction, insert_attempt.
  split.
  - intros A Fresh. rewrite A.
    assert (existsb (fun b => String.eqb (QuizAttempt.id (new_attempt env req quiz_id))
                                (QuizAttempt.id b)) (attempts db) = false) as ->.
    { destruct (existsb _ (attempts db)) eqn:X; [|reflexivity].
      apply existsb_exists in X. destruct X as (b & I & E).
      apply (find_none _ _ Fresh) in I. unfold attempt_has_id in I.
      cbn [new_attempt QuizAttempt.id] in E. rewrite String.eqb_sym in E. congruence. }
    reflexivity.
  - intros A. rewrite A.
    destruct (existsb _ (attempts db)); cbn; split; eauto.
Qed.

Lemma bulk_without_answers_witness :
  createQuizAttempt Sample.env4
    (CreateReq.mk (Some Sample.algebra_id) (Some 100%float) None None None (Some [])
       Sample.alice)
    Sample.catalog
  = mkOutcome
      (with_attempts Sample.catalog
         [new_attempt Sample.env4
            (CreateReq.mk (Some Sample.algebra_id) (Some 100%float) None None None (Some [])
               Sample.alice)
            Sample.algebra_id])
      (CreateCreated
         (new_attempt Sample.env4
            (CreateReq.mk (Some Sample.algebra_id) (Some 100%float) None None None (Some [])
               Sample.alice)
            Sample.algebra_id))
      (Some Sample.alice).
Proof.
  destruct (bulk_without_answers Sample.env4
              (CreateReq.mk (Some Sample.algebra_id) (Some 100%float) None None None
                 (Some []) Sample.alice)
              Sample.catalog Sample.algebra_id Sample.algebra) as [E _].
  - reflexivity.
  - vm_compute. reflexivity.
  - vm_compute. reflexivity.
  - apply E; reflexivity.
Defined.

(* ================================================================== *)
(** * The dashboard after an insight run *)

Lemma filter_not_found {A : Type} (p : A -> bool) (l : list A) :
  find p l = None -> filter p l = [].
Proof.
  induction l as [|a r IH]; simpl; [reflexivity|].
  destruct (p a); [discriminate | exact IH].
Qed.

Lemma filter_replace_only {A : Type} (p : A -> bool) (x y : A) (l : list A) :
  p x = true ->
  find p l = Some y ->
  countDocuments p l <= 1 ->
  filter p (replace_first p x l) = [x].
Proof.
  intros X. unfold countDocuments. induction l as [|a r IH]; simpl; [discriminate|].
  destruct (p a) eqn:P; simpl.
  - intros _ C. rewrite X. f_equal.
    destruct (filter p r); [reflexivity | simpl in C; lia].
  - rewrite P. exact IH.
Qed.

(** X21 (generateUserInsights, getDashboardData).  After a run that resolves
    to a snapshot, for a user with at most one stored snapshot (and none with
    a stored [topic_proficiency]), the dashboard shows this snapshot: its
    weak and strong topics, its confidence scores, the date of the run, and
    as proficiency the [topic_performance] of the snapshot, topic by topic,
    with 0 in the place of a score that is not a number within 0 and 100. *)
Theorem dashboard_shows_the_new_snapshot (env : Env) (userId : string)
    (db db' : DB) (doc : MLInsight.t) :
  generateUserInsights env userId db = Ok (db', Some doc) ->
  countDocuments (insight_of_user userId) (insights db) <= 1 ->
  (forall old, findOne (insight_of_user userId) (insights db) = Some old ->
               MLInsight.topic_proficiency old = None) ->
  exists data,
    getDashboardData userId userId db' = DashboardOk data
    /\ DashboardData.weak_topics_array data = MLInsight.weak_topics doc
    /\ DashboardData.strong_topics data = MLInsight.strong_topics doc
    /\ DashboardData.confidence_scores data = MLInsight.confidence_scores doc
    /\ DashboardData.insight_last_updated data = Some (now env)
    /\ Obj.keys (DashboardData.topic_proficiency data)
       = Obj.keys (MLInsight.topic_performance doc)
    /\ forall k x,
         Obj.own (MLInsight.topic_performance doc) k = Some x ->
         Obj.own (DashboardData.topic_proficiency data) k
         = Some (VNum (if invalid_score (VNum x) then zero else x)).
Proof.
  intros H C P.
  destruct (generate_saved env userId db db' doc H)
    as (a & l & t & sc & L & _ & _ & _ & -> & -> & _ & S).
  set (saved := updated_insight env userId (findOne (insight_of_user userId) (insights db)) sc)
    in *.
  assert (insight_of_user userId saved = true) as U
    by (unfold insight_of_user; cbn; apply String.eqb_refl).
  assert (filter (insight_of_user userId) L = [saved]) as F.
  { destruct S as [(old & F & ->)|(F & ->)].
    - unfold saved. rewrite F. eapply filter_replace_only; [|exact F|exact C].
      rewrite <- F. exact U.
    - unfold saved in *. rewrite F in *.
      rewrite filter_app, (filter_not_found _ _ F). cbn [filter app].
      rewrite U. reflexivity. }
  assert (MLInsight.topic_proficiency saved = None) as TP.
  { unfold saved, updated_insight. cbn [MLInsight.topic_proficiency].
    destruct (findOne (insight_of_user userId) (insights db)) as [old|] eqn:O;
      [apply P; reflexivity | reflexivity]. }
  unfold getDashboardData. rewrite String.eqb_refl. cbn [negb].
  assert (latest_insight userId (with_insights db L) = Some saved) as ->.
  { unfold latest_insight. cbn [with_insights insights]. rewrite F. reflexivity. }
  eexists. split; [reflexivity|].
  cbn [DashboardData.weak_topics_array DashboardData.strong_topics
       DashboardData.confidence_scores DashboardData.insight_last_updated
       DashboardData.topic_proficiency].
  do 4 (split; [reflexivity|]).
  unfold dashboard_proficiency. rewrite TP.
  apply validate_scores_numbers.
Qed.

Lemma dashboard_shows_the_new_snapshot_witness :
  exists data,
    getDashboardData Sample.alice Sample.alice SampleInsights.saved_db = DashboardOk data
    /\ DashboardData.insight_last_updated data = Some 3004%Z
    /\ Obj.own (DashboardData.topic_proficiency data) "Algebra" = Some (VNum 67%float).
Proof.
  destruct (dashboard_shows_the_new_snapshot Sample.env4 Sample.alice Sample.after_three
              SampleInsights.saved_db SampleInsights.snapshot)
    as (data & G & _ & _ & _ & D & _ & O).
  - vm_compute. reflexivity.
  - vm_compute. repeat constructor.
  - intros old F. vm_compute in F. discriminate.
  - exists data. split; [exact G|]. split; [exact D|].
    apply (O "Algebra" 67%float). vm_compute. reflexivity.
Defined.

(* ================================================================== *)
(** * The client's grading and the server's *)

Lemma map_JStr_inj (a b : list string) : map JStr a = map JStr b -> a = b.
Proof.
  revert b. induction a as [|x a IH]; intros [|y b] H; try discriminate; [reflexivity|].
  simpl in H. injection H as -> H. f_equal. now apply IH.
Qed.

Lemma includes_In (l : list string) (x : string) :
  Client.includes l x = true <-> In x l.
Proof.
  unfold Client.includes. rewrite existsb_exists. split.
  - intros (y & I & E). apply String.eqb_eq in E. now subst.
  - intros I. exists x. split; [exact I | apply String.eqb_refl].
Qed.

Lemma set_size_same (a b : list string) :
  (forall x, In x a <-> In x b) -> Client.set_size a = Client.set_size b.
Proof.
  intros E. unfold Client.set_size. apply Nat.le_antisymm;
    apply NoDup_incl_length; try apply NoDup_nodup;
    intros x I; apply nodup_In; apply nodup_In in I; now apply E.
Qed.

Lemma multi_select_same_set (question : Client.QuizQuestion) (selected : list string) :
  Client.question_type question = "MULTI_SELECT" ->
  (Client.isAnswerCorrect question selected = true
   <-> forall x, In x selected <-> In x (Client.correct_answer question)).
Proof.
  intros T. unfold Client.isAnswerCorrect. rewrite T. cbn [String.eqb Ascii.eqb Bool.eqb].
  cbv iota beta.
  rewrite andb_true_iff, Nat.eqb_eq, forallb_forall. split.
  - intros [S F] x. split.
    + intros I. apply includes_In. now apply F.
    + intros I.
      assert (incl (nodup string_dec (Client.correct_answer question))
                   (nodup string_dec selected)) as C.
      { apply NoDup_length_incl.
        - apply NoDup_nodup.
        - unfold Client.set_size in S. lia.
        - intros y Y. apply nodup_In. apply nodup_In in Y. apply includes_In.
          now apply F. }
      apply (nodup_In string_dec). apply C. now apply nodup_In.
  - intros E. split; [now apply set_size_same|].
    intros x I. apply includes_In. now apply E.
Qed.

(** X22 (isAnswerCorrect of the client, and the correctness flag of
    createQuizAttempt and submitQuizAnswer).  For the answer the client
    sends, the server's flag is true exactly when the selected answers are
    the correct answers in the same order, while the client counts a
    multi-select answer as correct when it has the same elements in any
    order, and a single-choice answer when its first element is one of the
    correct answers.  An answer the server flags as correct is correct for
    the client (the correct answers of a single-choice question not being
    empty), but a multi-select answer in another order is counted by the
    client and flagged false by the server. *)
Theorem client_and_server_grading (question : Client.QuizQuestion)
    (selected : list string) :
  let correct := Client.correct_answer question in
  let server := answer_is_correct (Some (JArr (map JStr selected))) correct in
  let client := Client.isAnswerCorrect question selected in
  (server = true <-> selected = correct)
  /\ (Client.question_type question = "MULTI_SELECT" ->
      (client = true <-> forall x, In x selected <-> In x correct))
  /\ (Client.question_type question = "MCQ" ->
      (client = true <-> exists first rest, selected = first :: rest /\ In first correct))
  /\ (server = true ->
      Client.question_type question = "MULTI_SELECT"
      \/ (Client.question_type question = "MCQ" /\ correct <> []) ->
      client = true)
  /\ (Client.question_type question = "MULTI_SELECT" ->
      Permutation selected correct -> selected <> correct ->
      client = true /\ server = false).
Proof.
  intros correct server client.
  assert (server = true <-> selected = correct) as S.
  { unfold server. rewrite answer_is_correct_iff. split.
    - intros H. injection H as H. now apply map_JStr_inj.
    - intros ->. reflexivity. }
  assert (Client.question_type question = "MCQ" ->
          (client = true
           <-> exists first rest, selected = first :: rest /\ In first correct)) as M.
  { intros T. unfold client, Client.isAnswerCorrect. rewrite T.
    cbn [String.eqb Ascii.eqb Bool.eqb]. cbv iota beta.
    destruct selected as [|first rest].
    - split; [discriminate|]. intros (f & r & E & _). discriminate.
    - rewrite includes_In. split.
      + intros I. now exists first, rest.
      + intros (f & r & E & I). now injection E as -> _. }
  split; [exact S|]. split; [apply multi_select_same_set|]. split; [exact M|]. split.
  - intros SV [T|[T N]]; apply S in SV.
    + apply (multi_select_same_set question selected T). intros x. now rewrite SV.
    + apply (M T). rewrite SV. destruct correct as [|first rest]; [contradiction|].
      exists first, rest. split; [reflexivity | now left].
  - intros T P N. split.
    + apply (multi_select_same_set question selected T). intros x. split.
      * apply Permutation_in. exact P.
      * apply Permutation_in. now apply Permutation_sym.
    + destruct server; [|reflexivity]. exfalso. apply N. now apply S.
Qed.

Lemma client_and_server_grading_witness :
  Client.isAnswerCorrect (Client.mkQuestion "b-1" Sample.biology_id "MULTI_SELECT" ["X"; "Y"])
    ["Y"; "X"] = true
  /\ answer_is_correct (Some (JArr (map JStr ["Y"; "X"]))) ["X"; "Y"] = false.
Proof.
  destruct (client_and_server_grading
              (Client.mkQuestion "b-1" Sample.biology_id "MULTI_SELECT" ["X"; "Y"])
              ["Y"; "X"]) as (_ & _ & _ & _ & D).
  apply D.
  - reflexivity.
  - apply perm_swap.
  - discriminate.
Defined.

(* ================================================================== *)
(** * The attempt the client submits *)

Lemma finalAnswers_length (quizData : list Client.QuizQuestion)
    (userAnswers : list (option (list string))) :
  forall index,
  List.length (Client.finalAnswers_from index quizData userAnswers) = List.length quizData.
Proof.
  induction quizData as [|q r IH]; intros index; simpl; [reflexivity|].
  now rewrite IH.
Qed.

Lemma finalAnswers_questions (quizData : list Client.QuizQuestion)
    (userAnswers : list (option (list string))) :
  forall index,
  map Client.question_id (Client.finalAnswers_from index quizData userAnswers)
  = map Client.id quizData.
Proof.
  induction quizData as [|q r IH]; intros index; simpl; [reflexivity|].
  now rewrite IH.
Qed.

Lemma graded_copies_of_final (db : DB) (quiz_id attempt_id : string)
    (l : list Client.FinalAnswer) :
  forall docs,
  Forall2 (graded_copy db quiz_id attempt_id)
    (map (fun a => AnswerInput.mk (Some (Client.question_id a))
                     (Some (JArr (map JStr (Client.selected_answer a))))) l)
    docs ->
  map QuizAttemptAnswer.question_id docs = map Client.question_id l
  /\ Forall (fun doc => QuizAttemptAnswer.attempt_id doc = attempt_id) docs.
Proof.
  induction l as [|a l IH]; intros docs G; inversion G as [|i doc li ld G0 G']; subst.
  - split; [reflexivity | constructor].
  - destruct (IH ld G') as [M F].
    destruct G0 as (question & V & _ & _ & AT & _).
    cbn [AnswerInput.question_id valid_question_id] in V.
    split.
    + simpl. f_equal; [|exact M].
      destruct (Client.question_id a); [discriminate | now injection V as <-].
    + constructor; [exact AT | exact F].
Qed.

(** X23 (submitQuiz of the client, with createQuizAttempt).  The attempt
    that is stored for a quiz completed in the client is completed, has as
    [total_questions] the number of questions the client held, as
    [correct_answers] the number of answers the client counted as correct,
    and as score the rounded percentage the client computed from the two
    (null when that is not a finite number); one answer is stored per
    question, in the order of the questions. *)
Theorem client_attempt_has_the_rounded_score (env : Env) (user_id quiz_id : string)
    (quizData : list Client.QuizQuestion) (userAnswers : list (option (list string)))
    (timeTaken : Number) (db : DB) (d : Client.AttemptData) (att : QuizAttempt.t) :
  Client.attemptData quiz_id quizData userAnswers timeTaken = Some d ->
  out_response (createQuizAttempt env (Client.request_of user_id d) db) = CreateCreated att ->
  let n := List.length quizData in
  let c := List.length (filter Client.is_correct
                          (Client.finalAnswers_from 0 quizData userAnswers)) in
  QuizAttempt.status att = COMPLETED
  /\ QuizAttempt.quiz_id att = quiz_id
  /\ QuizAttempt.total_questions att = Some (Number_of_nat n)
  /\ QuizAttempt.correct_answers att = Some (Number_of_nat c)
  /\ QuizAttempt.score att
     = Client.sent_number (Math_round (Number_of_nat c / Number_of_nat n * 100)%float)
  /\ c <= n
  /\ exists docs,
       answers (out_db (createQuizAttempt env (Client.request_of user_id d) db))
       = answers db ++ docs
       /\ map QuizAttemptAnswer.question_id docs = map Client.id quizData
       /\ Forall (fun doc => QuizAttemptAnswer.attempt_id doc = QuizAttempt.id att) docs.
Proof.
  intros D H n c.
  assert (d = Client.mkAttemptData quiz_id
                (Math_round (Number_of_nat c / Number_of_nat n * 100)%float)
                n c timeTaken (Client.finalAnswers_from 0 quizData userAnswers)) as ->.
  { unfold Client.attemptData in D. destruct quiz_id; [discriminate|].
    now injection D as <-. }
  destruct (create_created env _ db att H) as (q & inputs & docs & Q & A & E & O & G).
  cbn [Client.request_of CreateReq.quiz_id CreateReq.answers Client.data_quiz_id
       Client.data_answers] in Q, A.
  injection Q as <-. injection A as <-.
  subst att. cbn [new_attempt QuizAttempt.status QuizAttempt.quiz_id
                  QuizAttempt.total_questions QuizAttempt.correct_answers
                  QuizAttempt.score Client.request_of CreateReq.score
                  CreateReq.total_questions CreateReq.correct_answers
                  Client.data_score Client.data_total_questions
                  Client.data_correct_answers].
  do 5 (split; [reflexivity|]).
  split.
  { unfold c, n. rewrite <- (finalAnswers_length quizData userAnswers 0).
    apply filter_length_le. }
  exists docs. rewrite O. cbn [with_answers answers]. split; [reflexivity|].
  rewrite <- (finalAnswers_questions quizData userAnswers 0).
  apply (graded_copies_of_final db quiz_id). exact G.
Qed.

Lemma client_attempt_has_the_rounded_score_witness :
  QuizAttempt.score
    (new_attempt Sample.env4 (Client.request_of Sample.alice SampleClient.data)
       Sample.algebra_id)
  = Some 67%float
  /\ QuizAttempt.correct_answers
       (new_attempt Sample.env4 (Client.request_of Sample.alice SampleClient.data)
          Sample.algebra_id)
     = Some 2%float.
Proof.
  destruct (client_attempt_has_the_rounded_score Sample.env4 Sample.alice Sample.algebra_id
              SampleClient.quizData SampleClient.userAnswers 42%float Sample.catalog
              SampleClient.data
              (new_attempt Sample.env4 (Client.request_of Sample.alice SampleClient.data)
                 Sample.algebra_id))
    as (_ & _ & _ & C & S & _).
  - vm_compute. reflexivity.
  - vm_compute. reflexivity.
  - split.
    + rewrite S. vm_compute. reflexivity.
    + rewrite C. vm_compute. reflexivity.
Defined.

(* ================================================================== *)
(** * One answer per question under any interleaving *)

Lemma step_inserts (env : Env) (req : SubmitReq.t) (p p' : Async.Point)
    (db db' : DB) (c : bool) :
  Async.step env req p db = (db', p', c) ->
  (answers db' = answers db /\ inserted p' = inserted p)
  \/ (exists a, insert_answer a db = Ok db' /\ inserted p = [] /\ inserted p' = [a]).
Proof.
  intros H. destruct p; cbn [Async.step] in H.
  - destruct (findOne _ (attempts db)); [|injection H as <- <- <-; now left].
    destruct (negb (String.eqb _ _)); [injection H as <- <- <-; now left|].
    destruct (negb (Status_eqb _ _)); injection H as <- <- <-; now left.
  - destruct (findOne _ (questions db)); [|injection H as <- <- <-; now left].
    destruct (negb (String.eqb _ _)); injection H as <- <- <-; now left.
  - destruct (findOne _ (answers db)); injection H as <- <- <-; now left.
  - destruct (required_mixed (SubmitReq.selected_answer req)) as [selected|e];
      cbn [bind] in H; [|injection H as <- <- <-; now left].
    destruct (insert_answer _ db) as [db1|e] eqn:I; cbn [bind] in H;
      injection H as <- <- <-; [|now left].
    right. eexists. split; [exact I|]. split; reflexivity.
  - injection H as <- <- <-. now left.
  - destruct (Nat.eqb _ _); injection H as <- <- <-; now left.
  - injection H as <- <- <-. now left.
  - injection H as <- <- <-. now left.
  - injection H as <- <- <-. now left.
Qed.

Lemma inserted_by_app (pre post : list Async.Request) :
  inserted_by (pre ++ post) = inserted_by pre ++ inserted_by post.
Proof. unfold inserted_by. apply flat_map_app. Qed.

Lemma step_nth_accounted (db0 : DB) (i : nat) (rs rs' : list Async.Request)
    (db db' : DB) (c : bool) :
  Async.step_nth i rs db = (db', rs', c) ->
  answers_accounted db0 db rs -> answers_accounted db0 db' rs'.
Proof.
  intros H [U P].
  destruct (step_nth_inv _ _ _ _ _ _ H)
    as [(-> & -> & _) | (pre & r & post & p' & -> & -> & S)]; [now split|].
  apply step_inserts in S. unfold answers_accounted.
  rewrite inserted_by_app in *. cbn [inserted_by flat_map Async.req_point] in *.
  fold (inserted_by post) in *.
  destruct S as [(A & I) | (a & I & E & E')].
  - split.
    + unfold one_answer_per_question in *. now rewrite A.
    + now rewrite A, I.
  - split; [eapply insert_answer_unique; eassumption|].
    rewrite E in P. rewrite E'. cbn [app] in *.
    unfold insert_answer in I. destruct (existsb _ (answers db)); [discriminate|].
    injection I as <-. cbn [with_answers answers].
    rewrite app_assoc.
    apply (Permutation_trans (Permutation_sym (Permutation_cons_append (answers db) a))).
    apply Permutation_cons_app. rewrite <- app_assoc. exact P.
Qed.

Lemma run_accounted (db0 : DB) (schedule : list nat) :
  forall rs rs' db db' n,
  Async.run schedule rs db = (db', rs', n) ->
  answers_accounted db0 db rs -> answers_accounted db0 db' rs'.
Proof.
  induction schedule as [|i later IH]; intros rs rs' db db' n H A; cbn [Async.run] in H.
  - injection H as <- <- _. exact A.
  - destruct (Async.step_nth i rs db) as [[db1 rs1] c] eqn:S.
    destruct (Async.run later rs1 db1) as [[db2 rs2] m] eqn:R.
    injection H as <- <- _.
    eapply IH; [exact R|]. eapply step_nth_accounted; eassumption.
Qed.

Lemma arrived_inserted_nothing (reqs : list (Env * SubmitReq.t)) :
  inserted_by (map (fun er => Async.arrive (fst er) (snd er)) reqs) = [].
Proof.
  induction reqs as [|[env req] reqs IH]; [reflexivity|].
  cbn [map inserted_by flat_map fst snd]. fold (inserted_by
    (map (fun er => Async.arrive (fst er) (snd er)) reqs)). rewrite IH.
  unfold Async.arrive, Async.start. cbn [Async.req_point].
  destruct (negb (isValidUUID _)); [reflexivity|].
  destruct (valid_question_id _); reflexivity.
Qed.

Lemma created_are_inserted (rs : list Async.Request) (a : QuizAttemptAnswer.t) :
  In a (created_answers rs) -> In a (inserted_by rs).
Proof.
  unfold created_answers, inserted_by. rewrite !in_flat_map.
  intros (r & I & C). exists r. split; [exact I|].
  destruct (Async.req_point r) as [| | | | | | | |[ic b|s m] o]; try contradiction.
  exact C.
Qed.

Lemma NoDup_app_disjoint {A : Type} (l l' : list A) (x : A) :
  NoDup (l ++ l') -> In x l -> In x l' -> False.
Proof.
  intros N I I'. apply in_split in I'. destruct I' as (l1 & l2 & ->).
  rewrite app_assoc in N. apply NoDup_remove_2 in N. apply N.
  apply in_or_app. left. apply in_or_app. now left.
Qed.

Lemma NoDup_created (rs : list Async.Request) :
  NoDup (map answer_key (inserted_by rs)) -> NoDup (map answer_key (created_answers rs)).
Proof.
  induction rs as [|r rs IH]; [trivial|].
  cbn [inserted_by created_answers flat_map].
  fold (inserted_by rs). fold (created_answers rs).
  destruct (Async.req_point r) as [| | | | | | | |[ic b|s m] o]; cbn [inserted app map];
    intros N; try (apply IH; exact N);
    try (inversion N as [|? ? NI N']; subst; apply IH; exact N').
  inversion N as [|? ? NI N']; subst. constructor; [|apply IH; exact N'].
  intros I. apply NI. apply in_map_iff in I. destruct I as (x & E & I).
  rewrite <- E. apply in_map. apply created_are_inserted. exact I.
Qed.

(** X24 (submitQuizAnswer, one awaited operation at a time).  However the
    steps of concurrent submissions are interleaved, the stored answers stay
    one per attempt and question: the answers after the run are those before
    it and one for each request that got past its insertion, no two requests
    are answered 201 for the same attempt and question, and none for a
    question that was answered before the run. *)
Theorem one_answer_under_any_interleaving (schedule : list nat)
    (reqs : list (Env * SubmitReq.t)) (db db' : DB) (rs : list Async.Request) (n : nat) :
  one_answer_per_question db ->
  Async.run schedule (map (fun er => Async.arrive (fst er) (snd er)) reqs) db
  = (db', rs, n) ->
  one_answer_per_question db'
  /\ Permutation (answers db') (answers db ++ inserted_by rs)
  /\ NoDup (map answer_key (created_answers rs))
  /\ forall a, In a (created_answers rs) ->
       In a (answers db')
       /\ ~ In (answer_key a) (map answer_key (answers db)).
Proof.
  intros U R.
  assert (answers_accounted db db (map (fun er => Async.arrive (fst er) (snd er)) reqs))
    as A0.
  { split; [exact U|]. rewrite arrived_inserted_nothing, app_nil_r. reflexivity. }
  destruct (run_accounted db schedule _ _ _ _ _ R A0) as [U' P].
  split; [exact U'|]. split; [exact P|].
  assert (NoDup (map answer_key (answers db) ++ map answer_key (inserted_by rs))) as N.
  { rewrite <- map_app. eapply Permutation_NoDup; [|exact U'].
    apply Permutation_map. exact P. }
  split.
  - apply NoDup_created. eapply NoDup_app_remove_l. exact N.
  - intros a I. apply created_are_inserted in I. split.
    + apply (Permutation_in _ (Permutation_sym P)). apply in_or_app. now right.
    + intros K. apply (NoDup_app_disjoint _ _ _ N K). apply in_map. exact I.
Qed.

Lemma one_answer_under_any_interleaving_witness :
  one_answer_per_question
    (fst (fst (Async.run both_insert_then_count last_two Sample.after_one))).
Proof.
  destruct (Async.run both_insert_then_count last_two Sample.after_one)
    as [[db' rs] n] eqn:R.
  apply (one_answer_under_any_interleaving both_insert_then_count
           [ (Sample.env2, Sample.answer_to "q-2" "X");
             (Sample.env3, Sample.answer_to "q-3" "C") ]
           Sample.after_one db' rs n).
  - apply submit_unique. constructor.
  - exact R.
Defined.

(* ================================================================== *)
(** * The answers the insight run counts, found by queries *)

Lemma recent_most_recent (n : nat) (userId : string) (db : DB) :
  most_recent_completed n userId db (recent_completed n userId db).
Proof.
  destruct (recent_completed_spec n userId db) as (sorted & P & S & E).
  exists sorted. split; [exact P|]. split; [|split; [|exact E]].
  2:{ apply (StronglySorted_impl completed_not_before); [|exact S].
      intros a b. unfold completed_not_before, latest_first, date_leb.
      destruct (QuizAttempt.completed_at a), (QuizAttempt.completed_at b);
        try easy. intros H. now apply Z.leb_le in H. }
  intros a. split.
  - intros I. apply (Permutation_in _ P) in I. apply filter_In in I.
    destruct I as [I C]. unfold completed_by in C. apply andb_true_iff in C.
    destruct C as [C1 C2]. apply String.eqb_eq in C1. apply Status_eqb_eq in C2. auto.
  - intros (I & U & C). apply (Permutation_in _ (Permutation_sym P)).
    apply filter_In. split; [exact I|]. unfold completed_by.
    rewrite U, C, String.eqb_refl. reflexivity.
Qed.

Lemma of_attempts_ids (l : list QuizAttempt.t) (answer : QuizAttemptAnswer.t) :
  existsb (String.eqb (QuizAttemptAnswer.attempt_id answer)) (map QuizAttempt.id l)
  = of_attempts l answer.
Proof.
  unfold of_attempts. induction l as [|a r IH]; simpl; [reflexivity|].
  now rewrite IH, String.eqb_sym.
Qed.

Lemma taken_in_ids (l : list QuizAttempt.t) (quiz : Quiz.t) :
  existsb (String.eqb (Quiz.id quiz)) (nodup string_dec (map QuizAttempt.quiz_id l))
  = taken_in l quiz.
Proof.
  unfold taken_in. apply eq_true_iff_eq. rewrite !existsb_exists. split.
  - intros (k & I & E). apply nodup_In, in_map_iff in I. destruct I as (a & <- & I).
    exists a. split; [exact I|]. now rewrite String.eqb_sym.
  - intros (a & I & E). exists (QuizAttempt.quiz_id a). split.
    + apply nodup_In, in_map. exact I.
    + now rewrite String.eqb_sym.
Qed.

(** The map of quizzes gives, for an id, the last of the quizzes that has
    it. *)
Lemma own_quizMap_from (l : list Quiz.t) (k : string) :
  forall m,
  Obj.own (fold_left (fun m quiz => Obj.set m (Quiz.id quiz) quiz) l m) k
  = match find (fun quiz => String.eqb (Quiz.id quiz) k) (rev l) with
    | Some quiz => Some quiz
    | None => Obj.own m k
    end.
Proof.
  induction l as [|a r IH]; intros m; simpl; [reflexivity|].
  rewrite IH, find_app_first.
  destruct (find _ (rev r)); [reflexivity|].
  simpl. destruct (String.eqb (Quiz.id a) k) eqn:E.
  - apply String.eqb_eq in E. subst k. apply own_set_same.
  - apply own_set_other. apply String.eqb_neq in E. congruence.
Qed.

Lemma own_quiz_map (attempts : list QuizAttempt.t) (db : DB) (k : string) :
  Obj.own (quiz_map attempts db) k
  = find (fun quiz => String.eqb (Quiz.id quiz) k)
         (rev (filter (taken_in attempts) (quizzes db))).
Proof.
  unfold quiz_map. rewrite own_quizMap_from.
  rewrite (filter_ext _ (taken_in attempts)) by (intros q; apply taken_in_ids).
  destruct (find _ _); reflexivity.
Qed.

Lemma own_question_map (l : list QuizAttemptAnswer.t) (db : DB)
    (answer : QuizAttemptAnswer.t) :
  In answer l ->
  Obj.own (question_map l db) (QuizAttemptAnswer.question_id answer)
  = find (fun question =>
            String.eqb (Question.id question) (QuizAttemptAnswer.question_id answer))
         (rev (questions db)).
Proof.
  intros I. unfold question_map.
  rewrite (own_questionMap_from _ _ []). cbn [Obj.own].
  rewrite <- filter_rev.
  match goal with
  | |- match ?f with _ => _ end = _ => assert (f = find (question_has_id (QuizAttemptAnswer.question_id answer)) (rev (questions db))) as ->
  end.
  { apply find_filter_implied. intros q Q. unfold question_has_id in Q.
    apply String.eqb_eq in Q. apply existsb_exists.
    exists (QuizAttemptAnswer.question_id answer).
    split; [apply nodup_In, in_map; exact I | apply String.eqb_eq; exact Q]. }
  unfold question_has_id. destruct (find _ _); reflexivity.
Qed.

(** The graded answers of a topic are the answers of the analysed attempts
    whose question, and the quiz of that question among the quizzes of
    these attempts, are found, the quiz being on the topic. *)
Lemma graded_answers_by_spec (env : Env) (userId : string) (db : DB) (topic : string) :
  topic <> "" ->
  details_of topic (graded_answers env userId db)
  = map (fun e => detail_of env (recent_completed 20 userId db) (snd e) (fst e))
        (answers_by_spec topic (recent_completed 20 userId db)
           (rev (questions db))
           (rev (filter (taken_in (recent_completed 20 userId db)) (quizzes db)))
           (answers db)).
Proof.
  intros T. unfold graded_answers, graded.
  set (recent := recent_completed 20 userId db).
  set (analysed := analysed_answers recent db).
  assert (forall a, In a analysed ->
            topic_of_answer (question_map analysed db) (quiz_map recent db) a
            = match quiz_by_spec (rev (questions db))
                      (rev (filter (taken_in recent) (quizzes db))) a with
              | Some quiz =>
                  match Quiz.topic quiz with
                  | EmptyString => None
                  | _ => Some (Quiz.topic quiz, quiz)
                  end
              | None => None
              end) as K.
  { intros a I. unfold topic_of_answer, quiz_by_spec.
    rewrite (own_question_map _ _ _ I).
    destruct (find _ (rev (questions db))) as [question|]; [|reflexivity].
    rewrite own_quiz_map.
    destruct (find _ (rev (filter _ (quizzes db)))) as [quiz|]; [|reflexivity].
    destruct (Quiz.topic quiz); reflexivity. }
  assert (forall l, incl (filter (of_attempts recent) l) analysed ->
            details_of topic
              (flat_map (graded_answer env recent (question_map analysed db)
                           (quiz_map recent db))
                 (filter (of_attempts recent) l))
            = map (fun e => detail_of env recent (snd e) (fst e))
                  (answers_by_spec topic recent (rev (questions db))
                     (rev (filter (taken_in recent) (quizzes db))) l)) as G.
  { induction l as [|a r IH]; intros I; [reflexivity|].
    cbn [filter answers_by_spec flat_map] in *.
    fold (answers_by_spec topic recent (rev (questions db))
            (rev (filter (taken_in recent) (quizzes db))) r).
    destruct (of_attempts recent a) eqn:O.
    - cbn [flat_map]. rewrite details_of_app, map_app.
      rewrite IH by (intros x X; apply I; now right). f_equal.
      unfold graded_answer. rewrite (K a) by (apply I; now left).
      destruct (quiz_by_spec _ _ a) as [quiz|]; [|reflexivity].
      destruct (Quiz.topic quiz) as [|c s] eqn:Q.
      + destruct topic; [congruence | reflexivity].
      + unfold details_of. cbn [filter fst]. rewrite <- Q.
        destruct (String.eqb (Quiz.topic quiz) topic); reflexivity.
    - apply IH. exact I. }
  assert (analysed = filter (of_attempts recent) (answers db)) as A.
  { unfold analysed, analysed_answers. apply filter_ext. intros a. apply of_attempts_ids. }
  rewrite A at 2. apply G. rewrite <- A. apply incl_refl.
Qed.

Lemma fold_weights (l : list (QuizAttemptAnswer.t * Quiz.t)) (f : QuizAttemptAnswer.t * Quiz.t -> AttemptDetail)
    (w : Quiz.t -> Number) :
  (forall e, weight (f e) = w (snd e)) ->
  forall acc,
  fold_left (fun sum a => (sum + weight a)%float) (map f l) acc
  = fold_left (fun sum e => (sum + w (snd e))%float) l acc.
Proof.
  intros W. induction l as [|e r IH]; intros acc; simpl; [reflexivity|].
  now rewrite IH, W.
Qed.

Lemma filter_map_swap {A B : Type} (f : A -> B) (p : B -> bool) (l : list A) :
  filter p (map f l) = map f (filter (fun a => p (f a)) l).
Proof.
  induction l as [|a r IH]; simpl; [reflexivity|].
  rewrite IH. destruct (p (f a)); reflexivity.
Qed.

Lemma answers_by_spec_counted (topic : string) (db : DB) (attempts : list QuizAttempt.t) :
  Forall (counted_for topic db attempts)
         (answers_by_spec topic attempts (rev (questions db))
            (rev (filter (taken_in attempts) (quizzes db))) (answers db)).
Proof.
  apply Forall_forall. intros [a z] I. unfold answers_by_spec in I.
  apply in_flat_map in I. destruct I as (answer & IA & I).
  destruct (of_attempts attempts answer) eqn:O; [|contradiction].
  unfold quiz_by_spec in I.
  destruct (find _ (rev (questions db))) as [question|] eqn:FQ; [|contradiction].
  destruct (find _ (rev (filter _ (quizzes db)))) as [quiz|] eqn:FZ; [|contradiction].
  destruct (String.eqb (Quiz.topic quiz) topic) eqn:T; [|contradiction].
  destruct I as [I | []]. injection I as <- <-.
  apply find_some in FQ. destruct FQ as [IQ EQ]. apply in_rev in IQ.
  apply find_some in FZ. destruct FZ as [IZ EZ]. apply in_rev, filter_In in IZ.
  destruct IZ as [IZ K].
  apply String.eqb_eq in EQ, EZ, T.
  unfold of_attempts in O. apply existsb_exists in O. destruct O as (attempt & IT & ET).
  apply String.eqb_eq in ET.
  unfold taken_in in K. apply existsb_exists in K. destruct K as (taken & IK & EK).
  apply String.eqb_eq in EK.
  unfold counted_for. cbn [fst snd].
  split; [exact IA|]. split; [exists attempt; now split|].
  split; [exists question; now repeat split|]. split; [exact IZ|].
  split; [exists taken; now split | exact T].
Qed.

Lemma find_filter_first {A : Type} (p keep : A -> bool) (l : list A) (x : A) :
  find p l = Some x -> keep x = true -> find p (filter keep l) = Some x.
Proof.
  induction l as [|a r IH]; simpl; [discriminate|].
  destruct (p a) eqn:P.
  - intros E K. injection E as ->. rewrite K. simpl. now rewrite P.
  - intros E K. destruct (keep a); [simpl; rewrite P|]; now apply IH.
Qed.

Lemma find_filter_none {A : Type} (p keep : A -> bool) (l : list A) :
  find p l = None -> find p (filter keep l) = None.
Proof.
  induction l as [|a r IH]; simpl; [reflexivity|].
  destruct (p a) eqn:P; [discriminate|].
  intros E. destruct (keep a); [simpl; rewrite P|]; now apply IH.
Qed.

(** Where the ids of the questions and of the quizzes are unique and the
    answers are on questions of the quiz of their attempt, the join is the
    join over the two collections as they stand. *)
Lemma answers_by_spec_unique (topic : string) (db : DB) (attempts : list QuizAttempt.t) :
  NoDup (map Question.id (questions db)) ->
  NoDup (map Quiz.id (quizzes db)) ->
  answers_on_their_quiz db attempts ->
  answers_by_spec topic attempts (rev (questions db))
    (rev (filter (taken_in attempts) (quizzes db))) (answers db)
  = answers_by_spec topic attempts (questions db) (quizzes db) (answers db).
Proof.
  intros NQ NZ R. unfold answers_by_spec.
  assert (forall l, incl l (answers db) ->
            flat_map
              (fun answer =>
                 if of_attempts attempts answer then
                   match quiz_by_spec (rev (questions db))
                           (rev (filter (taken_in attempts) (quizzes db))) answer with
                   | Some quiz =>
                       if String.eqb (Quiz.topic quiz) topic then [(answer, quiz)] else []
                   | None => []
                   end
                 else []) l
            = flat_map
                (fun answer =>
                   if of_attempts attempts answer then
                     match quiz_by_spec (questions db) (quizzes db) answer with
                     | Some quiz =>
                         if String.eqb (Quiz.topic quiz) topic then [(answer, quiz)] else []
                     | None => []
                     end
                   else []) l) as G; [|apply G, incl_refl].
  induction l as [|a r IH]; intros I; [reflexivity|].
  cbn [flat_map]. rewrite IH by (intros x X; apply I; now right). f_equal.
  destruct (of_attempts attempts a) eqn:O; [|reflexivity].
  unfold quiz_by_spec.
  rewrite (find_rev_unique Question.id _ _ NQ).
  destruct (find _ (questions db)) as [question|] eqn:FQ; [|reflexivity].
  rewrite (find_rev_unique Quiz.id _ _ (NoDup_map_filter _ _ _ NZ)).
  destruct (find (fun quiz => String.eqb (Quiz.id quiz) (Question.quiz_id question))
                 (quizzes db)) as [quiz|] eqn:FZ.
  - rewrite (find_filter_first _ _ _ _ FZ); [reflexivity|].
    apply find_some in FQ. destruct FQ as [IQ EQ]. apply String.eqb_eq in EQ.
    apply find_some in FZ. destruct FZ as [IZ EZ]. apply String.eqb_eq in EZ.
    unfold of_attempts in O. apply existsb_exists in O. destruct O as (attempt & IT & ET).
    apply String.eqb_eq in ET.
    unfold taken_in. apply existsb_exists. exists attempt. split; [exact IT|].
    apply String.eqb_eq. rewrite EZ. symmetry.
    apply (R a attempt question); auto. apply I. now left.
  - now rewrite (find_filter_none _ _ _ FZ).
Qed.

(** C5: in the snapshot of a user, returned and saved, the proficiency of
    every topic with three counted answers or more is
    [round(weighted_correct / weighted_total * 100)] (a topic is a string
    that is not empty: a quiz without one is skipped).  The counted answers
    are the stored answers of the 20 most recent completed attempts of the
    user whose question is stored and belongs to a stored quiz of the topic,
    one of the quizzes these attempts were taken on (of two documents with
    one id the last is taken; the ids are unique in a database the schemas
    allow).  Each weighs 1.0, 1.5 or 2.0 as that quiz is easy, medium or
    hard; [weighted_total] adds the weights of all of them and
    [weighted_correct] the weights of the correct ones.  In a database with
    unique ids whose answers are on questions of the quiz of their attempt,
    the counted answers are the answers of these attempts joined with their
    question and its quiz.  The details the generator grades for the topic
    are these answers, one by one. *)
Theorem proficiency_is_weighted_percentage (env : Env) (userId : string)
    (db db' : DB) (doc : MLInsight.t) (topic : string) :
  generateUserInsights env userId db = Ok (db', Some doc) ->
  topic <> "" ->
  let recent := recent_completed 20 userId db in
  let counted :=
    answers_by_spec topic recent (rev (questions db))
      (rev (filter (taken_in recent) (quizzes db))) (answers db) in
  let weight_of := fun quiz : Quiz.t =>
    match Quiz.difficulty quiz with
    | EASY => 1.0%float
    | MEDIUM => 1.5%float
    | HARD => 2.0%float
    end in
  let weighted_total :=
    fold_left (fun sum e => (sum + weight_of (snd e))%float) counted zero in
  let weighted_correct :=
    fold_left (fun sum e => (sum + weight_of (snd e))%float)
      (filter (fun e => QuizAttemptAnswer.is_correct (fst e)) counted) zero in
  3 <= List.length counted ->
  Obj.own (MLInsight.topic_performance doc) topic
  = Some (Math_round (weighted_correct / weighted_total * 100)%float)
  /\ MLInsight.topic_proficiency doc = Some (MLInsight.topic_performance doc)
  /\ (exists saved,
        findOne (insight_of_user userId) (insights db') = Some saved
        /\ MLInsight.topic_performance saved = MLInsight.topic_performance doc)
  /\ most_recent_completed 20 userId db recent
  /\ Forall (counted_for topic db recent) counted
  /\ (NoDup (map Question.id (questions db)) ->
      NoDup (map Quiz.id (quizzes db)) ->
      answers_on_their_quiz db recent ->
      counted = answers_by_spec topic recent (questions db) (quizzes db) (answers db))
  /\ details_of topic (graded_answers env userId db)
     = map (fun e => mkDetail (QuizAttemptAnswer.is_correct (fst e))
                              (answer_timestamp env recent (fst e))
                              (Quiz.difficulty (snd e))
                              (weight_of (snd e)))
           counted.
Proof.
  intros H T recent counted weight_of weighted_total weighted_correct Q.
  destruct (generate_snapshot env userId db db' doc H) as (t & sc & saved & R & S & -> & -> & F).
  destruct (tally_answers_spec env userId db t R) as [Ht N].
  destruct (score_topics_spec _ t sc Ht N S) as [_ P].
  assert (forall e : QuizAttemptAnswer.t * Quiz.t,
            detail_of env recent (snd e) (fst e)
            = mkDetail (QuizAttemptAnswer.is_correct (fst e))
                       (answer_timestamp env recent (fst e))
                       (Quiz.difficulty (snd e))
                       (weight_of (snd e))) as D.
  { intros [a z]. unfold detail_of, weight_of. cbn [fst snd].
    destruct (Quiz.difficulty z); reflexivity. }
  pose proof (graded_answers_by_spec env userId db topic T) as G.
  fold recent in G. fold counted in G.
  rewrite (map_ext _ _ D) in G.
  split.
  - destruct (P topic) as [P1 _].
    { rewrite G, length_map. exact Q. }
    cbn [returned_insight updated_insight MLInsight.topic_performance].
    rewrite P1, G. unfold proficiency_of, sum_weights. f_equal. f_equal. f_equal. f_equal.
    + rewrite filter_map_swap. cbn [is_correct].
      apply (fold_weights _ _ weight_of). reflexivity.
    + apply (fold_weights _ _ weight_of). reflexivity.
  - split; [reflexivity|].
    split; [eexists; split; [exact F | reflexivity]|].
    split; [apply recent_most_recent|].
    split; [apply answers_by_spec_counted|].
    split; [apply answers_by_spec_unique | exact G].
Qed.

Lemma mixed_unique_questions : NoDup (map Question.id (questions SampleMixed.after_hard)).
Proof. vm_compute. repeat constructor; simpl; intuition discriminate. Qed.

Lemma mixed_unique_quizzes : NoDup (map Quiz.id (quizzes SampleMixed.after_hard)).
Proof. vm_compute. repeat constructor; simpl; intuition discriminate. Qed.

Lemma mixed_answers_on_their_quiz :
  answers_on_their_quiz SampleMixed.after_hard
    (recent_completed 20 SampleMixed.carol SampleMixed.after_hard).
Proof.
  intros answer attempt question IA IT ET IQ EQ.
  vm_compute in IA, IT, IQ.
  repeat match goal with
         | H : _ \/ _ |- _ => destruct H as [H | H]
         | H : False |- _ => destruct H
         end; subst; try discriminate; reflexivity.
Qed.

Lemma proficiency_is_weighted_percentage_witness :
  Obj.own (MLInsight.topic_performance SampleMixed.snapshot) "Algebra" = Some 41%float
  /\ map (fun e => (QuizAttemptAnswer.is_correct (fst e), Quiz.difficulty (snd e)))
         (answers_by_spec "Algebra"
            (recent_completed 20 SampleMixed.carol SampleMixed.after_hard)
            (rev (questions SampleMixed.after_hard))
            (rev (filter (taken_in (recent_completed 20 SampleMixed.carol
                                      SampleMixed.after_hard))
                         (quizzes SampleMixed.after_hard)))
            (answers SampleMixed.after_hard))
     = [(true, EASY); (false, EASY); (true, EASY); (true, MEDIUM); (false, HARD);
        (false, HARD)]
  /\ map weight
         (details_of "Algebra"
            (graded_answers SampleMixed.clock SampleMixed.carol SampleMixed.after_hard))
     = [1.0%float; 1.0%float; 1.0%float; 1.5%float; 2.0%float; 2.0%float].
Proof.
  destruct (proficiency_is_weighted_percentage SampleMixed.clock SampleMixed.carol
              SampleMixed.after_hard SampleMixed.saved_db SampleMixed.snapshot "Algebra")
    as (P & _ & _ & _ & _ & U & G).
  - vm_compute. reflexivity.
  - discriminate.
  - vm_compute. repeat constructor.
  - split; [rewrite P; vm_compute; reflexivity|].
    split.
    + rewrite (U mixed_unique_questions mixed_unique_quizzes mixed_answers_on_their_quiz).
      vm_compute. reflexivity.
    + rewrite G. vm_compute. reflexivity.
Defined.

(* ================================================================== *)
(** * The dashboard: the entries of the history and the weak topics *)

Lemma format_attempt_shows (l : list QuizAttempt.t) :
  Forall2 entry_shows l (map format_attempt l).
Proof.
  induction l as [|a r IH]; simpl; constructor; [|exact IH].
  unfold entry_shows, format_attempt. simpl. now repeat split.
Qed.

Lemma validate_scores_or_zero (o : Obj.t Number) :
  Obj.keys (validate_scores (numbers o)) = Obj.keys o
  /\ forall k x,
       Obj.own o k = Some x ->
       Obj.own (validate_scores (numbers o)) k = Some (VNum (score_or_zero x)).
Proof.
  destruct (validate_scores_numbers o) as [K V]. split; [exact K|].
  intros k x O. rewrite (V k x O). unfold score_or_zero, invalid_score, isNaN.
  now destruct (is_nan x || ltb x zero || ltb 100%float x).
Qed.

Lemma keys_validate_scores (o : Obj.t jsval) :
  Obj.keys (validate_scores o) = Obj.keys o.
Proof. unfold validate_scores, Obj.keys. rewrite map_map. reflexivity. Qed.

Lemma own_validate_scores (o : Obj.t jsval) (k : string) :
  Obj.own (validate_scores o) k
  = option_map (fun v => if invalid_score v then VNum zero else v) (Obj.own o k).
Proof.
  unfold validate_scores.
  apply (own_map_values (fun v => if invalid_score v then VNum zero else v)).
Qed.

(** The weak topics taken from the proficiency: the value under a name is
    set when the name is a weak topic other than [__proto__] and the
    proficiency has a property of that name, its own or inherited. *)
Lemma weak_from_proficiency (prof : Obj.t jsval) (weak : list string) (k : string) :
  forall o,
  Obj.own
    (fold_left
       (fun o topic =>
          match get_property prof topic with
          | Some v => set_property o topic v
          | None => o
          end)
       weak o) k
  = if in_dec string_dec k weak then
      if String.eqb k "__proto__" then Obj.own o k
      else match get_property prof k with
           | Some v => Some v
           | None => Obj.own o k
           end
    else Obj.own o k.
Proof.
  induction weak as [|w weak IH]; intros o; cbn [fold_left]; [reflexivity|].
  set (o' := match get_property prof w with
             | Some v => set_property o w v
             | None => o
             end).
  rewrite (IH o').
  assert (w <> k -> Obj.own o' k = Obj.own o k) as D.
  { intros X. unfold o'. destruct (get_property prof w) as [v|]; [|reflexivity].
    unfold set_property. destruct (String.eqb w "__proto__"); [reflexivity|].
    apply own_set_other. congruence. }
  assert (w = k ->
          Obj.own o' k = if String.eqb k "__proto__" then Obj.own o k
                         else match get_property prof k with
                              | Some v => Some v
                              | None => Obj.own o k
                              end) as S.
  { intros ->. unfold o', set_property.
    destruct (get_property prof k) as [v|]; [|now destruct (String.eqb k "__proto__")].
    destruct (String.eqb k "__proto__"); [reflexivity | apply own_set_same]. }
  destruct (in_dec string_dec k weak) as [I | I];
    destruct (in_dec string_dec k (w :: weak)) as [J | J].
  - destruct (string_dec w k) as [E | E].
    + rewrite (S E). destruct (String.eqb k "__proto__"); [reflexivity|].
      now destruct (get_property prof k).
    + now rewrite (D E).
  - exfalso. apply J. now right.
  - destruct J as [E | J]; [now apply S | contradiction].
  - apply D. intros E. apply J. now left.
Qed.

(** C9: for a user asking for their own dashboard the handler answers 200.
    The performance history shows the ten most recent completed attempts of
    the user, or all of them when there are fewer, latest completion first:
    entry by entry the id, the quiz, the score, the two counts and the date
    of the attempt.  Without a snapshot the lists and maps are empty and the
    last update is null.  With one, they are those of the user's latest
    snapshot: its weak and strong topics, its confidence scores, its date,
    its proficiency with 0 in the place of every score that is not a number
    from 0 to 100, and as weak-topic map its [weak_topics_data] treated the
    same way, or, when the snapshot has none, the proficiency sent for each
    of its weak topics (0 for a weak topic that only [Object.prototype] has
    a property for, and nothing under [__proto__]). *)
Theorem dashboard_of_own_user (userId : string) (db : DB) :
  exists data,
    getDashboardData userId userId db = DashboardOk data
    /\ Forall2 entry_shows (recent_completed 10 userId db)
               (DashboardData.performance_history data)
    /\ most_recent_completed 10 userId db (recent_completed 10 userId db)
    /\ List.length (DashboardData.performance_history data) <= 10
    /\ ((forall i, In i (insights db) -> MLInsight.user_id i <> userId) ->
        DashboardData.weak_topics_array data = []
        /\ DashboardData.strong_topics data = []
        /\ DashboardData.confidence_scores data = []
        /\ DashboardData.topic_proficiency data = []
        /\ DashboardData.weak_topics data = []
        /\ DashboardData.insight_last_updated data = None)
    /\ (forall i,
          In i (insights db) -> MLInsight.user_id i = userId ->
          exists latest,
            In latest (insights db)
            /\ MLInsight.user_id latest = userId
            /\ (MLInsight.last_updated i <= MLInsight.last_updated latest)%Z
            /\ DashboardData.weak_topics_array data = MLInsight.weak_topics latest
            /\ DashboardData.strong_topics data = MLInsight.strong_topics latest
            /\ DashboardData.confidence_scores data = MLInsight.confidence_scores latest
            /\ DashboardData.insight_last_updated data
               = Some (MLInsight.last_updated latest)
            /\ Obj.keys (DashboardData.topic_proficiency data)
               = Obj.keys (proficiency_source latest)
            /\ (forall k x,
                  Obj.own (proficiency_source latest) k = Some x ->
                  Obj.own (DashboardData.topic_proficiency data) k
                  = Some (VNum (score_or_zero x)))
            /\ (forall e r,
                  MLInsight.weak_topics_data latest = Some (e :: r) ->
                  Obj.keys (DashboardData.weak_topics data) = Obj.keys (e :: r)
                  /\ forall k x,
                       Obj.own (e :: r) k = Some x ->
                       Obj.own (DashboardData.weak_topics data) k
                       = Some (VNum (score_or_zero x)))
            /\ (MLInsight.weak_topics_data latest = None
                \/ MLInsight.weak_topics_data latest = Some [] ->
                (forall k, ~ In k (MLInsight.weak_topics latest) \/ k = "__proto__" ->
                           Obj.own (DashboardData.weak_topics data) k = None)
                /\ (forall k, In k (MLInsight.weak_topics latest) ->
                              k <> "__proto__" ->
                              Obj.own (DashboardData.weak_topics data) k
                              = match Obj.own (DashboardData.topic_proficiency data) k with
                                | Some v => Some v
                                | None =>
                                    if Obj.inherited k then Some (VNum zero) else None
                                end))).
Proof.
  unfold getDashboardData. rewrite String.eqb_refl. simpl.
  eexists. split; [reflexivity|]. simpl.
  split; [apply format_attempt_shows|].
  split; [apply recent_most_recent|].
  split.
  { rewrite length_map. destruct (recent_completed_spec 10 userId db) as (s & _ & _ & ->).
    rewrite length_firstn. lia. }
  split.
  - intros N. apply latest_insight_none in N. rewrite N. simpl. now repeat split.
  - intros i I U.
    destruct (latest_insight userId db) as [latest|] eqn:L.
    + destruct (latest_insight_some userId db latest L) as (I' & U' & M).
      exists latest.
      do 7 (split; [solve [auto]|]).
      split; [|split; [|split]].
      * unfold dashboard_proficiency, proficiency_source.
        destruct (MLInsight.topic_proficiency latest) as [[|e r]|];
          apply validate_scores_or_zero.
      * unfold dashboard_proficiency, proficiency_source.
        destruct (MLInsight.topic_proficiency latest) as [[|e r]|];
          apply validate_scores_or_zero.
      * intros e r W. unfold dashboard_weak_topics. rewrite W.
        apply validate_scores_or_zero.
      * intros W.
        assert (dashboard_weak_topics (Some latest) (dashboard_proficiency (Some latest))
                = fold_left
                    (fun o topic =>
                       match get_property (dashboard_proficiency (Some latest)) topic with
                       | Some v => set_property o topic v
                       | None => o
                       end)
                    (MLInsight.weak_topics latest) []) as ->.
        { unfold dashboard_weak_topics. destruct W as [-> | ->]; reflexivity. }
        split.
        -- intros k N. rewrite own_validate_scores, weak_from_proficiency.
           cbn [Obj.own].
           destruct (in_dec string_dec k (MLInsight.weak_topics latest)) as [X | X];
             [|reflexivity].
           destruct N as [N | ->]; [contradiction | reflexivity].
        -- intros k I0 N. rewrite !own_validate_scores, weak_from_proficiency.
           cbn [Obj.own].
           destruct (in_dec string_dec k (MLInsight.weak_topics latest)) as [_ | X];
             [|contradiction].
           destruct (String.eqb_spec k "__proto__") as [E | _]; [contradiction|].
           unfold get_property.
           destruct (Obj.own (dashboard_proficiency (Some latest)) k) as [v|];
             [reflexivity|].
           destruct (Obj.inherited k); reflexivity.
    + exfalso. rewrite latest_insight_none in L. now apply (L i I).
Qed.

Lemma dashboard_of_own_user_witness :
  exists data,
    getDashboardData SampleMixed.carol SampleMixed.carol SampleMixed.saved_db
    = DashboardOk data
    /\ DashboardData.performance_history data
       = [ PerformanceEntry.mk "h-0" SampleMixed.hard_id (Some 0%float) (Some 0%float)
             (Some 2%float) 5003%Z;
           PerformanceEntry.mk "m-0" SampleMixed.medium_id (Some 100%float) (Some 1%float)
             (Some 1%float) 5002%Z;
           PerformanceEntry.mk "e-0" Sample.algebra_id (Some 67%float) (Some 2%float)
             (Some 3%float) 5001%Z ]
    /\ DashboardData.weak_topics_array data = ["Algebra"]
    /\ Obj.own (DashboardData.topic_proficiency data) "Algebra" = Some (VNum 41%float)
    /\ Obj.own (DashboardData.weak_topics data) "Algebra" = Some (VNum 41%float)
    /\ Obj.own (DashboardData.weak_topics data) "Biology" = None
    /\ DashboardData.insight_last_updated data = Some 6000%Z.
Proof.
  destruct (dashboard_of_own_user SampleMixed.carol SampleMixed.saved_db)
    as (data & E & H & _ & _ & _ & S).
  exists data. split; [exact E|].
  destruct (S (MLInsight.mk "i-0" SampleMixed.carol ["Algebra"] []
                 [("Algebra", 37%float)] [("Algebra", 41%float)] 6000%Z None None))
    as (latest & I & _ & _ & WA & _ & _ & LU & _ & P & _ & W).
  { vm_compute. left. reflexivity. }
  { reflexivity. }
  vm_compute in I. destruct I as [<- | []].
  destruct W as [N Y]; [left; reflexivity|].
  split.
  - assert (Forall2 entry_shows
              [ QuizAttempt.mk "h-0" SampleMixed.carol SampleMixed.hard_id COMPLETED
                  (Some 0%float) (Some 2%float) (Some 0%float) (Some 20%float)
                  5003%Z (Some 5003%Z);
                QuizAttempt.mk "m-0" SampleMixed.carol SampleMixed.medium_id COMPLETED
                  (Some 100%float) (Some 1%float) (Some 1%float) (Some 10%float)
                  5002%Z (Some 5002%Z);
                QuizAttempt.mk "e-0" SampleMixed.carol Sample.algebra_id COMPLETED
                  (Some 67%float) (Some 3%float) (Some 2%float) (Some 30%float)
                  5001%Z (Some 5001%Z) ]
              (DashboardData.performance_history data)) as H'.
    { assert (recent_completed 10 SampleMixed.carol SampleMixed.saved_db
              = [ QuizAttempt.mk "h-0" SampleMixed.carol SampleMixed.hard_id COMPLETED
                    (Some 0%float) (Some 2%float) (Some 0%float) (Some 20%float)
                    5003%Z (Some 5003%Z);
                  QuizAttempt.mk "m-0" SampleMixed.carol SampleMixed.medium_id COMPLETED
                    (Some 100%float) (Some 1%float) (Some 1%float) (Some 10%float)
                    5002%Z (Some 5002%Z);
                  QuizAttempt.mk "e-0" SampleMixed.carol Sample.algebra_id COMPLETED
                    (Some 67%float) (Some 3%float) (Some 2%float) (Some 30%float)
                    5001%Z (Some 5001%Z) ]) as R by (vm_compute; reflexivity).
      rewrite <- R. exact H. }
    clear - H'. revert H'. generalize (DashboardData.performance_history data).
    intros history H.
    repeat match goal with
           | X : Forall2 entry_shows _ _ |- _ => inversion X; subst; clear X
           end.
    repeat match goal with
           | X : entry_shows _ ?e |- _ =>
               destruct e; destruct X as (? & ? & ? & ? & ? & ?);
               cbn [PerformanceEntry.id PerformanceEntry.quiz_id PerformanceEntry.score
                    PerformanceEntry.correct_answers PerformanceEntry.total_questions
                    PerformanceEntry.date QuizAttempt.id QuizAttempt.quiz_id
                    QuizAttempt.score QuizAttempt.correct_answers
                    QuizAttempt.total_questions QuizAttempt.completed_at] in *;
               subst
           end.
    reflexivity.
  - split; [exact WA|].
    pose proof (P "Algebra" 41%float eq_refl) as PA.
    split; [exact PA|].
    split.
    + rewrite (Y "Algebra"); [now rewrite PA | now left | discriminate].
    + split; [|exact LU]. apply N. left. intros [X | []]. discriminate X.
Defined.

(* ================================================================== *)
(** * The score of a bulk submission *)

(** C1 (as amended): the attempt a bulk submission creates is stored,
    completed, with the score the request carries, as it was sent: it is
    added to the attempts, it is the attempt found under its id, and the
    handler computes its score neither from the answers nor from the two
    counts of the request. *)
Theorem bulk_score_is_the_score_sent (env : Env) (req : CreateReq.t) (db : DB)
    (att : QuizAttempt.t) :
  out_response (createQuizAttempt env req db) = CreateCreated att ->
  attempts (out_db (createQuizAttempt env req db)) = attempts db ++ [att]
  /\ findOne (attempt_has_id (QuizAttempt.id att))
             (attempts (out_db (createQuizAttempt env req db)))
     = Some att
  /\ QuizAttempt.status att = COMPLETED
  /\ QuizAttempt.score att = CreateReq.score req.
Proof.
  intros H.
  destruct (create_checked env req db att H) as (Fresh & _).
  destruct (create_created env req db att H) as (quiz_id & inputs & docs & _ & _ & E & D & _).
  rewrite D. cbn [with_answers with_attempts attempts].
  split; [reflexivity|]. split.
  - unfold findOne. rewrite find_app_first, Fresh. cbn [find].
    unfold attempt_has_id. now rewrite String.eqb_refl.
  - subst att. now split.
Qed.

Lemma bulk_score_is_the_score_sent_witness :
  exists att,
    findOne (attempt_has_id (QuizAttempt.id att))
            (attempts (out_db (createQuizAttempt Sample.env4 (Sample.bulk 250%float "q-3")
                                 Sample.catalog)))
    = Some att
    /\ QuizAttempt.status att = COMPLETED
    /\ QuizAttempt.score att = Some 250%float
    /\ QuizAttempt.correct_answers att = Some 0%float
    /\ QuizAttempt.total_questions att = Some 3%float.
Proof.
  exists (new_attempt Sample.env4 (Sample.bulk 250%float "q-3") Sample.algebra_id).
  destruct (bulk_score_is_the_score_sent Sample.env4 (Sample.bulk 250%float "q-3")
              Sample.catalog
              (new_attempt Sample.env4 (Sample.bulk 250%float "q-3") Sample.algebra_id))
    as (_ & F & C & S).
  - vm_compute. reflexivity.
  - split; [exact F|]. split; [exact C|]. split; [exact S|]. split; reflexivity.
Defined.
